(** * Verification of the tech-news-scraper scripts

    A shallow embedding of the four scraper variants
    ([scrape-articles.py], [us-scraper.py], [euro-scraper.py],
    [asia-scraper.py]) and of the theme mapping of
    [article-clustering-tool.py].

    Conventions of the embedding:
    - a Python [str] is a Rocq [string]; its characters are read as the code
      points 0..255, and [len] is [String.length];
    - a parsed page (a BeautifulSoup tree) is a [Dom.node]; the CSS selector
      engine ([select], [select_one]) is a library and is a parameter;
    - the network, the wall clock, [random.random()] and the chat completion
      service are oracles indexed by the number of interactions made so far;
    - the file system, the log of [time.sleep] calls and that counter form
      the [world], threaded through the code by a state monad; the file
      system has directories and files only (no permissions, no full disk,
      no links, and a path names a file by its string): [open] for writing
      fails when the directory is missing or the path is a directory, and
      not otherwise;
    - the scripts append their messages to a log file in the working
      directory ([log_file]); neither the messages nor the content of that
      file are modelled, and the properties about the disk speak of the other
      files;
    - the floats of the program (the sleep delays, the average of the
      report) are read as exact rationals, where the program rounds to
      doubles;
    - the HTTP headers are not modelled (they only influence what the
      network oracle answers). *)

From stdpp Require Import gmap strings list fin_maps.
From Stdlib Require Import ZArith QArith Ascii String.

Local Open Scope string_scope.
Local Open Scope Z_scope.

(** ** Python string operations *)

Module PyStr.

(** [str.isspace] on one character, for the code points below 256: the
    ASCII white space, the separators 28..31, NEL (133) and NBSP (160). *)
Definition isspace (c : ascii) : bool :=
  let n := nat_of_ascii c in
  ((9 <=? n) && (n <=? 13) || (28 <=? n) && (n <=? 32)
   || (n =? 133) || (n =? 160))%nat.

Fixpoint lstrip_by (p : ascii -> bool) (s : string) : string :=
  match s with
  | String c s' => if p c then lstrip_by p s' else s
  | EmptyString => EmptyString
  end.

Fixpoint rstrip_by (p : ascii -> bool) (s : string) : string :=
  match s with
  | String c s' =>
      match rstrip_by p s' with
      | EmptyString => if p c then EmptyString else String c EmptyString
      | r => String c r
      end
  | EmptyString => EmptyString
  end.

(** [s.strip()] *)
Definition strip (s : string) : string := rstrip_by isspace (lstrip_by isspace s).

(** [s.lstrip(c)] and [s.rstrip(c)] for a one-character argument *)
Definition lstrip_char (c : ascii) (s : string) : string :=
  lstrip_by (fun x => bool_decide (x = c)) s.
Definition rstrip_char (c : ascii) (s : string) : string :=
  rstrip_by (fun x => bool_decide (x = c)) s.

(** [s.startswith(p)] *)
Definition startswith (p s : string) : bool := String.prefix p s.

(** [s[:n]] for [n >= 0] *)
Fixpoint take (n : nat) (s : string) : string :=
  match n, s with
  | S n', String c s' => String c (take n' s')
  | _, _ => EmptyString
  end.

(** [s[n:]] for [n >= 0] *)
Fixpoint drop (n : nat) (s : string) : string :=
  match n, s with
  | S n', String _ s' => drop n' s'
  | _, _ => s
  end.

(** [s.endswith(p)] *)
Definition endswith (p s : string) : bool :=
  (String.length p <=? String.length s)%nat
  && bool_decide (drop (String.length s - String.length p) s = p).

(** [sep.join(l)] *)
Fixpoint join (sep : string) (l : list string) : string :=
  match l with
  | [] => EmptyString
  | [x] => x
  | x :: rest => x +:+ sep +:+ join sep rest
  end.

(** [s.replace(old, new)] for a non-empty [old]: every occurrence, scanning
    from the left without overlap. The fuel is the length of [s]. *)
Fixpoint replace_fuel (fuel : nat) (old new s : string) : string :=
  match fuel with
  | O => s
  | S fuel' =>
      match s with
      | EmptyString => EmptyString
      | String c s' =>
          if String.prefix old s
          then new +:+ replace_fuel fuel' old new (drop (String.length old) s)
          else String c (replace_fuel fuel' old new s')
      end
  end.
Definition replace (old new s : string) : string :=
  replace_fuel (String.length s) old new s.

(** the longest prefix of characters satisfying [p] *)
Fixpoint take_while (p : ascii -> bool) (s : string) : string :=
  match s with
  | String c s' => if p c then String c (take_while p s') else EmptyString
  | EmptyString => EmptyString
  end.

Fixpoint filter (p : ascii -> bool) (s : string) : string :=
  match s with
  | String c s' => if p c then String c (filter p s') else filter p s'
  | EmptyString => EmptyString
  end.

Fixpoint map (f : ascii -> ascii) (s : string) : string :=
  match s with
  | String c s' => String (f c) (map f s')
  | EmptyString => EmptyString
  end.

(** index just past the last occurrence of [c] in [s] ([s.rfind(c) + 1]) *)
Fixpoint after_last (c : ascii) (s : string) : nat :=
  match s with
  | EmptyString => O
  | String x s' =>
      match after_last c s' with
      | O => if bool_decide (x = c) then 1%nat else O
      | S k => S (S k)
      end
  end.

(** Python truthiness of a [str] *)
Definition truthy (s : string) : bool := negb (bool_decide (s = EmptyString)).

End PyStr.

(** ** The parsed page *)

Module Dom.

(** A BeautifulSoup tree: text nodes and tags with attributes. *)
Inductive node : Type :=
| Text (s : string)
| Elem (tag : string) (attrs : list (string * string)) (children : list node).

(** [tag.name] *)
Definition name (n : node) : option string :=
  match n with Text _ => None | Elem t _ _ => Some t end.

(** [tag.get(key)]: the first attribute of that name *)
Fixpoint assoc (key : string) (l : list (string * string)) : option string :=
  match l with
  | [] => None
  | (k, v) :: rest => if bool_decide (k = key) then Some v else assoc key rest
  end.
Definition get (key : string) (n : node) : option string :=
  match n with Text _ => None | Elem _ a _ => assoc key a end.

(** [tag.get_text()]: the text nodes below, in document order *)
Fixpoint get_text (n : node) : string :=
  match n with
  | Text s => s
  | Elem _ _ cs => List.fold_right (fun c acc => get_text c +:+ acc) EmptyString cs
  end.

(** the nodes strictly below [n], in document order *)
Fixpoint descendants (n : node) : list node :=
  match n with
  | Text _ => []
  | Elem _ _ cs => List.flat_map (fun c => c :: descendants c) cs
  end.

Definition has_tag (t : string) (n : node) : bool :=
  match n with Text _ => false | Elem t' _ _ => bool_decide (t' = t) end.

(** [tag.find_all(t)] *)
Definition find_all (t : string) (n : node) : list node :=
  List.filter (has_tag t) (descendants n).

(** [tag.find(t)] *)
Definition find (t : string) (n : node) : option node :=
  List.head (find_all t n).

End Dom.

(** ** The wall clock *)

Record datetime : Type := mkDatetime {
  dt_year : nat; dt_month : nat; dt_day : nat;
  dt_hour : nat; dt_minute : nat; dt_second : nat; dt_micro : nat
}.

Module Clock.

Definition digit (n : nat) : ascii := ascii_of_nat (48 + n mod 10).

(** the last [w] decimal digits of [n], zero padded *)
Fixpoint pad (w n : nat) : string :=
  match w with
  | O => EmptyString
  | S w' => pad w' (n / 10) +:+ String (digit n) EmptyString
  end.

(** [strftime("%Y-%m-%d")] *)
Definition strftime_ymd (t : datetime) : string :=
  pad 4 (dt_year t) +:+ "-" +:+ pad 2 (dt_month t) +:+ "-" +:+ pad 2 (dt_day t).

(** [strftime('%Y%m%d%H%M%S')] *)
Definition strftime_compact (t : datetime) : string :=
  pad 4 (dt_year t) +:+ pad 2 (dt_month t) +:+ pad 2 (dt_day t)
  +:+ pad 2 (dt_hour t) +:+ pad 2 (dt_minute t) +:+ pad 2 (dt_second t).

(** [isoformat()]: the microseconds are printed unless they are zero *)
Definition isoformat (t : datetime) : string :=
  strftime_ymd t +:+ "T" +:+ pad 2 (dt_hour t) +:+ ":" +:+ pad 2 (dt_minute t)
  +:+ ":" +:+ pad 2 (dt_second t)
  +:+ (if (dt_micro t =? 0)%nat then EmptyString else "." +:+ pad 6 (dt_micro t)).

End Clock.

(** ** Sources, records and the four variants *)

Inductive variant : Type := Base | US | Europe | Asia.

#[global] Instance variant_eq_dec : EqDecision variant.
Proof. solve_decision. Defined.

(** One entry of [self.sources]. Every entry of the four tables has the
    selector keys and a category; [region] is read with [source['region']]
    by the regional variants, [country] always with [source.get]. *)
Record Source : Type := mkSource {
  src_name : string;
  src_url : string;
  article_selector : string;
  title_selector : string;
  content_selector : string;
  date_selector : string;
  src_category : string;
  src_region : string;
  src_country : option string
}.

(** The dict built by [scrape_article]. The keys ['region'], ['country'] and
    ['language'] exist only in some variants. *)
Record ArticleRecord : Type := mkArticle {
  source : string;
  category : string;
  region : option string;
  country : option string;
  url : string;
  title : string;
  author : string;
  description : string;
  content : string;
  date : string;
  content_length : Z;
  language : option string;
  scraped_at : string
}.

Definition TITLE_NOT_FOUND : string := "Title not found".
Definition CONTENT_NOT_FOUND : string := "Content not found".
Definition AUTHOR_NOT_FOUND : string := "Author not found".

Definition dq : string := String (ascii_of_nat 34) EmptyString.

Definition TITLE_FALLBACK : string := "h1, .headline, .article-title, .title".
Definition CONTENT_FALLBACK : string :=
  ".article-body, .content, .entry-content, article, [itemprop=" +:+ dq +:+ "articleBody" +:+ dq +:+ "]".
Definition DATE_FALLBACK : string :=
  "time, .date, .timestamp, [itemprop=" +:+ dq +:+ "datePublished" +:+ dq +:+ "]".
Definition AUTHOR_SELECTOR : string :=
  ".author, [rel=" +:+ dq +:+ "author" +:+ dq +:+ "], [itemprop=" +:+ dq +:+ "author" +:+ dq +:+ "], .byline".
Definition DESCRIPTION_SELECTOR : string :=
  "meta[name=" +:+ dq +:+ "description" +:+ dq +:+ "]".
Definition HEADLINE_LINKS : string := "h2 a, h3 a, .headline a, .title a".

(** [len(s)] as a Python int *)
Definition len (s : string) : Z := Z.of_nat (String.length s).

(** ** The environment

    [select] is the selector engine ([soup.select(sel)], all matches in
    document order); [select_one] is its first match. The other fields are
    the oracles: the answer of the [n]-th interaction with the outside. *)

Record Env : Type := mkEnv {
  select : string -> Dom.node -> list Dom.node;
  http_get : nat -> string -> option Dom.node;
  clock : nat -> datetime;
  random : nat -> Q;
  chat : nat -> string -> option string
}.

Definition select_one (E : Env) (sel : string) (n : Dom.node) : option Dom.node :=
  List.head (select E sel n).

(** ** Link discovery: [get_article_links] *)

(** [re.match(r'(https?://[^/]+)', u)] and its group 1; [None] when the
    pattern does not match (the code then fails on [.group]). *)
Definition domain_with (scheme u : string) : option string :=
  if PyStr.startswith scheme u then
    let host := PyStr.take_while (fun c => negb (bool_decide (c = "/"%char)))
                  (PyStr.drop (String.length scheme) u) in
    if PyStr.truthy host then Some (scheme +:+ host) else None
  else None.

Definition domain_of (u : string) : option string :=
  match domain_with "https://" u with
  | Some d => Some d
  | None => domain_with "http://" u
  end.

(** [t.get('href')] when it is truthy *)
Definition href (t : Dom.node) : option string :=
  match Dom.get "href" t with
  | Some h => if PyStr.truthy h then Some h else None
  | None => None
  end.

(** The three methods tried on one container, in order. *)
Definition resolve_link (E : Env) (article : Dom.node) : option string :=
  let link1 := match Dom.find "a" article with
               | Some link_tag => href link_tag
               | None => None
               end in
  let link2 := match link1 with
               | Some l => Some l
               | None => match select_one E HEADLINE_LINKS article with
                         | Some headline => href headline
                         | None => None
                         end
               end in
  match link2 with
  | Some l => Some l
  | None => if bool_decide (Dom.name article = Some "a") then href article else None
  end.

(** "Handle relative URLs". [None] is the exception raised when the source
    URL does not match the pattern. The base script has the first branch
    only. *)
Definition normalize_link (v : variant) (source_url link : string) : option string :=
  if PyStr.startswith "/" link then
    match domain_of source_url with
    | Some domain => Some (domain +:+ link)
    | None => None
    end
  else
    match v with
    | Base => Some link
    | US | Europe | Asia =>
        if negb (PyStr.startswith "http" link) then
          match domain_of source_url with
          | Some domain => Some (domain +:+ "/" +:+ PyStr.lstrip_char "/" link)
          | None => None
          end
        else Some link
    end.

(** [link not in links] *)
Definition not_in (link : string) (links : list string) : bool :=
  negb (bool_decide (link ∈ links)).

(** the test before [links.append(link)] *)
Definition keep_link (v : variant) (links : list string) (link : string) : bool :=
  match v with
  | Base => not_in link links
  | US | Europe | Asia => not_in link links && negb (PyStr.endswith "#" link)
  end.

(** One iteration of [for article in articles[:15]]. *)
Definition add_link (E : Env) (v : variant) (source_url : string)
    (links : list string) (article : Dom.node) : option (list string) :=
  match resolve_link E article with
  | None => Some links
  | Some link =>
      match normalize_link v source_url link with
      | None => None
      | Some link' =>
          Some (if keep_link v links link' then (links ++ [link'])%list else links)
      end
  end.

Fixpoint collect_links (E : Env) (v : variant) (source_url : string)
    (links : list string) (articles : list Dom.node) : option (list string) :=
  match articles with
  | [] => Some links
  | article :: rest =>
      match add_link E v source_url links article with
      | Some links' => collect_links E v source_url links' rest
      | None => None
      end
  end.

(** The body of [get_article_links] once the homepage was requested:
    [page] is [None] when the request raised (network error, status code);
    any exception gives the empty list. *)
Definition links_of_page (E : Env) (v : variant) (src : Source)
    (page : option Dom.node) : list string :=
  match page with
  | None => []
  | Some soup =>
      let articles := select E (article_selector src) soup in
      match collect_links E v (src_url src) [] (take 15 articles) with
      | Some links => links
      | None => []
      end
  end.

(** ** Article extraction: [scrape_article] *)

(** the source's selector first, the generic list when it finds nothing *)
Definition two_tier (E : Env) (sel fallback : string) (soup : Dom.node) : option Dom.node :=
  match select_one E sel soup with
  | Some x => Some x
  | None => select_one E fallback soup
  end.

Definition stripped_text (n : Dom.node) : string := PyStr.strip (Dom.get_text n).

Definition title_text_of (title : option Dom.node) : string :=
  match title with
  | Some t => stripped_text t
  | None => TITLE_NOT_FOUND
  end.

Definition content_text_of (content : option Dom.node) : string :=
  match content with
  | Some c =>
      let paragraphs := Dom.find_all "p" c in
      let content_text := PyStr.join " " (List.map stripped_text paragraphs) in
      if negb (PyStr.truthy content_text) then stripped_text c else content_text
  | None => CONTENT_NOT_FOUND
  end.

Definition author_text_of (author : option Dom.node) : string :=
  match author with
  | Some a => stripped_text a
  | None => AUTHOR_NOT_FOUND
  end.

(** [meta_desc['content'] if meta_desc and meta_desc.get('content') else ""] *)
Definition description_of (meta_desc : option Dom.node) : string :=
  match meta_desc with
  | Some m =>
      match Dom.get "content" m with
      | Some c => if PyStr.truthy c then c else EmptyString
      | None => EmptyString
      end
  | None => EmptyString
  end.

(** the ['language'] key of the European and Asian records *)
Definition language_of (v : variant) (src : Source) : option string :=
  match v with
  | Base | US => None
  | Europe =>
      let c := default "uk" (src_country src) in
      Some (if bool_decide (c = "uk") then "en"
            else if bool_decide (c = "germany") then "de"
            else if bool_decide (c = "france") then "fr"
            else if bool_decide (c = "spain") then "es"
            else "en")
  | Asia =>
      let c := src_country src in
      Some (if bool_decide (c = Some "japan") then "ja"
            else if bool_decide (c = Some "china") then "zh"
            else if bool_decide (c = Some "south_korea") then "ko"
            else "en")
  end.

Definition region_of (v : variant) (src : Source) : option string :=
  match v with Base => None | US | Europe | Asia => Some (src_region src) end.

Definition country_of (v : variant) (src : Source) : option string :=
  match v with
  | Base | US => None
  | Europe | Asia => Some (default EmptyString (src_country src))
  end.

(** ** Reports, summaries and the documents kept in files *)

(** The dict of [summarize_with_openai]. *)
Record Summary : Type := mkSummary {
  article_title : string;
  article_source : string;
  article_url : string;
  article_date : string;
  summary : string;
  summary_generated_at : string
}.

(** The dict of [generate_report]. The maps that only some variants have
    are optional; [report_stamps] holds the ['timeframe'] or ['scraped_at']
    time stamps. [average_content_length] is the int [0] or the float
    quotient, read as a rational. *)
Record Report : Type := mkReport {
  total_articles : Z;
  by_source : gmap string Z;
  by_region : option (gmap string Z);
  by_country : option (gmap string Z);
  by_category : gmap string Z;
  by_language : option (gmap string Z);
  average_content_length : Q;
  report_stamps : list string
}.

(** What [json.dump] wrote into a file, as the value it encodes. *)
Inductive document : Type :=
| ArticlesDoc (articles : list ArticleRecord)
| ArticleDoc (article : ArticleRecord)
| ReportDoc (report : Report)
| SummaryDoc (s : Summary).

(** ** The world and its monad *)

Record world : Type := mkWorld {
  fs_dirs : gset string;
  fs_files : gmap string document;
  sleeps : list Q;
  tick : nat
}.

Definition M (A : Type) : Type := world -> A * world.

Definition ret {A : Type} (a : A) : M A := fun w => (a, w).

Definition bind {A B : Type} (c : M A) (k : A -> M B) : M B :=
  fun w => let (a, w') := c w in k a w'.

Notation "x <- c ;; k" := (bind c (fun x => k))
  (at level 100, c at next level, right associativity).
Notation "c ;;; k" := (bind c (fun _ => k))
  (at level 100, right associativity).

Definition bump (w : world) : world :=
  mkWorld (fs_dirs w) (fs_files w) (sleeps w) (S (tick w)).

(** [session.get(u, ...)], [raise_for_status] and the parse *)
Definition fetch (E : Env) (u : string) : M (option Dom.node) :=
  fun w => (http_get E (tick w) u, bump w).

(** [datetime.now()] *)
Definition now (E : Env) : M datetime :=
  fun w => (clock E (tick w), bump w).

(** [random.random()] *)
Definition rand (E : Env) : M Q :=
  fun w => (random E (tick w), bump w).

(** the chat completion call; [None] when it raises *)
Definition ask (E : Env) (prompt : string) : M (option string) :=
  fun w => (chat E (tick w) prompt, bump w).

(** [time.sleep(d)] *)
Definition sleep (d : Q) : M unit :=
  fun w => (tt, mkWorld (fs_dirs w) (fs_files w) (sleeps w ++ [d])%list (tick w)).

(** ** Paths and files *)

Module Path.

Definition is_slash (c : ascii) : bool := bool_decide (c = "/"%char).

(** [os.path.dirname] *)
Definition dirname (p : string) : string :=
  let head := PyStr.take (PyStr.after_last "/" p) p in
  if PyStr.truthy head && PyStr.truthy (PyStr.filter (fun c => negb (is_slash c)) head)
  then PyStr.rstrip_char "/" head
  else head.

(** [os.path.basename] *)
Definition basename (p : string) : string := PyStr.drop (PyStr.after_last "/" p) p.

(** [os.path.join(a, b)] *)
Definition join (a b : string) : string :=
  if PyStr.startswith "/" b then b
  else if negb (PyStr.truthy a) || PyStr.endswith "/" a then a +:+ b
  else a +:+ "/" +:+ b.

(** [os.path.splitext(name)[0]] for a name without directory part *)
Definition splitext_root (name : string) : string :=
  match PyStr.after_last "." name with
  | O => name
  | S dot =>
      let root := PyStr.take dot name in
      if PyStr.truthy (PyStr.filter (fun c => negb (bool_decide (c = "."%char))) root)
      then root else name
  end.

(** [p], its parent, its grandparent, ... (the chain [os.makedirs] climbs);
    the fuel is the length of [p]. *)
Fixpoint chain (fuel : nat) (p : string) : list string :=
  match fuel with
  | O => [p]
  | S fuel' =>
      let head := dirname p in
      if PyStr.truthy head && negb (bool_decide (head = p))
      then p :: chain fuel' head
      else [p]
  end.

End Path.

Definition is_dir (p : string) (w : world) : bool := bool_decide (p ∈ fs_dirs w).
Definition is_file (p : string) (w : world) : bool := bool_decide (is_Some (fs_files w !! p)).

(** [os.path.exists] *)
Definition path_exists (p : string) (w : world) : bool := is_dir p w || is_file p w.

Definition add_dir (p : string) (w : world) : world :=
  mkWorld ({[p]} ∪ fs_dirs w) (fs_files w) (sleeps w) (tick w).

Definition put_file (p : string) (d : document) (w : world) : world :=
  mkWorld (fs_dirs w) (<[p := d]> (fs_files w)) (sleeps w) (tick w).

(** [os.mkdir(name)] inside [os.makedirs]: [false] stands for the exception.
    The directory is created when nothing has that name and the parent is a
    directory (or the working directory); an existing directory is accepted
    under [exist_ok]. *)
Definition mkdir (exist_ok : bool) (name : string) (parent : option string) : M bool :=
  fun w =>
    let parent_ok := match parent with
                     | Some h => is_dir h w
                     | None => true
                     end in
    if negb (path_exists name w) && parent_ok then (true, add_dir name w)
    else (exist_ok && is_dir name w, w).

(** [os.makedirs(name, exist_ok)] along the chain [name :: heads]. *)
Fixpoint makedirs_chain (exist_ok : bool) (names : list string) : M bool :=
  match names with
  | [] => ret true
  | name :: heads =>
      match heads with
      | [] => mkdir exist_ok name None
      | head :: _ =>
          fun w =>
            if path_exists head w then mkdir exist_ok name (Some head) w
            else
              let (ok, w') := makedirs_chain exist_ok heads w in
              if ok then mkdir exist_ok name (Some head) w' else (false, w')
      end
  end.

Definition makedirs (exist_ok : bool) (name : string) : M bool :=
  makedirs_chain exist_ok (Path.chain (String.length name) name).

(** [with open(p, 'w') as f: json.dump(d, f)]: [false] stands for the
    exception of [open] (missing parent directory, or [p] is a directory). *)
Definition write_json (p : string) (d : document) : M bool :=
  fun w =>
    let parent := Path.dirname p in
    if (negb (PyStr.truthy parent) || is_dir parent w) && negb (is_dir p w)
    then (true, put_file p d w)
    else (false, w).

(** [with open(p, 'r') as f: json.load(f)] *)
Definition read_json (p : string) : M (option document) :=
  fun w => (fs_files w !! p, w).

(** ** Configuration *)

(** The constructor arguments and what [__main__] sets before [run]:
    [articles_limit] is [--articles] (the wrapper around
    [get_article_links]); the US script takes [output_dir], the others
    [output_file]. *)
Record Config : Type := mkConfig {
  output_file : string;
  output_dir : string;
  retry_attempts : Z;
  articles_limit : option Z;
  openai_api_key : option string;
  sources : list Source
}.

(** [l[:n]] for any int [n] *)
Definition slice_to {A : Type} (n : Z) (l : list A) : list A :=
  if 0 <=? n then take (Z.to_nat n) l
  else take (List.length l - Z.to_nat (- n)) l.

Definition get_article_links (E : Env) (v : variant) (src : Source) : M (list string) :=
  page <- fetch E (src_url src) ;;
  ret (links_of_page E v src page).

(** [limited_get_article_links], installed when [args.articles] is truthy *)
Definition get_article_links_cfg (E : Env) (v : variant) (cfg : Config) (src : Source)
  : M (list string) :=
  links <- get_article_links E v src ;;
  ret (match articles_limit cfg with
       | Some n => if n =? 0 then links else slice_to n links
       | None => links
       end).

(** [scrape_article]: [None] when the request or the parse raised (the
    selectors of the source tables are taken to be well formed, so that
    [select_one] itself does not raise). The clock is read for the date only
    when no date element is found, and once more for ['scraped_at']. *)
Definition scrape_article (E : Env) (v : variant) (link : string) (src : Source)
  : M (option ArticleRecord) :=
  page <- fetch E link ;;
  match page with
  | None => ret None
  | Some soup =>
      let title_text :=
        title_text_of (two_tier E (title_selector src) TITLE_FALLBACK soup) in
      let content_text :=
        content_text_of (two_tier E (content_selector src) CONTENT_FALLBACK soup) in
      date_text <- match two_tier E (date_selector src) DATE_FALLBACK soup with
                   | Some d => ret (stripped_text d)
                   | None => t <- now E ;; ret (Clock.strftime_ymd t)
                   end ;;
      let author_text := author_text_of (select_one E AUTHOR_SELECTOR soup) in
      let description := description_of (select_one E DESCRIPTION_SELECTOR soup) in
      stamp <- now E ;;
      ret (Some {| source := src_name src;
                   category := src_category src;
                   region := region_of v src;
                   country := country_of v src;
                   url := link;
                   title := title_text;
                   author := author_text;
                   description := description;
                   content := content_text;
                   date := date_text;
                   content_length := len content_text;
                   language := language_of v src;
                   scraped_at := Clock.isoformat stamp |})
  end.

(** The test of the article loop of [run] that decides between
    [all_articles.append] and another attempt. *)
Definition is_success (v : variant) (article_data : option ArticleRecord) : bool :=
  match article_data with
  | None => false
  | Some a =>
      match v with
      | Base => true
      | US =>
          negb (bool_decide (title a = EmptyString))
          && negb (bool_decide (content a = CONTENT_NOT_FOUND))
      | Europe | Asia =>
          negb (bool_decide (title a = TITLE_NOT_FOUND))
          && negb (bool_decide (content a = CONTENT_NOT_FOUND))
      end
  end.

(** ** Persistence *)

(** [save_to_json] of the base script *)
Definition save_to_json_base (cfg : Config) (articles : list ArticleRecord) : M unit :=
  _ <- write_json (output_file cfg) (ArticlesDoc articles) ;;
  ret tt.

(** [save_to_json] of the European and Asian scripts ("Make sure directory
    exists"); an exception of [os.makedirs] skips the write. *)
Definition save_to_json_regional (cfg : Config) (articles : list ArticleRecord) : M unit :=
  let dir := Path.dirname (output_file cfg) in
  fun w =>
    let (ok, w1) := if PyStr.truthy dir && negb (path_exists dir w)
                    then makedirs false dir w
                    else (true, w) in
    if ok then (tt, snd (write_json (output_file cfg) (ArticlesDoc articles) w1))
    else (tt, w1).

(** The checkpoint of [run] after a source; the US script has none. *)
Definition save_to_json (v : variant) (cfg : Config) (articles : list ArticleRecord) : M unit :=
  match v with
  | Base => save_to_json_base cfg articles
  | Europe | Asia => save_to_json_regional cfg articles
  | US => ret tt
  end.

(** *** The US script: one file per article, and summaries *)

Module USFiles.

(** [\w] on the code points below 256 *)
Definition is_word (c : ascii) : bool :=
  let n := nat_of_ascii c in
  ((48 <=? n) && (n <=? 57) || (65 <=? n) && (n <=? 90) || (97 <=? n) && (n <=? 122)
   || (n =? 95) || (n =? 170) || (n =? 178) || (n =? 179) || (n =? 181) || (n =? 185)
   || (n =? 186) || (188 <=? n) && (n <=? 190) || (192 <=? n) && (n <=? 214)
   || (216 <=? n) && (n <=? 246) || (248 <=? n))%nat.

Definition is_hyphen (c : ascii) : bool := bool_decide (c = "-"%char).

(** [str.lower] on one character, for the code points below 256 (no such
    character is mapped to several, as some characters above are) *)
Definition lower (c : ascii) : ascii :=
  let n := nat_of_ascii c in
  if ((65 <=? n) && (n <=? 90) || (192 <=? n) && (n <=? 214) || (216 <=? n) && (n <=? 222))%nat
  then ascii_of_nat (n + 32) else c.

(** [re.sub(r'[-\s]+', '-', s)] *)
Fixpoint collapse (in_run : bool) (s : string) : string :=
  match s with
  | EmptyString => EmptyString
  | String c s' =>
      if is_hyphen c || PyStr.isspace c
      then (if in_run then collapse true s' else String "-"%char (collapse true s'))
      else String c (collapse false s')
  end.

Definition safe_title (title : string) : string :=
  let kept := PyStr.filter (fun c => is_word c || PyStr.isspace c || is_hyphen c) title in
  PyStr.take 50 (collapse false (PyStr.map lower (PyStr.strip kept))).

Definition articles_dir (cfg : Config) : string := Path.join (output_dir cfg) "articles".
Definition summaries_dir (cfg : Config) : string := Path.join (output_dir cfg) "summaries".

(** the directory creation of [__init__]; [false] is the exception of
    [os.makedirs], which ends the constructor *)
Definition init (cfg : Config) : M bool :=
  ok <- makedirs true (articles_dir cfg) ;;
  if ok : bool then makedirs true (summaries_dir cfg) else ret false.

Definition generate_safe_filename (E : Env) (title : string) : M string :=
  t <- now E ;;
  ret (safe_title title +:+ "-" +:+ Clock.strftime_compact t).

(** returns the path written, [None] after an exception *)
Definition save_article_to_json (E : Env) (cfg : Config) (article_data : ArticleRecord)
  : M (option string) :=
  filename <- generate_safe_filename E (title article_data) ;;
  let filepath := Path.join (articles_dir cfg) (filename +:+ ".json") in
  ok <- write_json filepath (ArticleDoc article_data) ;;
  ret (if ok : bool then Some filepath else None).

Definition key_given (cfg : Config) : bool :=
  match openai_api_key cfg with
  | Some k => PyStr.truthy k
  | None => false
  end.

Definition nl : string := String (ascii_of_nat 10) EmptyString.

(** [None] stands for the dicts with an ['error'] key *)
Definition summarize_with_openai (E : Env) (cfg : Config) (article_data : ArticleRecord)
  : M (option Summary) :=
  if negb (key_given cfg) then ret None
  else
    let text := content article_data in
    let truncated_content :=
      if (4000 <? String.length text)%nat then PyStr.take 4000 text +:+ "..." else text in
    let prompt := "Please provide a concise summary of this article titled '"
                  +:+ title article_data +:+ "':" +:+ nl +:+ nl +:+ truncated_content in
    answer <- ask E prompt ;;
    match answer with
    | None => ret None
    | Some msg =>
        t <- now E ;;
        ret (Some {| article_title := title article_data;
                     article_source := source article_data;
                     article_url := url article_data;
                     article_date := date article_data;
                     summary := PyStr.strip msg;
                     summary_generated_at := Clock.isoformat t |})
    end.

Definition save_summary_to_json (cfg : Config) (summary_data : Summary)
    (article_filename : string) : M (option string) :=
  let base_filename := Path.splitext_root (Path.basename article_filename) in
  let filepath := Path.join (summaries_dir cfg) (base_filename +:+ "_summary.json") in
  ok <- write_json filepath (SummaryDoc summary_data) ;;
  ret (if ok : bool then Some filepath else None).

(** what the US [run] does with an accepted record before appending it *)
Definition store (E : Env) (cfg : Config) (article_data : ArticleRecord) : M unit :=
  article_file <- save_article_to_json E cfg article_data ;;
  match article_file with
  | Some file =>
      if key_given cfg then
        summary_data <- summarize_with_openai E cfg article_data ;;
        match summary_data with
        | Some s => _ <- save_summary_to_json cfg s file ;; ret tt
        | None => ret tt
        end
      else ret tt
  | None => ret tt
  end.

End USFiles.

(** ** The aggregate report: [generate_report] *)

(** [d[k] = d.get(k, 0) + 1] *)
Definition count (k : string) (d : gmap string Z) : gmap string Z :=
  <[k := default 0 (d !! k) + 1]> d.

(** [if k in d: d[k] += 1] *)
Definition count_known (k : string) (d : gmap string Z) : gmap string Z :=
  if bool_decide (is_Some (d !! k)) then count k d else d.

Definition zeros (keys : list string) : gmap string Z :=
  list_to_map (List.map (fun k => (k, 0)) keys).

(** [get_source_region] of the base script *)
Definition get_source_region (cfg : Config) (source_name : string) : string :=
  match List.find (fun s => bool_decide (src_name s = source_name)) (sources cfg) with
  | Some s => src_region s
  | None => "unknown"
  end.

(** the report dict before the loop *)
Definition empty_report (v : variant) (n : Z) (stamps : list string) : Report :=
  {| total_articles := n;
     by_source := ∅;
     by_region := match v with
                  | Base => Some (zeros ["north_america"; "europe"; "asia"])
                  | _ => None
                  end;
     by_country := match v with Europe | Asia => Some ∅ | _ => None end;
     by_category := match v with
                    | Asia => zeros ["technology"; "business"]
                    | _ => zeros ["technology"; "business"; "investing"]
                    end;
     by_language := match v with
                    | Europe => Some (zeros ["en"; "de"; "fr"; "es"])
                    | Asia => Some (zeros ["en"; "zh"; "ja"; "ko"])
                    | _ => None
                    end;
     average_content_length := 0%Q;
     report_stamps := stamps |}.

(** one iteration of [for article in articles], with the running
    [total_content_length] *)
Definition tally (v : variant) (cfg : Config) (st : Report * Z) (a : ArticleRecord)
  : Report * Z :=
  let (r, total_content_length) := st in
  ({| total_articles := total_articles r;
      by_source := count (source a) (by_source r);
      by_region := match v with
                   | Base => count_known (get_source_region cfg (source a)) <$> by_region r
                   | _ => by_region r
                   end;
      by_country := match v with
                    | Europe | Asia =>
                        let c := default EmptyString (country a) in
                        if PyStr.truthy c then count c <$> by_country r else by_country r
                    | _ => by_country r
                    end;
      by_category := count_known (category a) (by_category r);
      by_language := match v with
                     | Europe | Asia => count_known (default "en" (language a)) <$> by_language r
                     | _ => by_language r
                     end;
      average_content_length := average_content_length r;
      report_stamps := report_stamps r |},
   total_content_length + content_length a).

(** [a / b] on ints: [None] is [ZeroDivisionError] *)
Definition true_div (a b : Z) : option Q :=
  if b =? 0 then None else Some (inject_Z a / inject_Z b)%Q.

(** Python truthiness of a list *)
Definition nonempty {A : Type} (l : list A) : bool :=
  match l with [] => false | _ => true end.

Definition with_average (r : Report) (avg : Q) : Report :=
  {| total_articles := total_articles r;
     by_source := by_source r;
     by_region := by_region r;
     by_country := by_country r;
     by_category := by_category r;
     by_language := by_language r;
     average_content_length := avg;
     report_stamps := report_stamps r |}.

(** The report computed from a collection; [None] is an exception raised
    by the division. *)
Definition build_report (v : variant) (cfg : Config) (articles : list ArticleRecord)
    (stamps : list string) : option Report :=
  let (r, total_content_length) :=
    List.fold_left (tally v cfg) articles
      (empty_report v (Z.of_nat (List.length articles)) stamps, 0) in
  if nonempty articles then
    match true_div total_content_length (Z.of_nat (List.length articles)) with
    | Some avg => Some (with_average r avg)
    | None => None
    end
  else Some r.

Definition report_file (v : variant) (cfg : Config) : string :=
  match v with
  | US => Path.join (output_dir cfg) "scraping_report.json"
  | _ => PyStr.replace ".json" "_report.json" (output_file cfg)
  end.

(** the write of the report; its exception is logged only *)
Definition write_report (v : variant) (cfg : Config) (r : Report) : M unit :=
  _ <- write_json (report_file v cfg) (ReportDoc r) ;;
  ret tt.

(** [generate_report(articles)] of the base script *)
Definition generate_report_base (E : Env) (cfg : Config) (articles : list ArticleRecord)
  : M (option Report) :=
  t1 <- now E ;;
  t2 <- now E ;;
  match build_report Base cfg articles [Clock.isoformat t1; Clock.isoformat t2] with
  | Some r => write_report Base cfg r ;;; ret (Some r)
  | None => ret None
  end.

(** [generate_report()] of the European and Asian scripts: the collection
    is read back from [output_file]; any exception gives [None]. *)
Definition generate_report_regional (E : Env) (v : variant) (cfg : Config)
  : M (option Report) :=
  doc <- read_json (output_file cfg) ;;
  match doc with
  | Some (ArticlesDoc articles) =>
      t <- now E ;;
      match build_report v cfg articles [Clock.isoformat t] with
      | Some r => write_report v cfg r ;;; ret (Some r)
      | None => ret None
      end
  | _ => ret None
  end.

(** the [.json] entries of a directory, with what they hold *)
Definition listdir_json (dir : string) (w : world) : list (string * document) :=
  List.filter
    (fun pd => bool_decide (Path.join dir (Path.basename (fst pd)) = fst pd)
               && PyStr.endswith ".json" (fst pd))
    (map_to_list (fs_files w)).

(** the articles of a listing; [None] when an entry is not an article dict *)
Fixpoint load_articles (entries : list (string * document)) : option (list ArticleRecord) :=
  match entries with
  | [] => Some []
  | (_, ArticleDoc a) :: rest =>
      match load_articles rest with
      | Some l => Some (a :: l)
      | None => None
      end
  | _ => None
  end.

(** [generate_report()] of the US script: the collection is the content of
    the articles directory. *)
Definition generate_report_us (E : Env) (cfg : Config) : M (option Report) :=
  fun w =>
    if is_dir (USFiles.articles_dir cfg) w then
      match load_articles (listdir_json (USFiles.articles_dir cfg) w) with
      | Some articles =>
          (t <- now E ;;
           match build_report US cfg articles [Clock.isoformat t] with
           | Some r => write_report US cfg r ;;; ret (Some r)
           | None => ret None
           end) w
      | None => (None, w)
      end
    else (None, w).

(** ** The orchestrator: [run] *)

(** The link-discovery retry loop, [for attempt in range(retry_attempts)],
    from [attempt] on with [fuel] iterations left. [article_links] is the
    Python variable of that name: [None] while it is unbound. The [except]
    branch of the loop body is never entered, [get_article_links] catching
    every exception itself, and has no counterpart here. *)
Fixpoint links_loop (E : Env) (v : variant) (cfg : Config) (src : Source)
    (fuel : nat) (attempt : Z) (article_links : option (list string))
  : M (option (list string)) :=
  match fuel with
  | O => ret article_links
  | S fuel' =>
      links <- get_article_links_cfg E v cfg src ;;
      if nonempty links then ret (Some links)
      else
        (if attempt <? retry_attempts cfg - 1
         then sleep (inject_Z (3 + attempt * 2))
         else ret tt) ;;;
        links_loop E v cfg src fuel' (attempt + 1) (Some links)
  end.

(** what happens to an accepted record besides the append *)
Definition on_success (E : Env) (v : variant) (cfg : Config) (article_data : ArticleRecord)
  : M unit :=
  match v with
  | US => USFiles.store E cfg article_data
  | _ => ret tt
  end.

(** The per-article retry loop: a record that passes the test is handed
    to [on_success], appended, and ends the loop ([break]); any other result
    is followed by the back-off sleep, except after the last attempt. As in
    the link loop the [except] branch is never entered ([scrape_article] and
    the US file helpers catch every exception). *)
Fixpoint article_loop (E : Env) (v : variant) (cfg : Config) (src : Source)
    (link : string) (fuel : nat) (attempt : Z) (all_articles : list ArticleRecord)
  : M (list ArticleRecord) :=
  match fuel with
  | O => ret all_articles
  | S fuel' =>
      article_data <- scrape_article E v link src ;;
      match article_data with
      | Some a =>
          if is_success v article_data then
            on_success E v cfg a ;;; ret (all_articles ++ [a])%list
          else
            (if attempt <? retry_attempts cfg - 1
             then sleep (inject_Z (2 + attempt))
             else ret tt) ;;;
            article_loop E v cfg src link fuel' (attempt + 1) all_articles
      | None =>
          (if attempt <? retry_attempts cfg - 1
           then sleep (inject_Z (2 + attempt))
           else ret tt) ;;;
          article_loop E v cfg src link fuel' (attempt + 1) all_articles
      end
  end.

(** [for link in article_links], with the random delay before each link. *)
Fixpoint links_pass (E : Env) (v : variant) (cfg : Config) (src : Source)
    (article_links : list string) (all_articles : list ArticleRecord)
  : M (list ArticleRecord) :=
  match article_links with
  | [] => ret all_articles
  | link :: rest =>
      r <- rand E ;;
      sleep ((3 # 2) + r * 2)%Q ;;;
      all_articles' <- article_loop E v cfg src link
                         (Z.to_nat (retry_attempts cfg)) 0 all_articles ;;
      links_pass E v cfg src rest all_articles'
  end.

(** One iteration of [for source in self.sources]. The result is [None]
    when [article_links] is still unbound at [for link in article_links]
    (the uncaught [NameError]); otherwise the variable and the accumulator. *)
Definition process_source (E : Env) (v : variant) (cfg : Config) (src : Source)
    (article_links : option (list string)) (all_articles : list ArticleRecord)
  : M (option (list string * list ArticleRecord)) :=
  bound <- links_loop E v cfg src (Z.to_nat (retry_attempts cfg)) 0 article_links ;;
  match bound with
  | None => ret None
  | Some links =>
      all_articles' <- links_pass E v cfg src links all_articles ;;
      save_to_json v cfg all_articles' ;;;
      ret (Some (links, all_articles'))
  end.

Fixpoint sources_loop (E : Env) (v : variant) (cfg : Config) (srcs : list Source)
    (article_links : option (list string)) (all_articles : list ArticleRecord)
  : M (option (list ArticleRecord)) :=
  match srcs with
  | [] => ret (Some all_articles)
  | src :: rest =>
      st <- process_source E v cfg src article_links all_articles ;;
      match st with
      | None => ret None
      | Some (links, all_articles') =>
          sources_loop E v cfg rest (Some links) all_articles'
      end
  end.

(** [run]: the loop over the sources, then the final save (not in the US
    script) and the report (not in the base script, whose [__main__] calls
    [generate_report] on the result of [run]). [None] is the crash. Next to
    [all_articles] (of which the US script returns the length) the result
    carries what the inner [self.generate_report()] returned, which the
    Python code drops. *)
Definition run (E : Env) (v : variant) (cfg : Config)
  : M (option (list ArticleRecord * option Report)) :=
  done <- sources_loop E v cfg (sources cfg) None [] ;;
  match done with
  | None => ret None
  | Some all_articles =>
      save_to_json v cfg all_articles ;;;
      match v with
      | Base => ret (Some (all_articles, None))
      | US => r <- generate_report_us E cfg ;; ret (Some (all_articles, r))
      | Europe | Asia =>
          r <- generate_report_regional E v cfg ;; ret (Some (all_articles, r))
      end
  end.

(** [if not os.path.exists("scraped_data"): os.makedirs("scraped_data")],
    the first file operation of [__main__] in the base, European and Asian
    scripts; [false] is the exception of [os.makedirs]. *)
Definition ensure_scraped_data : M bool :=
  fun w =>
    if path_exists "scraped_data" w then (true, w)
    else makedirs false "scraped_data" w.

(** [__main__] from [scraper.run()] on: the base script calls
    [generate_report(articles)] on the result of [run]. *)
Definition run_and_report (E : Env) (v : variant) (cfg : Config)
  : M (option (list ArticleRecord * option Report)) :=
  match v with
  | Base =>
      done <- run E Base cfg ;;
      match done with
      | Some (articles, _) =>
          r <- generate_report_base E cfg articles ;; ret (Some (articles, r))
      | None => ret None
      end
  | US | Europe | Asia => run E v cfg
  end.

(** [__main__]: the base, European and Asian scripts create the directory
    [scraped_data] first; the US constructor creates its directories. An
    exception there ends the script. *)
Definition main (E : Env) (v : variant) (cfg : Config)
  : M (option (list ArticleRecord * option Report)) :=
  match v with
  | US =>
      ok <- USFiles.init cfg ;;
      if ok : bool then run E US cfg else ret None
  | Base | Europe | Asia =>
      ok <- ensure_scraped_data ;;
      if ok : bool then run_and_report E v cfg else ret None
  end.

(** ** The clustering tool: mapping the themes back to articles *)

Module Clustering.

(** What [extract_article_metadata] keeps of one loaded article. *)
Record Metadata : Type := mkMetadata {
  md_title : string;
  md_source : string;
  md_category : string;
  md_date : string;
  md_description : string;
  md_content_length : Z;
  content_snippet : string;
  full_article : ArticleRecord
}.

Definition extract_article_metadata (articles : list ArticleRecord) : list Metadata :=
  List.map
    (fun article =>
       {| md_title := title article;
          md_source := source article;
          md_category := category article;
          md_date := date article;
          md_description := description article;
          md_content_length := content_length article;
          content_snippet := if PyStr.truthy (content article)
                             then PyStr.take 500 (content article) +:+ "..."
                             else EmptyString;
          full_article := article |})
    articles.

(** An element of ['article_ids'] as [json.loads] returns it: an int, a
    bool (an int for Python), a float, or a value that cannot be compared
    with an int (null, string, list, object). *)
Inductive id_value : Type :=
| IdInt (i : Z)
| IdBool (b : bool)
| IdFloat (q : Q)
| IdOther.

(** One theme of the reply, through [theme.get]. *)
Record ThemeReply : Type := mkThemeReply {
  reply_name : option string;
  reply_description : option string;
  article_ids : list id_value
}.

Record Theme : Type := mkTheme {
  theme_name : string;
  theme_description : string;
  theme_articles : list ArticleRecord
}.

Record Clustered : Type := mkClustered {
  themes : list Theme;
  metadata_total_articles : Z;
  clustering_timestamp : string
}.

(** the result of an evaluation that may raise *)
Inductive outcome (A : Type) : Type :=
| Value (a : A)
| Raised.
Arguments Value {A} a.
Arguments Raised {A}.

(** [article_metadata[i]] with Python's negative indices; [Raised] is
    [IndexError] *)
Definition index (article_metadata : list Metadata) (i : Z) : outcome Metadata :=
  let n := Z.of_nat (List.length article_metadata) in
  let j := if i <? 0 then i + n else i in
  if (0 <=? j) && (j <? n) then
    match nth_error article_metadata (Z.to_nat j) with
    | Some m => Value m
    | None => Raised
    end
  else Raised.

(** The body of [for article_id in theme.get('article_ids', [])]: the
    article to append, if any. A float inside the range passes the test and
    fails as an index; a value of another type fails in the test. *)
Definition pick (article_metadata : list Metadata) (article_id : id_value)
  : outcome (option ArticleRecord) :=
  let n := Z.of_nat (List.length article_metadata) in
  let by_int i :=
    if (0 <=? i) && (i <? n) then
      match index article_metadata i with
      | Value m => Value (Some (full_article m))
      | Raised => Raised
      end
    else Value None in
  match article_id with
  | IdInt i => by_int i
  | IdBool b => by_int (if b then 1 else 0)
  | IdFloat q =>
      if (Qle_bool 0 q && negb (Qle_bool (inject_Z n) q))%bool then Raised else Value None
  | IdOther => Raised
  end.

Fixpoint gather (article_metadata : list Metadata) (ids : list id_value)
    (articles : list ArticleRecord) : outcome (list ArticleRecord) :=
  match ids with
  | [] => Value articles
  | article_id :: rest =>
      match pick article_metadata article_id with
      | Value (Some a) => gather article_metadata rest (articles ++ [a])%list
      | Value None => gather article_metadata rest articles
      | Raised => Raised
      end
  end.

(** [for theme in result.get('themes', [])] *)
Fixpoint map_themes (article_metadata : list Metadata) (reply : list ThemeReply)
    (done : list Theme) : outcome (list Theme) :=
  match reply with
  | [] => Value done
  | theme :: rest =>
      match gather article_metadata (article_ids theme) [] with
      | Value articles =>
          let theme_data := {| theme_name := default "Unnamed Theme" (reply_name theme);
                               theme_description := default EmptyString (reply_description theme);
                               theme_articles := articles |} in
          map_themes article_metadata rest
            (if nonempty articles then (done ++ [theme_data])%list else done)
      | Raised => Raised
      end
  end.

(** The answer of the chat completion call, once cleaned and parsed. *)
Inductive answer : Type :=
| ApiError
| NotJson
| Parsed (reply_themes : list ThemeReply).

(** [cluster_articles_by_theme]: [None] without a client, after a failed
    call or an unparsable answer, and after any exception while mapping. *)
Definition cluster_articles_by_theme (has_client : bool) (a : answer)
    (article_metadata : list Metadata) (stamp : string) : option Clustered :=
  if has_client then
    match a with
    | Parsed reply =>
        match map_themes article_metadata reply [] with
        | Value ts =>
            Some {| themes := ts;
                    metadata_total_articles := Z.of_nat (List.length article_metadata);
                    clustering_timestamp := stamp |}
        | Raised => None
        end
    | ApiError | NotJson => None
    end
  else None.

(** *** What the mapping is expected to compute *)

(** the integer an id stands for, if it is one *)
Definition id_int (x : id_value) : option Z :=
  match x with
  | IdInt i => Some i
  | IdBool b => Some (if b then 1 else 0)
  | IdFloat _ | IdOther => None
  end.

(** the articles of the ids [i] with [0 <= i < n], in the order of the ids *)
Definition picked (article_metadata : list Metadata) (ids : list id_value)
  : list ArticleRecord :=
  let n := Z.of_nat (List.length article_metadata) in
  List.flat_map
    (fun x =>
       match id_int x with
       | Some i =>
           if (0 <=? i) && (i <? n) then
             match nth_error article_metadata (Z.to_nat i) with
             | Some m => [full_article m]
             | None => []
             end
           else []
       | None => []
       end)
    ids.

(** the themes that keep at least one article *)
Definition kept_themes (article_metadata : list Metadata) (reply : list ThemeReply)
  : list Theme :=
  List.flat_map
    (fun theme =>
       let articles := picked article_metadata (article_ids theme) in
       if nonempty articles
       then [{| theme_name := default "Unnamed Theme" (reply_name theme);
                theme_description := default EmptyString (reply_description theme);
                theme_articles := articles |}]
       else [])
    reply.

(** a reply whose ids are all ints (or bools) *)
Definition int_ids (reply : list ThemeReply) : Prop :=
  forall theme x, In theme reply -> In x (article_ids theme) -> id_int x <> None.

End Clustering.

(** ** Notions used to state the properties *)

(** the world with one more entry in the sleep log *)
Definition slept (d : Q) (w : world) : world := snd (sleep d w).

(** the world after [k] consecutive executions of [op] *)
Fixpoint after_attempts {A : Type} (op : M A) (k : nat) (w : world) : world :=
  match k with
  | O => w
  | S k' => after_attempts op k' (snd (op w))
  end.

(** the result of attempt number [k] (from 0) of [op] started in [w] *)
Definition attempt_result {A : Type} (op : M A) (k : nat) (w : world) : A :=
  fst (op (after_attempts op k w)).

Definition set_tick (w : world) (t : nat) : world :=
  mkWorld (fs_dirs w) (fs_files w) (sleeps w) t.

(** [op] reads nothing of the world but the interaction counter and
    changes nothing else *)
Definition tick_only {A : Type} (op : M A) : Prop :=
  forall w,
    snd (op w) = set_tick w (tick (snd (op w)))
    /\ forall w', tick w' = tick w ->
         fst (op w') = fst (op w) /\ tick (snd (op w')) = tick (snd (op w)).

(** operations that leave the sleep log alone *)
Definition keeps_sleeps {A : Type} (op : M A) : Prop :=
  forall w, sleeps (snd (op w)) = sleeps w.

(** operations that leave the disk alone *)
Definition keeps_disk {A : Type} (op : M A) : Prop :=
  forall w, fs_dirs (snd (op w)) = fs_dirs w /\ fs_files (snd (op w)) = fs_files w.

(** the world in which the next attempt of a retry loop starts: after
    attempt number [attempt] the loop has slept [base + attempt * step]
    seconds, unless the attempt was the last one *)
Definition backed_off (cfg : Config) (base step attempt : Z) (w : world) : world :=
  if attempt <? retry_attempts cfg - 1
  then slept (inject_Z (base + attempt * step)) w
  else w.

(** the back-off delays [base + step * k] for [k = 0 .. j-1] *)
Definition backoffs (base step : Z) (j : nat) : list Q :=
  List.map (fun k => inject_Z (base + Z.of_nat k * step)) (seq 0 j).

(** [d] is an initial segment of [p] *)
Definition is_prefix (d p : string) : Prop := exists t, p = d +:+ t.

(** What the US, European and Asian scripts establish for a returned link:
    it starts with the scheme and host of the source, or with ["http"]. *)
Definition rooted (source_url link : string) : Prop :=
  PyStr.startswith "http" link = true
  \/ exists d, domain_of source_url = Some d /\ is_prefix d link.

(** the property of the links kept by a script other than the base one *)
Definition link_ok (v : variant) (source_url l : string) : Prop :=
  v <> Base -> rooted source_url l /\ PyStr.endswith "#" l = false.

(** the document is a serialized collection *)
Definition is_collection (d : document) : bool :=
  match d with ArticlesDoc _ => true | _ => false end.

(** The output file can be written by [save_to_json]: it is not a
    directory and, in the base script, its directory exists (or is the
    working directory); in the European and Asian scripts no path on the way
    to its directory is a file. *)
Definition writable (v : variant) (cfg : Config) (w : world) : Prop :=
  let p := output_file cfg in
  let dir := Path.dirname p in
  is_dir p w = false /\ dir <> p /\
  match v with
  | Base | US => dir = EmptyString \/ is_dir dir w = true
  | Europe | Asia =>
      forall d, In d (Path.chain (String.length dir) dir) -> is_file d w = false
  end.

(** ** Concrete inputs *)

Module Demo.

(** the alternatives of a selector list, split at the commas and trimmed *)
Fixpoint alternatives (cur s : string) : list string :=
  match s with
  | EmptyString => [PyStr.strip cur]
  | String c s' =>
      if bool_decide (c = ","%char)
      then PyStr.strip cur :: alternatives EmptyString s'
      else alternatives (cur +:+ String c EmptyString) s'
  end.

(** A small selector engine: an alternative is a tag name or [.class]
    (compared with the whole [class] attribute); any other form matches
    nothing. It agrees with the real engine on pages whose elements carry
    one class at most and match no combinator or attribute selector. *)
Definition matches (x : Dom.node) (alt : string) : bool :=
  match alt with
  | String "."%char cls => bool_decide (Dom.get "class" x = Some cls)
  | _ => Dom.has_tag alt x
  end.

Definition select (sel : string) (n : Dom.node) : list Dom.node :=
  List.filter (fun x => existsb (matches x) (alternatives EmptyString sel))
    (Dom.descendants n).

Definition day (d : nat) : datetime := mkDatetime 2025 3 d 12 0 0 0.

(** an environment answering every request with [page]; the clock shows
    day [first_day + n] of March 2025 at the [n]-th interaction *)
Definition env (page : option Dom.node) (first_day : nat) : Env :=
  mkEnv select (fun _ _ => page) (fun n => day (first_day + n))
    (fun _ => 0%Q) (fun _ _ => None).

(** an environment whose [n]-th request is answered by [pages !! n]
    (a failure past the end) *)
Definition env_seq (pages : list (option Dom.node)) : Env :=
  mkEnv select (fun n _ => default None (pages !! n)) (fun n => day (1 + n))
    (fun _ => 0%Q) (fun _ _ => None).

Definition doc (children : list Dom.node) : Dom.node :=
  Dom.Elem "[document]" [] children.

Definition p (s : string) : Dom.node := Dom.Elem "p" [] [Dom.Text s].

(** a page with a content container and nothing else *)
Definition body_only : Dom.node :=
  doc [Dom.Elem "div" [("class", "article-content")] [p "Body."]].

(** a page with the three paragraphs of the scenario *)
Definition abc : Dom.node :=
  doc [Dom.Elem "div" [("class", "article-content")] [p "A."; p "B."; p "C."]].

(** a complete article page *)
Definition full : Dom.node :=
  doc [Dom.Elem "h1" [] [Dom.Text "Headline"];
       Dom.Elem "div" [("class", "article-content")] [p "Body."]].

(** a page that serves as homepage and as article *)
Definition front : Dom.node :=
  doc [Dom.Elem "article" [] [Dom.Elem "a" [("href", "/story/1")] [Dom.Text "Headline"]];
       Dom.Elem "h1" [] [Dom.Text "Headline"];
       Dom.Elem "div" [("class", "article-content")] [p "Body."]].

(** a page on which no selector of the scripts matches *)
Definition blank : Dom.node := doc [Dom.Elem "span" [] [Dom.Text "nothing"]].

(** a homepage with one container and a link of the given [href] *)
Definition homepage (h : string) : Dom.node :=
  doc [Dom.Elem "article" [] [Dom.Elem "a" [("href", h)] [Dom.Text "Headline"]]].

Definition src : Source :=
  {| src_name := "Example";
     src_url := "https://example.com/";
     article_selector := "article";
     title_selector := "h1";
     content_selector := ".article-content";
     date_selector := "time";
     src_category := "technology";
     src_region := "north_america";
     src_country := None |}.

Definition cfg (srcs : list Source) : Config :=
  {| output_file := "out/articles.json";
     output_dir := "US_tech_news";
     retry_attempts := 3;
     articles_limit := None;
     openai_api_key := None;
     sources := srcs |}.

Definition link : string := "https://example.com/a".

(** the record extracted from [blank] by the base script when the clock
    starts on day [d] *)
Definition blank_record (d : nat) : ArticleRecord :=
  {| source := "Example"; category := "technology"; region := None; country := None;
     url := link; title := "Title not found"; author := "Author not found";
     description := EmptyString; content := "Content not found";
     date := Clock.strftime_ymd (day (d + 1)); content_length := 17; language := None;
     scraped_at := Clock.isoformat (day (d + 2)) |}.

(** the record extracted from [abc] by the European script *)
Definition abc_record : ArticleRecord :=
  {| source := "Example"; category := "technology"; region := Some "north_america";
     country := Some EmptyString; url := link; title := "Title not found";
     author := "Author not found"; description := EmptyString; content := "A. B. C.";
     date := "2025-03-02"; content_length := 8; language := Some "en";
     scraped_at := "2025-03-03T12:00:00" |}.

(** the record extracted from [body_only] by the US script *)
Definition untitled_record : ArticleRecord :=
  {| source := "Example"; category := "technology"; region := Some "north_america";
     country := None; url := link; title := "Title not found";
     author := "Author not found"; description := EmptyString; content := "Body.";
     date := "2025-03-02"; content_length := 5; language := None;
     scraped_at := "2025-03-03T12:00:00" |}.

(** a reply with an id out of range on both sides, and an empty theme *)
Definition reply : list Clustering.ThemeReply :=
  [ Clustering.mkThemeReply (Some "Chips") (Some "Hardware news")
      [Clustering.IdInt 0; Clustering.IdInt 7; Clustering.IdInt (-1)];
    Clustering.mkThemeReply None None [Clustering.IdInt 5] ].

(** an empty disk *)
Definition w0 : world :=
  {| fs_dirs := ∅; fs_files := ∅; sleeps := []; tick := 0 |}.

(** the disk left by the constructor of the US scraper *)
Definition w_us : world := snd (USFiles.init (cfg [src]) w0).

(** a disk with the directory of the output file *)
Definition w_out : world := add_dir "out" w0.

End Demo.

(** ** Notions used to state the properties of a whole run *)

(** the fields a record takes from the entry of its source *)
Definition record_of (v : variant) (src : Source) (a : ArticleRecord) : Prop :=
  source a = src_name src /\ category a = src_category src
  /\ region a = region_of v src /\ country a = country_of v src
  /\ language a = language_of v src.

(** a record as [run] appends it: extracted for [src] and accepted *)
Definition kept_record (v : variant) (src : Source) (a : ArticleRecord) : Prop :=
  is_success v (Some a) = true /\ record_of v src a
  /\ content_length a = len (content a).

(** the most links one source can contribute: 15, or the [--articles]
    limit when it is positive and smaller *)
Definition links_cap (cfg : Config) : nat :=
  match articles_limit cfg with
  | Some n => if 0 <? n then Nat.min 15 (Z.to_nat n) else 15%nat
  | None => 15%nat
  end.

(** every character of [s] passes [p] *)
Fixpoint all_chars (p : ascii -> bool) (s : string) : bool :=
  match s with
  | EmptyString => true
  | String c s' => p c && all_chars p s'
  end.

(** no two consecutive characters of [s] are both [c] *)
Fixpoint no_double (c : ascii) (s : string) : bool :=
  match s with
  | EmptyString => true
  | String a s' =>
      match s' with
      | EmptyString => true
      | String b _ => negb (bool_decide (a = c) && bool_decide (b = c)) && no_double c s'
      end
  end.

(** the characters of a generated file name: the hyphen and the word
    characters that [str.lower] leaves alone *)
Definition name_char (c : ascii) : bool :=
  (USFiles.is_word c || USFiles.is_hyphen c) && bool_decide (USFiles.lower c = c).

(** [w'] differs from [w] on disk at most by the content of files that
    pass [files] (written, never removed) and by new directories that pass
    [dirs] *)
Definition touches_only (files dirs : string -> Prop) (w w' : world) : Prop :=
  (forall p, ~ files p -> fs_files w' !! p = fs_files w !! p)
  /\ (forall p, is_Some (fs_files w !! p) -> is_Some (fs_files w' !! p))
  /\ (forall q, q ∈ fs_dirs w -> q ∈ fs_dirs w')
  /\ (forall q, q ∈ fs_dirs w' -> q ∈ fs_dirs w \/ dirs q).

Definition framed {A : Type} (files dirs : string -> Prop) (op : M A) : Prop :=
  forall w, touches_only files dirs w (snd (op w)).

(** the log file of each script ([logging.FileHandler]) *)
Definition log_file (v : variant) : string :=
  match v with
  | Base => "scraper.log"
  | US => "us_scraper.log"
  | Europe => "europe_scraper.log"
  | Asia => "asia_scraper.log"
  end.

(** the files [run] may write, the log file apart: the collection (and
    the report written by [run] itself) or, in the US script, the report and
    files of the articles and summaries directories *)
Definition may_write (v : variant) (cfg : Config) (p : string) : Prop :=
  match v with
  | Base => p = output_file cfg
  | Europe | Asia => p = output_file cfg \/ p = report_file v cfg
  | US =>
      p = report_file US cfg
      \/ exists name,
           p = USFiles.articles_dir cfg +:+ "/" +:+ name
           \/ p = USFiles.summaries_dir cfg +:+ "/" +:+ name
  end.

(** the directories [run] may create: in the European and Asian scripts
    the directory of the output file and its ancestors *)
Definition may_create (v : variant) (cfg : Config) (q : string) : Prop :=
  match v with
  | Europe | Asia =>
      q ∈ Path.chain (String.length (Path.dirname (output_file cfg)))
            (Path.dirname (output_file cfg))
  | Base | US => False
  end.

(** how many records of [l] have the value [x] in the field [f] *)
Definition occurrences (f : ArticleRecord -> string) (x : string)
    (l : list ArticleRecord) : Z :=
  Z.of_nat (List.length (List.filter (fun a => bool_decide (f a = x)) l)).

(** the sum of the [content_length] fields *)
Definition content_total (l : list ArticleRecord) : Z :=
  List.fold_right (fun a s => content_length a + s) 0 l.

(** the categories a report has a bin for *)
Definition known_categories (v : variant) : list string :=
  match v with
  | Asia => ["technology"; "business"]
  | Base | US | Europe => ["technology"; "business"; "investing"]
  end.

(** the "Sources with no articles" that [__main__] of the base script
    prints: the configured names that are no key of [by_source] *)
Definition failed_sources (cfg : Config) (report : Report) : gset string :=
  list_to_set (List.map src_name (sources cfg)) ∖ dom (by_source report).

(** ** The command line: the sources [__main__] keeps

    [--region] exists in the base script only, [--country] in the European
    and Asian scripts; every script has [--category] and [--sources]. An
    option that is absent or falsy (the empty string, the number 0) is not
    applied. *)
Record Args : Type := mkArgs {
  arg_region : option string;
  arg_category : option string;
  arg_country : option string;
  arg_sources : option Z
}.

(** [if args.x:] for a string option: its value when it is truthy *)
Definition given (o : option string) : option string :=
  match o with
  | Some s => if PyStr.truthy s then Some s else None
  | None => None
  end.

(** [[source for source in scraper.sources if source.get(key) == value]],
    applied when the option is given *)
Definition keep_where (field : Source -> option string) (value : option string)
    (l : list Source) : list Source :=
  match given value with
  | Some x => List.filter (fun s => bool_decide (field s = Some x)) l
  | None => l
  end.

(** the filters in the order of each script *)
Definition filter_sources (v : variant) (args : Args) (table : list Source) : list Source :=
  match v with
  | Base =>
      keep_where (fun s => Some (src_category s)) (arg_category args)
        (keep_where (fun s => Some (src_region s)) (arg_region args) table)
  | Europe | Asia =>
      keep_where src_country (arg_country args)
        (keep_where (fun s => Some (src_category s)) (arg_category args) table)
  | US => keep_where (fun s => Some (src_category s)) (arg_category args) table
  end.

(** [scraper.sources] as [__main__] leaves it before [run] *)
Definition select_sources (v : variant) (args : Args) (table : list Source) : list Source :=
  match arg_sources args with
  | Some n => if n =? 0 then filter_sources v args table
              else slice_to n (filter_sources v args table)
  | None => filter_sources v args table
  end.

(** * Properties *)

(** ** Sanity checks of the string, tree and clock helpers *)

Example strip_example : PyStr.strip "  A story. " = "A story.".
Proof. reflexivity. Qed.

Example join_example : PyStr.join " " ["A."; "B."; "C."] = "A. B. C.".
Proof. reflexivity. Qed.

Example replace_example :
  PyStr.replace ".json" "_report.json" "out/a.json" = "out/a_report.json".
Proof. reflexivity. Qed.

Example endswith_example : PyStr.endswith "#" "https://e.com/#" = true.
Proof. reflexivity. Qed.

Example replace_twice_example :
  PyStr.replace ".json" "_report.json" "out/a.json.json" = "out/a_report.json_report.json".
Proof. reflexivity. Qed.

Example dirname_examples :
  Path.dirname "out/a.json" = "out" /\ Path.dirname "a.json" = EmptyString
  /\ Path.dirname "/a.json" = "/" /\ Path.dirname "a//b" = "a"
  /\ Path.dirname "//a" = "//" /\ Path.dirname "a/" = "a".
Proof. repeat split; reflexivity. Qed.

Example chain_example :
  Path.chain 5 "a/b/c" = ["a/b/c"; "a/b"; "a"].
Proof. reflexivity. Qed.

Example join_path_examples :
  Path.join "US" "articles" = "US/articles" /\ Path.join "US/" "articles" = "US/articles"
  /\ Path.join EmptyString "x" = "x" /\ Path.join "a" "/b" = "/b".
Proof. repeat split; reflexivity. Qed.

Example splitext_examples :
  Path.splitext_root "a.json" = "a" /\ Path.splitext_root ".bashrc" = ".bashrc"
  /\ Path.splitext_root "..a.b" = "..a" /\ Path.splitext_root "..." = "...".
Proof. repeat split; reflexivity. Qed.

Example safe_title_examples :
  USFiles.safe_title "Title not found" = "title-not-found"
  /\ USFiles.safe_title "  Hello,  World! -- 2024 " = "hello-world-2024"
  /\ USFiles.safe_title "--x--" = "-x-".
Proof. repeat split; reflexivity. Qed.

Example get_text_example :
  Dom.get_text (Dom.Elem "div" [] [Dom.Text "a "; Dom.Elem "b" [] [Dom.Text "c"]; Dom.Text " d"])
  = "a c d".
Proof. reflexivity. Qed.

Example find_all_example :
  Dom.find_all "p"
    (Dom.Elem "div" []
       [Dom.Elem "p" [] [Dom.Text "x"];
        Dom.Elem "section" [] [Dom.Elem "p" [] [Dom.Text "y"]]])
  = [Dom.Elem "p" [] [Dom.Text "x"]; Dom.Elem "p" [] [Dom.Text "y"]].
Proof. reflexivity. Qed.

Example strftime_example :
  Clock.strftime_ymd (mkDatetime 2025 3 7 9 5 0 0) = "2025-03-07".
Proof. reflexivity. Qed.

Example demo_select_example :
  select_one (Demo.env None 1) ".article-content" Demo.full
  = Some (Dom.Elem "div" [("class", "article-content")] [Demo.p "Body."])
  /\ select_one (Demo.env None 1) TITLE_FALLBACK Demo.body_only = None
  /\ select_one (Demo.env None 1) CONTENT_FALLBACK Demo.blank = None.
Proof. repeat split; reflexivity. Qed.

Example scrape_example :
  fst (scrape_article (Demo.env (Some Demo.full) 1) Asia "https://example.com/a"
         Demo.src Demo.w0)
  = Some {| source := "Example"; category := "technology";
            region := Some "north_america"; country := Some EmptyString;
            url := "https://example.com/a"; title := "Headline";
            author := "Author not found"; description := EmptyString;
            content := "Body."; date := "2025-03-02"; content_length := 5;
            language := Some "en"; scraped_at := "2025-03-03T12:00:00" |}.
Proof. reflexivity. Qed.

(** ** Article extraction *)

Section Extraction.

Variable E : Env.
Variable v : variant.
Variable link : string.
Variable src : Source.

(** the fields of a record that do not depend on the clock *)
Lemma scrape_article_fields (w : world) (soup : Dom.node) (r : ArticleRecord) :
  http_get E (tick w) link = Some soup ->
  fst (scrape_article E v link src w) = Some r ->
  title r = title_text_of (two_tier E (title_selector src) TITLE_FALLBACK soup)
  /\ content r = content_text_of (two_tier E (content_selector src) CONTENT_FALLBACK soup)
  /\ author r = author_text_of (select_one E AUTHOR_SELECTOR soup)
  /\ description r = description_of (select_one E DESCRIPTION_SELECTOR soup)
  /\ content_length r = len (content r).
Proof.
  intros Hpage. unfold scrape_article, bind, fetch. rewrite Hpage.
  destruct (two_tier E (date_selector src) DATE_FALLBACK soup);
    simpl; intros [= <-]; simpl; auto.
Qed.

Lemma scrape_article_some (w : world) (r : ArticleRecord) :
  fst (scrape_article E v link src w) = Some r ->
  exists soup, http_get E (tick w) link = Some soup.
Proof.
  unfold scrape_article, bind, fetch.
  destruct (http_get E (tick w) link) as [soup|]; [eauto | discriminate].
Qed.

(** C3: every record returned by [scrape_article], in any variant, has
    [content_length] equal to the number of characters of [content]; when no
    content container is found the content is ["Content not found"] and the
    length is 17. *)
Theorem C3_content_length (w : world) (r : ArticleRecord) :
  fst (scrape_article E v link src w) = Some r ->
  content_length r = Z.of_nat (String.length (content r))
  /\ (forall soup, http_get E (tick w) link = Some soup ->
        two_tier E (content_selector src) CONTENT_FALLBACK soup = None ->
        content r = "Content not found" /\ content_length r = 17).
Proof.
  intros Hr. destruct (scrape_article_some w r Hr) as [soup Hpage].
  destruct (scrape_article_fields w soup r Hpage Hr) as (_ & Hc & _ & _ & Hl).
  split; [exact Hl |].
  intros soup' Hpage' Hnone.
  assert (soup' = soup) as -> by congruence.
  rewrite Hl, Hc, Hnone. split; reflexivity.
Qed.


(** C9: when there is no [meta[name="description"]] element, or the first
    one has no or an empty [content] attribute, the description is the empty
    string; in every case it is the empty string or that attribute, never a
    placeholder of its own. *)
Theorem C9_description_default (w : world) (soup : Dom.node) (r : ArticleRecord) :
  http_get E (tick w) link = Some soup ->
  fst (scrape_article E v link src w) = Some r ->
  ((forall m, select_one E DESCRIPTION_SELECTOR soup = Some m ->
      Dom.get "content" m = None \/ Dom.get "content" m = Some EmptyString) ->
   description r = EmptyString)
  /\ (description r = EmptyString
      \/ exists m, select_one E DESCRIPTION_SELECTOR soup = Some m
                   /\ Dom.get "content" m = Some (description r)).
Proof.
  intros Hpage Hr.
  destruct (scrape_article_fields w soup r Hpage Hr) as (_ & _ & _ & Hd & _).
  rewrite Hd. unfold description_of.
  destruct (select_one E DESCRIPTION_SELECTOR soup) as [m|]; [| auto].
  destruct (Dom.get "content" m) as [c|] eqn:Hget; [| auto].
  unfold PyStr.truthy. destruct (bool_decide_reflect (c = EmptyString)) as [->|Hne]; simpl.
  - auto.
  - split.
    + intros Hall. destruct (Hall m eq_refl) as [Hx|Hx]; congruence.
    + right. exists m. auto.
Qed.

(** C2, as amended: when neither title tier matches the title is
    "Title not found"; when the author selector matches nothing the author
    is "Author not found"; when neither date tier matches the date is the
    current day, read from the clock and printed as year-month-day. *)
Theorem C2_not_found_defaults (w : world) (soup : Dom.node) (r : ArticleRecord) :
  http_get E (tick w) link = Some soup ->
  fst (scrape_article E v link src w) = Some r ->
  (two_tier E (title_selector src) TITLE_FALLBACK soup = None ->
   title r = "Title not found")
  /\ (select_one E AUTHOR_SELECTOR soup = None -> author r = "Author not found")
  /\ (two_tier E (date_selector src) DATE_FALLBACK soup = None ->
      date r = Clock.strftime_ymd (clock E (S (tick w)))).
Proof.
  intros Hpage Hr.
  destruct (scrape_article_fields w soup r Hpage Hr) as (Ht & _ & Ha & _ & _).
  split; [| split].
  - intros Hnone. rewrite Ht, Hnone. reflexivity.
  - intros Hnone. rewrite Ha, Hnone. reflexivity.
  - intros Hnone. revert Hr. unfold scrape_article, bind, fetch. rewrite Hpage, Hnone.
    simpl. intros [= <-]. reflexivity.
Qed.

End Extraction.

Lemma C3_content_length_witness :
  content_length (Demo.blank_record 1)
  = Z.of_nat (String.length (content (Demo.blank_record 1)))
  /\ content (Demo.blank_record 1) = "Content not found"
  /\ content_length (Demo.blank_record 1) = 17.
Proof.
  destruct (C3_content_length (Demo.env (Some Demo.blank) 1) Base Demo.link Demo.src
              Demo.w0 (Demo.blank_record 1) eq_refl) as [Hlen Hnone].
  split; [exact Hlen | exact (Hnone Demo.blank eq_refl eq_refl)].
Defined.


Lemma C9_description_default_witness :
  description Demo.abc_record = EmptyString.
Proof.
  destruct (C9_description_default (Demo.env (Some Demo.abc) 1) Europe Demo.link Demo.src
              Demo.w0 Demo.abc Demo.abc_record eq_refl eq_refl) as [Hempty _].
  apply Hempty. intros m Hm. discriminate Hm.
Defined.

Lemma C2_not_found_defaults_witness :
  title (Demo.blank_record 1) = "Title not found"
  /\ author (Demo.blank_record 1) = "Author not found"
  /\ date (Demo.blank_record 1) = "2025-03-02".
Proof.
  destruct (C2_not_found_defaults (Demo.env (Some Demo.blank) 1) Base Demo.link Demo.src
              Demo.w0 Demo.blank (Demo.blank_record 1) eq_refl eq_refl)
    as (Ht & Ha & Hd).
  exact (conj (Ht eq_refl) (conj (Ha eq_refl) (Hd eq_refl))).
Defined.

(** C2 as stated fails for the date: on one and the same page, on which no
    date selector matches, two runs started on different days put different
    dates into the record, so the field holds no fixed placeholder. *)
Lemma C2_date_follows_the_clock :
  two_tier (Demo.env (Some Demo.blank) 1) (date_selector Demo.src) DATE_FALLBACK Demo.blank
  = None
  /\ fst (scrape_article (Demo.env (Some Demo.blank) 1) Base Demo.link Demo.src Demo.w0)
     = Some (Demo.blank_record 1)
  /\ fst (scrape_article (Demo.env (Some Demo.blank) 2) Base Demo.link Demo.src Demo.w0)
     = Some (Demo.blank_record 2)
  /\ date (Demo.blank_record 1) = "2025-03-02"
  /\ date (Demo.blank_record 2) = "2025-03-03"
  /\ ~ (exists d : string,
          forall (E : Env) (w : world) (soup : Dom.node) (r : ArticleRecord),
            http_get E (tick w) Demo.link = Some soup ->
            two_tier E (date_selector Demo.src) DATE_FALLBACK soup = None ->
            fst (scrape_article E Base Demo.link Demo.src w) = Some r ->
            date r = d).
Proof.
  repeat split; try reflexivity.
  intros [d Hd].
  pose proof (Hd (Demo.env (Some Demo.blank) 1) Demo.w0 Demo.blank (Demo.blank_record 1)
                eq_refl eq_refl eq_refl) as H1.
  pose proof (Hd (Demo.env (Some Demo.blank) 2) Demo.w0 Demo.blank (Demo.blank_record 2)
                eq_refl eq_refl eq_refl) as H2.
  rewrite <- H2 in H1. discriminate H1.
Qed.

(** ** Link discovery *)

Example domain_of_example :
  domain_of "https://www.scmp.com/tech" = Some "https://www.scmp.com"
  /\ domain_of "ftp://example.com/" = None.
Proof. split; reflexivity. Qed.

(** the scenario of the spec: one container with a rooted link *)
Example link_scenario (v : variant) :
  links_of_page (Demo.env None 1) v Demo.src (Some (Demo.homepage "/story/1"))
  = ["https://example.com/story/1"].
Proof. destruct v; reflexivity. Qed.

Section LinkDiscovery.

Variable E : Env.
Variable v : variant.
Variable source_url : string.

Lemma not_in_spec (l : string) (links : list string) :
  not_in l links = true -> l ∉ links.
Proof.
  unfold not_in. intros H Hin.
  apply negb_true_iff, bool_decide_eq_false in H. contradiction.
Qed.

Lemma normalize_link_rooted (link l : string) :
  v <> Base -> normalize_link v source_url link = Some l -> rooted source_url l.
Proof.
  intros Hv. unfold normalize_link, rooted.
  destruct (PyStr.startswith "/" link).
  - destruct (domain_of source_url) as [d|]; [| discriminate].
    intros [= <-]. right. exists d. split; [reflexivity | exists link; reflexivity].
  - destruct v; [contradiction | | |];
      (destruct (PyStr.startswith "http" link) eqn:Hhttp; simpl;
       [ intros [= <-]; left; exact Hhttp
       | destruct (domain_of source_url) as [d|]; [| discriminate];
         intros [= <-]; right; exists d; split; [reflexivity |];
         exists ("/" +:+ PyStr.lstrip_char "/" link); reflexivity ]).
Qed.

Lemma keep_link_spec (links : list string) (l : string) :
  keep_link v links l = true ->
  (l ∉ links) /\ (v <> Base -> PyStr.endswith "#" l = false).
Proof.
  unfold keep_link. destruct v.
  - intros H. split; [apply not_in_spec, H | congruence].
  - intros [H1 H2]%andb_true_iff. split; [apply not_in_spec, H1 |].
    intros _. apply negb_true_iff, H2.
  - intros [H1 H2]%andb_true_iff. split; [apply not_in_spec, H1 |].
    intros _. apply negb_true_iff, H2.
  - intros [H1 H2]%andb_true_iff. split; [apply not_in_spec, H1 |].
    intros _. apply negb_true_iff, H2.
Qed.

(** one container adds at most one link, new and well formed *)
Lemma add_link_step (links links' : list string) (article : Dom.node) :
  add_link E v source_url links article = Some links' ->
  links' = links
  \/ exists l, links' = (links ++ [l])%list /\ (l ∉ links) /\ link_ok v source_url l.
Proof.
  unfold add_link.
  destruct (resolve_link E article) as [link|]; [| intros [= <-]; auto].
  destruct (normalize_link v source_url link) as [l|] eqn:Hnorm; [| discriminate].
  destruct (keep_link v links l) eqn:Hkeep; intros [= <-]; [| auto].
  right. exists l. destruct (keep_link_spec _ _ Hkeep) as [Hnew Hhash].
  repeat split; auto.
  eapply normalize_link_rooted; eauto.
Qed.

Lemma collect_links_inv (articles : list Dom.node) :
  forall links links',
    collect_links E v source_url links articles = Some links' ->
    NoDup links -> Forall (link_ok v source_url) links ->
    NoDup links' /\ Forall (link_ok v source_url) links'
    /\ (List.length links' <= List.length links + List.length articles)%nat.
Proof.
  induction articles as [|article rest IH]; intros links links'; simpl.
  - intros [= <-] Hnd Hok. repeat split; auto. lia.
  - destruct (add_link E v source_url links article) as [links1|] eqn:Hadd;
      [| discriminate].
    intros Hrest Hnd Hok.
    destruct (add_link_step _ _ _ Hadd) as [-> | (l & -> & Hnew & Hl)].
    + destruct (IH _ _ Hrest Hnd Hok) as (H1 & H2 & H3). repeat split; auto. lia.
    + assert (NoDup (links ++ [l])) as Hnd'.
      { apply NoDup_app. repeat split; auto.
        - intros x Hx Hx'. apply list_elem_of_singleton in Hx'. subst. contradiction.
        - apply NoDup_singleton. }
      assert (Forall (link_ok v source_url) (links ++ [l])) as Hok'.
      { apply Forall_app. split; auto. }
      destruct (IH _ _ Hrest Hnd' Hok') as (H1 & H2 & H3). repeat split; auto.
      rewrite length_app in H3. simpl in H3. lia.
Qed.

End LinkDiscovery.

(** At most 15 links, no link twice; outside the base script every link
    starts with the scheme and host of the source or with "http", and none
    ends with "#". *)
Lemma links_of_page_bounded_unique (E : Env) (v : variant) (src : Source)
    (page : option Dom.node) :
  (List.length (links_of_page E v src page) <= 15)%nat
  /\ NoDup (links_of_page E v src page)
  /\ Forall (link_ok v (src_url src)) (links_of_page E v src page).
Proof.
  unfold links_of_page. destruct page as [soup|];
    [| repeat split; [simpl; lia | constructor | constructor]].
  destruct (collect_links E v (src_url src) [] (take 15 (select E (article_selector src) soup)))
    as [links|] eqn:Hc; [| repeat split; [simpl; lia | constructor | constructor]].
  destruct (collect_links_inv E v (src_url src) _ _ _ Hc (NoDup_nil_2) (Forall_nil_2 _))
    as (H1 & H2 & H3).
  repeat split; auto.
  rewrite length_take in H3. etransitivity; [exact H3 |]. apply Nat.le_min_l.
Qed.

Lemma startswith_slash (c : ascii) (s : string) :
  PyStr.startswith "/" (String c s) = bool_decide (c = "/"%char).
Proof.
  unfold PyStr.startswith.
  change (String.prefix "/" (String c s))
    with (if ascii_dec "/" c then String.prefix EmptyString s else false).
  destruct (ascii_dec "/" c) as [<-|Hne].
  - destruct s; reflexivity.
  - symmetry. apply bool_decide_eq_false. congruence.
Qed.

Lemma lstrip_slash_noop (link : string) :
  PyStr.startswith "/" link = false -> PyStr.lstrip_char "/" link = link.
Proof.
  destruct link as [|c s]; [reflexivity |].
  rewrite startswith_slash. unfold PyStr.lstrip_char. simpl. intros ->. reflexivity.
Qed.

(** the three normalisation rules, per variant *)
Lemma normalize_link_rules (v : variant) (source_url link d : string) :
  domain_of source_url = Some d ->
  (PyStr.startswith "/" link = true ->
   normalize_link v source_url link = Some (d +:+ link))
  /\ (PyStr.startswith "/" link = false -> PyStr.startswith "http" link = true ->
      normalize_link v source_url link = Some link)
  /\ (PyStr.startswith "/" link = false -> PyStr.startswith "http" link = false ->
      normalize_link v source_url link
      = Some (if bool_decide (v = Base) then link else d +:+ "/" +:+ link)).
Proof.
  intros Hd. unfold normalize_link. rewrite Hd. repeat split.
  - intros ->. reflexivity.
  - intros -> ->. destruct v; reflexivity.
  - intros Hs ->. rewrite Hs, (lstrip_slash_noop _ Hs). destruct v; reflexivity.
Qed.

Lemma slice_to_take {A : Type} (n : Z) (l : list A) : exists k, slice_to n l = take k l.
Proof. unfold slice_to. destruct (0 <=? n); eauto. Qed.

(** [get_article_links], also under the [--articles] limit: at most 15
    links and none twice; in the US, European and Asian scripts every link
    starts with the scheme and host of the source or with "http". *)
Lemma get_article_links_bounded_unique (E : Env) (v : variant) (cfg : Config)
    (src : Source) (w : world) :
  (List.length (fst (get_article_links_cfg E v cfg src w)) <= 15)%nat
  /\ NoDup (fst (get_article_links_cfg E v cfg src w))
  /\ (v <> Base ->
      Forall (rooted (src_url src)) (fst (get_article_links_cfg E v cfg src w))).
Proof.
  unfold get_article_links_cfg, get_article_links, bind, fetch, ret. simpl.
  destruct (links_of_page_bounded_unique E v src (http_get E (tick w) (src_url src)))
    as (Hlen & Hnd & Hok).
  set (links := links_of_page E v src (http_get E (tick w) (src_url src))) in *.
  assert (forall k, (List.length (take k links) <= 15)%nat
                    /\ NoDup (take k links)
                    /\ (v <> Base -> Forall (rooted (src_url src)) (take k links))) as Htake.
  { intros k. repeat split.
    - rewrite length_take. lia.
    - eapply sublist_NoDup; [exact Hnd | apply sublist_take].
    - intros Hv. apply Forall_take. eapply Forall_impl; [exact Hok |].
      intros l Hl. apply (Hl Hv). }
  assert ((List.length links <= 15)%nat /\ NoDup links
          /\ (v <> Base -> Forall (rooted (src_url src)) links)) as Hall.
  { repeat split; auto. intros Hv. eapply Forall_impl; [exact Hok |].
    intros l Hl. apply (Hl Hv). }
  destruct (articles_limit cfg) as [n|]; [| exact Hall].
  destruct (n =? 0); [exact Hall |].
  destruct (slice_to_take n links) as [k ->]. apply Htake.
Qed.

(** C4 at a homepage whose only container links to ["story/1"]: the base
    script returns the link as it stands, which has no scheme and no host,
    where the three other scripts return it joined to the homepage. *)
Theorem C4_base_returns_relative_link :
  fst (get_article_links (Demo.env (Some (Demo.homepage "story/1")) 1) Base Demo.src Demo.w0)
  = ["story/1"]
  /\ PyStr.startswith "http" "story/1" = false
  /\ domain_of "story/1" = None
  /\ (forall v, v <> Base ->
        fst (get_article_links (Demo.env (Some (Demo.homepage "story/1")) 1) v Demo.src Demo.w0)
        = ["https://example.com/story/1"]).
Proof.
  repeat split; try reflexivity.
  intros v Hv. destruct v; [contradiction | reflexivity ..].
Qed.

(** ** The world monad *)

Lemma bind_unfold {A B : Type} (c : M A) (k : A -> M B) (w : world) :
  bind c k w = k (fst (c w)) (snd (c w)).
Proof. unfold bind. destruct (c w). reflexivity. Qed.

Lemma ret_unfold {A : Type} (a : A) (w : world) : ret a w = (a, w).
Proof. reflexivity. Qed.

Lemma tick_only_ret {A : Type} (a : A) : tick_only (ret a).
Proof. intros w. split; [destruct w; reflexivity | intros w' Ht; auto]. Qed.

Lemma tick_only_fetch (E : Env) (u : string) : tick_only (fetch E u).
Proof.
  intros w. split; [reflexivity |]. intros w' Ht. unfold fetch. simpl. rewrite Ht. auto.
Qed.

Lemma tick_only_now (E : Env) : tick_only (now E).
Proof.
  intros w. split; [reflexivity |]. intros w' Ht. unfold now. simpl. rewrite Ht. auto.
Qed.

Lemma tick_only_bind {A B : Type} (c : M A) (k : A -> M B) :
  tick_only c -> (forall a, tick_only (k a)) -> tick_only (bind c k).
Proof.
  intros Hc Hk w. rewrite bind_unfold.
  destruct (Hc w) as [Hcw Hc'].
  destruct (Hk (fst (c w)) (snd (c w))) as [Hkw Hk'].
  split.
  - rewrite Hkw at 1. rewrite Hcw at 1. reflexivity.
  - intros w' Ht. rewrite bind_unfold.
    destruct (Hc' w' Ht) as [-> Ht'].
    apply Hk'. exact Ht'.
Qed.

Lemma tick_only_get_article_links (E : Env) (v : variant) (cfg : Config) (src : Source) :
  tick_only (get_article_links_cfg E v cfg src).
Proof.
  unfold get_article_links_cfg, get_article_links.
  repeat (apply tick_only_bind; [| intros ?]);
    first [apply tick_only_fetch | apply tick_only_ret].
Qed.

Lemma tick_only_scrape_article (E : Env) (v : variant) (link : string) (src : Source) :
  tick_only (scrape_article E v link src).
Proof.
  unfold scrape_article.
  apply tick_only_bind; [apply tick_only_fetch |].
  intros [soup|]; [| apply tick_only_ret].
  apply tick_only_bind.
  - destruct (two_tier E (date_selector src) DATE_FALLBACK soup).
    + apply tick_only_ret.
    + apply tick_only_bind; [apply tick_only_now | intros; apply tick_only_ret].
  - intros d. apply tick_only_bind; [apply tick_only_now | intros; apply tick_only_ret].
Qed.

Section TickOnly.

Context {A : Type} (op : M A) (Hop : tick_only op).

Lemma tick_only_sleeps (w : world) : sleeps (snd (op w)) = sleeps w.
Proof. destruct (Hop w) as [-> _]. reflexivity. Qed.

Lemma tick_only_files (w : world) :
  fs_dirs (snd (op w)) = fs_dirs w /\ fs_files (snd (op w)) = fs_files w.
Proof. destruct (Hop w) as [-> _]. split; reflexivity. Qed.

(** a sleep before [op] shows in the log only *)
Lemma tick_only_slept (d : Q) (w : world) :
  op (slept d w) = (fst (op w), slept d (snd (op w))).
Proof.
  destruct (Hop w) as [Hw Hw'].
  destruct (Hw' (slept d w) eq_refl) as [Hfst Htick].
  destruct (Hop (slept d w)) as [Hs _].
  rewrite (surjective_pairing (op (slept d w))). f_equal; [exact Hfst |].
  rewrite Hs, Htick. rewrite Hw at 2. reflexivity.
Qed.

Lemma after_attempts_slept (d : Q) (k : nat) :
  forall w, after_attempts op k (slept d w) = slept d (after_attempts op k w).
Proof.
  induction k as [|k IH]; intros w; simpl; [reflexivity |].
  rewrite tick_only_slept. simpl. apply IH.
Qed.

Lemma attempt_result_slept (d : Q) (k : nat) (w : world) :
  attempt_result op k (slept d w) = attempt_result op k w.
Proof.
  unfold attempt_result. rewrite after_attempts_slept, tick_only_slept. reflexivity.
Qed.

Lemma attempt_result_S (k : nat) (w : world) :
  attempt_result op (S k) w = attempt_result op k (snd (op w)).
Proof. reflexivity. Qed.

End TickOnly.

(** ** The retry loops *)

Lemma backoffs_S (base step : Z) (j : nat) :
  backoffs base step (S j) = inject_Z base :: backoffs (base + step) step j.
Proof.
  unfold backoffs. simpl. f_equal.
  - f_equal. lia.
  - rewrite <- seq_shift, List.map_map. apply List.map_ext.
    intros k. f_equal. lia.
Qed.

Lemma sleeps_slept (d : Q) (w : world) : sleeps (slept d w) = (sleeps w ++ [d])%list.
Proof. reflexivity. Qed.

Lemma keeps_sleeps_ret {A : Type} (a : A) : keeps_sleeps (ret a).
Proof. intros w. reflexivity. Qed.

Lemma keeps_sleeps_bind {A B : Type} (c : M A) (k : A -> M B) :
  keeps_sleeps c -> (forall a, keeps_sleeps (k a)) -> keeps_sleeps (bind c k).
Proof. intros Hc Hk w. rewrite bind_unfold, Hk, Hc. reflexivity. Qed.

Lemma keeps_sleeps_write_json (p : string) (d : document) : keeps_sleeps (write_json p d).
Proof. intros w. unfold write_json. destruct (_ && _); reflexivity. Qed.

Lemma keeps_sleeps_now (E : Env) : keeps_sleeps (now E).
Proof. intros w. reflexivity. Qed.

Lemma keeps_sleeps_ask (E : Env) (prompt : string) : keeps_sleeps (ask E prompt).
Proof. intros w. reflexivity. Qed.

Lemma keeps_sleeps_on_success (E : Env) (v : variant) (cfg : Config) (a : ArticleRecord) :
  keeps_sleeps (on_success E v cfg a).
Proof.
  destruct v; try apply keeps_sleeps_ret.
  unfold on_success, USFiles.store, USFiles.save_article_to_json,
    USFiles.generate_safe_filename, USFiles.summarize_with_openai,
    USFiles.save_summary_to_json.
  repeat first
    [ apply keeps_sleeps_ret | apply keeps_sleeps_now | apply keeps_sleeps_ask
    | apply keeps_sleeps_write_json
    | apply keeps_sleeps_bind; [| intros ?]
    | match goal with |- keeps_sleeps (match ?x with _ => _ end) => destruct x end
    | match goal with |- keeps_sleeps (if ?x then _ else _) => destruct x end ].
Qed.

Section Retry.

Variable E : Env.
Variable v : variant.
Variable cfg : Config.
Variable src : Source.
Variable link : string.

Let N : Z := retry_attempts cfg.
Let discover : M (list string) := get_article_links_cfg E v cfg src.
Let extract : M (option ArticleRecord) := scrape_article E v link src.

Lemma links_loop_S (fuel : nat) (attempt : Z) (var : option (list string)) (w : world) :
  links_loop E v cfg src (S fuel) attempt var w
  = if nonempty (fst (discover w)) then (Some (fst (discover w)), snd (discover w))
    else links_loop E v cfg src fuel (attempt + 1) (Some (fst (discover w)))
           (backed_off cfg 3 2 attempt (snd (discover w))).
Proof.
  cbn [links_loop]. fold discover. rewrite bind_unfold.
  destruct (nonempty (fst (discover w))); [reflexivity |].
  rewrite bind_unfold. unfold backed_off. fold N.
  destruct (attempt <? N - 1); reflexivity.
Qed.

Lemma article_loop_S (fuel : nat) (attempt : Z) (acc : list ArticleRecord) (w : world) :
  article_loop E v cfg src link (S fuel) attempt acc w
  = match fst (extract w) with
    | Some a =>
        if is_success v (Some a)
        then ((acc ++ [a])%list, snd (on_success E v cfg a (snd (extract w))))
        else article_loop E v cfg src link fuel (attempt + 1) acc
               (backed_off cfg 2 1 attempt (snd (extract w)))
    | None => article_loop E v cfg src link fuel (attempt + 1) acc
                (backed_off cfg 2 1 attempt (snd (extract w)))
    end.
Proof.
  cbn [article_loop]. fold extract. rewrite bind_unfold.
  destruct (fst (extract w)) as [a|].
  - destruct (is_success v (Some a)).
    + rewrite bind_unfold. reflexivity.
    + rewrite bind_unfold. unfold backed_off. fold N.
      replace (2 + attempt * 1) with (2 + attempt) by lia.
      destruct (attempt <? N - 1); reflexivity.
  - rewrite bind_unfold. unfold backed_off. fold N.
    replace (2 + attempt * 1) with (2 + attempt) by lia.
    destruct (attempt <? N - 1); reflexivity.
Qed.

Let Hdiscover : tick_only discover := tick_only_get_article_links E v cfg src.
Let Hextract : tick_only extract := tick_only_scrape_article E v link src.

(** [j] empty results, then a non-empty one: the loop returns it after the
    [j] delays [3 + 2 * attempt] *)
Lemma links_loop_succeeds (j : nat) :
  forall (fuel : nat) (attempt : Z) (var : option (list string)) (w : world),
    (j < fuel)%nat -> attempt + Z.of_nat fuel = N ->
    (forall k, (k < j)%nat -> attempt_result discover k w = []) ->
    attempt_result discover j w <> [] ->
    fst (links_loop E v cfg src fuel attempt var w) = Some (attempt_result discover j w)
    /\ sleeps (snd (links_loop E v cfg src fuel attempt var w))
       = (sleeps w ++ backoffs (3 + attempt * 2) 2 j)%list.
Proof.
  induction j as [|j IH]; intros fuel attempt var w Hlt Hsum Hfail Hok;
    (destruct fuel as [|fuel]; [lia |]); rewrite links_loop_S.
  - change (attempt_result discover 0 w) with (fst (discover w)) in *.
    destruct (fst (discover w)) as [|l ls] eqn:Hl; [contradiction |].
    cbn [nonempty fst snd].
    rewrite (tick_only_sleeps discover Hdiscover). unfold backoffs. cbn [seq List.map].
    rewrite app_nil_r. auto.
  - pose proof (Hfail 0%nat ltac:(lia)) as H0.
    change (attempt_result discover 0 w) with (fst (discover w)) in H0.
    rewrite H0. cbn [nonempty]. unfold backed_off. fold N.
    assert ((attempt <? N - 1) = true) as -> by (apply Z.ltb_lt; lia).
    destruct (IH fuel (attempt + 1) (Some [])
                (slept (inject_Z (3 + attempt * 2)) (snd (discover w))))
      as [Hres Hsl].
    + lia.
    + lia.
    + intros k Hk. rewrite (attempt_result_slept discover Hdiscover).
      rewrite <- attempt_result_S. apply Hfail. lia.
    + rewrite (attempt_result_slept discover Hdiscover). exact Hok.
    + rewrite (attempt_result_slept discover Hdiscover) in Hres.
      split; [exact Hres |].
      rewrite Hsl, sleeps_slept, (tick_only_sleeps discover Hdiscover), backoffs_S.
      rewrite <- app_assoc. cbn [app].
      replace (3 + (attempt + 1) * 2) with (3 + attempt * 2 + 2) by lia. reflexivity.
Qed.

(** only empty results: one delay after each attempt but the last *)
Lemma links_loop_exhausted (fuel : nat) :
  forall (attempt : Z) (var : option (list string)) (w : world),
    attempt + Z.of_nat fuel = N ->
    (forall k, (k < fuel)%nat -> attempt_result discover k w = []) ->
    fst (links_loop E v cfg src fuel attempt var w)
    = match fuel with O => var | S _ => Some [] end
    /\ sleeps (snd (links_loop E v cfg src fuel attempt var w))
       = (sleeps w ++ backoffs (3 + attempt * 2) 2 (fuel - 1))%list.
Proof.
  induction fuel as [|fuel IH]; intros attempt var w Hsum Hfail.
  - cbn [links_loop ret fst snd]. unfold backoffs. cbn [Nat.sub seq List.map].
    rewrite app_nil_r. auto.
  - rewrite links_loop_S.
    assert (attempt_result discover 0 w = []) as H0 by (apply Hfail; lia).
    change (attempt_result discover 0 w) with (fst (discover w)) in H0.
    rewrite H0. cbn [nonempty]. unfold backed_off. fold N.
    destruct fuel as [|fuel].
    + assert ((attempt <? N - 1) = false) as -> by (apply Z.ltb_ge; lia).
      cbn [links_loop ret fst snd].
      rewrite (tick_only_sleeps discover Hdiscover). unfold backoffs.
      cbn [Nat.sub seq List.map]. rewrite app_nil_r. auto.
    + assert ((attempt <? N - 1) = true) as -> by (apply Z.ltb_lt; lia).
      destruct (IH (attempt + 1) (Some [])
                  (slept (inject_Z (3 + attempt * 2)) (snd (discover w))))
        as [Hres Hsl].
      * lia.
      * intros k Hk. rewrite (attempt_result_slept discover Hdiscover).
        rewrite <- attempt_result_S. apply Hfail. lia.
      * split; [exact Hres |].
        rewrite Hsl, sleeps_slept, (tick_only_sleeps discover Hdiscover).
        replace (S (S fuel) - 1)%nat with (S (S fuel - 1))%nat by lia.
        rewrite backoffs_S, <- app_assoc. cbn [app].
        replace (3 + (attempt + 1) * 2) with (3 + attempt * 2 + 2) by lia.
        reflexivity.
Qed.

Lemma article_loop_retry (fuel : nat) (attempt : Z) (acc : list ArticleRecord) (w : world) :
  is_success v (fst (extract w)) = false ->
  article_loop E v cfg src link (S fuel) attempt acc w
  = article_loop E v cfg src link fuel (attempt + 1) acc
      (backed_off cfg 2 1 attempt (snd (extract w))).
Proof.
  intros Hfail. rewrite article_loop_S.
  destruct (fst (extract w)) as [a|]; [| reflexivity].
  rewrite Hfail. reflexivity.
Qed.

(** [j] failed attempts, then an accepted record: it is appended after the
    [j] delays [2 + attempt] *)
Lemma article_loop_succeeds (j : nat) :
  forall (fuel : nat) (attempt : Z) (acc : list ArticleRecord) (w : world)
         (a : ArticleRecord),
    (j < fuel)%nat -> attempt + Z.of_nat fuel = N ->
    (forall k, (k < j)%nat -> is_success v (attempt_result extract k w) = false) ->
    attempt_result extract j w = Some a -> is_success v (Some a) = true ->
    fst (article_loop E v cfg src link fuel attempt acc w) = (acc ++ [a])%list
    /\ sleeps (snd (article_loop E v cfg src link fuel attempt acc w))
       = (sleeps w ++ backoffs (2 + attempt) 1 j)%list.
Proof.
  induction j as [|j IH]; intros fuel attempt acc w a Hlt Hsum Hfail Hres Hok;
    (destruct fuel as [|fuel]; [lia |]).
  - rewrite article_loop_S.
    change (attempt_result extract 0 w) with (fst (extract w)) in Hres.
    rewrite Hres, Hok. cbn [fst snd].
    rewrite (keeps_sleeps_on_success E v cfg a), (tick_only_sleeps extract Hextract).
    unfold backoffs. cbn [seq List.map]. rewrite app_nil_r. auto.
  - assert (is_success v (attempt_result extract 0 w) = false) as H0
      by (apply Hfail; lia).
    change (attempt_result extract 0 w) with (fst (extract w)) in H0.
    rewrite (article_loop_retry _ _ _ _ H0). unfold backed_off. fold N.
    assert ((attempt <? N - 1) = true) as -> by (apply Z.ltb_lt; lia).
    destruct (IH fuel (attempt + 1) acc
                (slept (inject_Z (2 + attempt * 1)) (snd (extract w))) a)
      as [Hacc Hsl].
    + lia.
    + lia.
    + intros k Hk. rewrite (attempt_result_slept extract Hextract).
      rewrite <- attempt_result_S. apply Hfail. lia.
    + rewrite (attempt_result_slept extract Hextract). exact Hres.
    + exact Hok.
    + split; [exact Hacc |].
      rewrite Hsl, sleeps_slept, (tick_only_sleeps extract Hextract), backoffs_S.
      rewrite <- app_assoc. cbn [app].
      replace (2 + attempt * 1) with (2 + attempt) by lia.
      replace (2 + (attempt + 1)) with (2 + attempt + 1) by lia. reflexivity.
Qed.

(** only failed attempts: nothing is appended, and there is one delay
    after each attempt but the last *)
Lemma article_loop_exhausted (fuel : nat) :
  forall (attempt : Z) (acc : list ArticleRecord) (w : world),
    attempt + Z.of_nat fuel = N ->
    (forall k, (k < fuel)%nat -> is_success v (attempt_result extract k w) = false) ->
    fst (article_loop E v cfg src link fuel attempt acc w) = acc
    /\ sleeps (snd (article_loop E v cfg src link fuel attempt acc w))
       = (sleeps w ++ backoffs (2 + attempt) 1 (fuel - 1))%list.
Proof.
  induction fuel as [|fuel IH]; intros attempt acc w Hsum Hfail.
  - cbn [article_loop ret fst snd]. unfold backoffs. cbn [Nat.sub seq List.map].
    rewrite app_nil_r. auto.
  - assert (is_success v (attempt_result extract 0 w) = false) as H0
      by (apply Hfail; lia).
    change (attempt_result extract 0 w) with (fst (extract w)) in H0.
    rewrite (article_loop_retry _ _ _ _ H0). unfold backed_off. fold N.
    destruct fuel as [|fuel].
    + assert ((attempt <? N - 1) = false) as -> by (apply Z.ltb_ge; lia).
      cbn [article_loop ret fst snd].
      rewrite (tick_only_sleeps extract Hextract). unfold backoffs.
      cbn [Nat.sub seq List.map]. rewrite app_nil_r. auto.
    + assert ((attempt <? N - 1) = true) as -> by (apply Z.ltb_lt; lia).
      destruct (IH (attempt + 1) acc
                  (slept (inject_Z (2 + attempt * 1)) (snd (extract w))))
        as [Hacc Hsl].
      * lia.
      * intros k Hk. rewrite (attempt_result_slept extract Hextract).
        rewrite <- attempt_result_S. apply Hfail. lia.
      * split; [exact Hacc |].
        rewrite Hsl, sleeps_slept, (tick_only_sleeps extract Hextract).
        replace (S (S fuel) - 1)%nat with (S (S fuel - 1))%nat by lia.
        rewrite backoffs_S, <- app_assoc. cbn [app].
        replace (2 + attempt * 1) with (2 + attempt) by lia.
        replace (2 + (attempt + 1)) with (2 + attempt + 1) by lia.
        reflexivity.
Qed.

(** the loop appends at most one record, and only one that passes the test
    of the variant *)
Lemma article_loop_appends (fuel : nat) :
  forall (attempt : Z) (acc : list ArticleRecord) (w : world),
    fst (article_loop E v cfg src link fuel attempt acc w) = acc
    \/ exists a, fst (article_loop E v cfg src link fuel attempt acc w) = (acc ++ [a])%list
                 /\ is_success v (Some a) = true.
Proof.
  induction fuel as [|fuel IH]; intros attempt acc w; [left; reflexivity |].
  rewrite article_loop_S.
  destruct (fst (extract w)) as [a|]; [| apply IH].
  destruct (is_success v (Some a)) eqn:Hok; [| apply IH].
  right. exists a. auto.
Qed.

End Retry.

(** C6: in the loops of [run] with [N] configured attempts, a failed
    attempt number [k] (from 0) is followed by a sleep of [3 + 2k] seconds
    in link discovery and of [2 + k] seconds in article extraction, except
    after the last attempt; the first success ends the loop with its result.
    With [N = 3], two failures and a success give the result after exactly
    two sleeps (3 and 5 seconds, or 2 and 3 seconds). *)
Theorem C6_retry_backoff (E : Env) (v : variant) (cfg : Config) (src : Source)
    (link : string) (acc : list ArticleRecord) (w : world) (j : nat) :
  let N := retry_attempts cfg in
  let discover := get_article_links_cfg E v cfg src in
  let extract := scrape_article E v link src in
  let links_run := links_loop E v cfg src (Z.to_nat N) 0 None w in
  let article_run := article_loop E v cfg src link (Z.to_nat N) 0 acc w in
  (Z.of_nat j < N ->
   (forall k, (k < j)%nat -> attempt_result discover k w = []) ->
   attempt_result discover j w <> [] ->
   fst links_run = Some (attempt_result discover j w)
   /\ sleeps (snd links_run) = (sleeps w ++ backoffs 3 2 j)%list)
  /\ ((forall k, Z.of_nat k < N -> attempt_result discover k w = []) ->
      fst links_run = (if 0 <? N then Some [] else None)
      /\ sleeps (snd links_run) = (sleeps w ++ backoffs 3 2 (Z.to_nat N - 1))%list)
  /\ (forall a, Z.of_nat j < N ->
      (forall k, (k < j)%nat -> is_success v (attempt_result extract k w) = false) ->
      attempt_result extract j w = Some a -> is_success v (Some a) = true ->
      fst article_run = (acc ++ [a])%list
      /\ sleeps (snd article_run) = (sleeps w ++ backoffs 2 1 j)%list)
  /\ ((forall k, Z.of_nat k < N -> is_success v (attempt_result extract k w) = false) ->
      fst article_run = acc
      /\ sleeps (snd article_run) = (sleeps w ++ backoffs 2 1 (Z.to_nat N - 1))%list)
  /\ (N = 3 ->
      (attempt_result discover 0 w = [] -> attempt_result discover 1 w = [] ->
       attempt_result discover 2 w <> [] ->
       fst links_run = Some (attempt_result discover 2 w)
       /\ sleeps (snd links_run) = (sleeps w ++ [inject_Z 3; inject_Z 5])%list)
      /\ (forall a,
            is_success v (attempt_result extract 0 w) = false ->
            is_success v (attempt_result extract 1 w) = false ->
            attempt_result extract 2 w = Some a -> is_success v (Some a) = true ->
            fst article_run = (acc ++ [a])%list
            /\ sleeps (snd article_run) = (sleeps w ++ [inject_Z 2; inject_Z 3])%list)).
Proof.
  intros N discover extract links_run article_run.
  assert (N <= 0 \/ 0 + Z.of_nat (Z.to_nat N) = N) as HN by lia.
  split; [| split; [| split; [| split]]].
  - intros Hj Hfail Hok.
    apply (links_loop_succeeds E v cfg src j (Z.to_nat N) 0 None w); auto; lia.
  - intros Hfail. destruct HN as [Hle | Hsum].
    + unfold links_run. replace (Z.to_nat N) with 0%nat by lia.
      assert ((0 <? N) = false) as -> by (apply Z.ltb_ge; lia).
      cbn [links_loop ret fst snd Nat.sub]. unfold backoffs. cbn [seq List.map].
      rewrite app_nil_r. auto.
    + destruct (links_loop_exhausted E v cfg src (Z.to_nat N) 0 None w Hsum) as [Hres Hsl].
      { intros k Hk. apply Hfail. lia. }
      split; [| exact Hsl].
      unfold links_run. rewrite Hres.
      destruct (Z.to_nat N) eqn:Hn.
      * assert ((0 <? N) = false) as -> by (apply Z.ltb_ge; lia). reflexivity.
      * assert ((0 <? N) = true) as -> by (apply Z.ltb_lt; lia). reflexivity.
  - intros a Hj Hfail Hres Hok.
    apply (article_loop_succeeds E v cfg src link j (Z.to_nat N) 0 acc w a); auto; lia.
  - intros Hfail. destruct HN as [Hle | Hsum].
    + unfold article_run. replace (Z.to_nat N) with 0%nat by lia.
      cbn [article_loop ret fst snd Nat.sub]. unfold backoffs. cbn [seq List.map].
      rewrite app_nil_r. auto.
    + apply (article_loop_exhausted E v cfg src link (Z.to_nat N) 0 acc w Hsum).
      intros k Hk. apply Hfail. lia.
  - intros H3. split.
    + intros H0 H1 H2.
      apply (links_loop_succeeds E v cfg src 2 (Z.to_nat N) 0 None w); auto; try lia.
      intros k Hk. destruct k as [|[|k]]; [exact H0 | exact H1 | lia].
    + intros a H0 H1 H2 Hok.
      apply (article_loop_succeeds E v cfg src link 2 (Z.to_nat N) 0 acc w a); auto; try lia.
      intros k Hk. destruct k as [|[|k]]; [exact H0 | exact H1 | lia].
Qed.

Lemma C6_retry_backoff_witness :
  (fst (links_loop (Demo.env_seq [None; None; Some Demo.front]) Asia (Demo.cfg [Demo.src])
          Demo.src 3 0 None Demo.w0) = Some ["https://example.com/story/1"]
   /\ sleeps (snd (links_loop (Demo.env_seq [None; None; Some Demo.front]) Asia
                     (Demo.cfg [Demo.src]) Demo.src 3 0 None Demo.w0))
      = [inject_Z 3; inject_Z 5])
  /\ (exists a,
        fst (article_loop (Demo.env_seq [None; None; Some Demo.front]) Asia
               (Demo.cfg [Demo.src]) Demo.src Demo.link 3 0 [] Demo.w0) = [a]
        /\ title a = "Headline")
  /\ sleeps (snd (article_loop (Demo.env_seq [None; None; Some Demo.front]) Asia
                    (Demo.cfg [Demo.src]) Demo.src Demo.link 3 0 [] Demo.w0))
     = [inject_Z 2; inject_Z 3].
Proof.
  destruct (C6_retry_backoff (Demo.env_seq [None; None; Some Demo.front]) Asia
              (Demo.cfg [Demo.src]) Demo.src Demo.link [] Demo.w0 2)
    as (_ & _ & _ & _ & Hscenario).
  destruct (Hscenario eq_refl) as [Hlinks Harticle].
  split; [| split].
  - apply Hlinks; [reflexivity | reflexivity | discriminate].
  - eexists. split; [apply Harticle; reflexivity | reflexivity].
  - eapply Harticle; reflexivity.
Defined.

(** ** Paths *)

Lemma append_cons (c : ascii) (s t : string) : String c s +:+ t = String c (s +:+ t).
Proof. reflexivity. Qed.

Lemma length_append (s t : string) :
  String.length (s +:+ t) = (String.length s + String.length t)%nat.
Proof.
  induction s as [|c s IH]; [reflexivity |].
  rewrite append_cons. simpl. rewrite IH. reflexivity.
Qed.

Lemma append_empty_r (s : string) : s +:+ EmptyString = s.
Proof. induction s as [|c s IH]; [reflexivity | rewrite append_cons, IH; reflexivity]. Qed.

Lemma is_prefix_refl (s : string) : is_prefix s s.
Proof. exists EmptyString. symmetry. apply append_empty_r. Qed.

Lemma is_prefix_trans (a b c : string) : is_prefix a b -> is_prefix b c -> is_prefix a c.
Proof.
  intros [t ->] [u ->]. exists (t +:+ u).
  induction a as [|x a IH]; [reflexivity | rewrite !append_cons, IH; reflexivity].
Qed.

Lemma is_prefix_length (d p : string) :
  is_prefix d p ->
  (String.length d <= String.length p)%nat
  /\ (String.length d = String.length p -> d = p).
Proof.
  intros [t ->]. rewrite length_append. split; [lia |].
  intros Hlen. destruct t as [|c t]; [symmetry; apply append_empty_r |].
  simpl in Hlen. lia.
Qed.

Lemma take_is_prefix (k : nat) : forall s, is_prefix (PyStr.take k s) s.
Proof.
  induction k as [|k IH]; intros [|c s]; simpl; try (eexists; reflexivity).
  destruct (IH s) as [t Ht]. exists t. rewrite append_cons, <- Ht. reflexivity.
Qed.

Lemma rstrip_by_is_prefix (f : ascii -> bool) : forall s, is_prefix (PyStr.rstrip_by f s) s.
Proof.
  induction s as [|c s IH]; simpl; [apply is_prefix_refl |].
  destruct IH as [t Ht].
  destruct (PyStr.rstrip_by f s) as [|c' r] eqn:Hr.
  - destruct (f c); [exists (String c s); reflexivity |].
    exists s. reflexivity.
  - exists t. rewrite append_cons, <- Ht. reflexivity.
Qed.

Lemma dirname_is_prefix (p : string) : is_prefix (Path.dirname p) p.
Proof.
  unfold Path.dirname.
  destruct (_ && _).
  - eapply is_prefix_trans; [apply rstrip_by_is_prefix | apply take_is_prefix].
  - apply take_is_prefix.
Qed.

Lemma dirname_shorter (p : string) :
  Path.dirname p <> p -> (String.length (Path.dirname p) < String.length p)%nat.
Proof.
  intros Hne. destruct (is_prefix_length _ _ (dirname_is_prefix p)) as [Hle Heq].
  destruct (decide (String.length (Path.dirname p) = String.length p)) as [Hlen|Hlen];
    [apply Heq in Hlen; contradiction | lia].
Qed.

Lemma chain_length (fuel : nat) :
  forall p d, d ∈ Path.chain fuel p -> (String.length d <= String.length p)%nat.
Proof.
  induction fuel as [|fuel IH]; intros p d; simpl.
  - intros ->%list_elem_of_singleton. lia.
  - destruct (PyStr.truthy (Path.dirname p) && negb (bool_decide (Path.dirname p = p)))
      eqn:Hgo.
    + apply andb_true_iff in Hgo as [_ Hne].
      apply negb_true_iff, bool_decide_eq_false in Hne.
      intros [-> | Hin]%elem_of_cons; [lia |].
      apply IH in Hin. pose proof (dirname_shorter p Hne). lia.
    + intros ->%list_elem_of_singleton. lia.
Qed.

Lemma chain_NoDup (fuel : nat) : forall p, NoDup (Path.chain fuel p).
Proof.
  induction fuel as [|fuel IH]; intros p; simpl; [apply NoDup_singleton |].
  destruct (PyStr.truthy (Path.dirname p) && negb (bool_decide (Path.dirname p = p)))
    eqn:Hgo; [| apply NoDup_singleton].
  apply andb_true_iff in Hgo as [_ Hne].
  apply negb_true_iff, bool_decide_eq_false in Hne.
  apply NoDup_cons. split; [| apply IH].
  intros Hin. apply chain_length in Hin. pose proof (dirname_shorter p Hne). lia.
Qed.

Lemma chain_head (fuel : nat) (p : string) : exists rest, Path.chain fuel p = p :: rest.
Proof. destruct fuel; simpl; [eauto |]. destruct (_ && _); eauto. Qed.

(** ** The file system *)

Lemma is_dir_add_dir (p q : string) (w : world) :
  is_dir p (add_dir q w) = bool_decide (p = q) || is_dir p w.
Proof.
  unfold is_dir, add_dir. cbn [fs_dirs].
  destruct (bool_decide_reflect (p = q)) as [->|Hne]; cbn [orb].
  - apply bool_decide_eq_true. apply elem_of_union. left. apply elem_of_singleton.
    reflexivity.
  - destruct (bool_decide_reflect (p ∈ fs_dirs w)) as [Hin|Hout].
    + apply bool_decide_eq_true. apply elem_of_union. right. exact Hin.
    + apply bool_decide_eq_false. intros [Hx | Hx]%elem_of_union; [| contradiction].
      apply elem_of_singleton in Hx. contradiction.
Qed.

Lemma makedirs_chain_step (ok : bool) (name head : string) (rest : list string) (w : world) :
  makedirs_chain ok (name :: head :: rest) w
  = if path_exists head w then mkdir ok name (Some head) w
    else if fst (makedirs_chain ok (head :: rest) w)
         then mkdir ok name (Some head) (snd (makedirs_chain ok (head :: rest) w))
         else (false, snd (makedirs_chain ok (head :: rest) w)).
Proof.
  change (makedirs_chain ok (name :: head :: rest) w)
    with (if path_exists head w then mkdir ok name (Some head) w
          else let (ok', w') := makedirs_chain ok (head :: rest) w in
               if ok' then mkdir ok name (Some head) w' else (false, w')).
  destruct (path_exists head w); [reflexivity |].
  destruct (makedirs_chain ok (head :: rest) w) as [[] w']; reflexivity.
Qed.

Lemma mkdir_creates (name : string) (parent : option string) (w : world) :
  path_exists name w = false ->
  match parent with Some h => is_dir h w = true | None => True end ->
  mkdir false name parent w = (true, add_dir name w).
Proof.
  intros Hn Hp. unfold mkdir. rewrite Hn.
  destruct parent as [h|]; [rewrite Hp |]; reflexivity.
Qed.

Lemma is_dir_add_dir_inv (p name : string) (w : world) :
  is_dir p (add_dir name w) = true -> p = name \/ is_dir p w = true.
Proof.
  rewrite is_dir_add_dir.
  intros [->%bool_decide_eq_true | Hp]%orb_true_iff; auto.
Qed.

(** [os.makedirs] creates the whole chain when no name on it is a file and
    the directory itself is missing; files are untouched. *)
Lemma makedirs_chain_creates (rest : list string) :
  forall w name,
    NoDup (name :: rest) ->
    (forall d, d ∈ name :: rest -> is_file d w = false) ->
    is_dir name w = false ->
    fst (makedirs_chain false (name :: rest) w) = true
    /\ fs_files (snd (makedirs_chain false (name :: rest) w)) = fs_files w
    /\ is_dir name (snd (makedirs_chain false (name :: rest) w)) = true
    /\ (forall p, is_dir p (snd (makedirs_chain false (name :: rest) w)) = true ->
                  is_dir p w = true \/ p ∈ name :: rest).
Proof.
  induction rest as [|head rest IH]; intros w name Hnd Hfiles Hmissing;
    assert (path_exists name w = false) as Hname
      by (unfold path_exists; rewrite Hmissing, (Hfiles name); [reflexivity | left]).
  - cbn [makedirs_chain]. rewrite (mkdir_creates name None w Hname I). cbn [fst snd].
    repeat split; auto.
    + rewrite is_dir_add_dir, bool_decide_eq_true_2; auto.
    + intros p [-> | Hp]%is_dir_add_dir_inv; [right; left | left; exact Hp].
  - rewrite makedirs_chain_step.
    destruct (path_exists head w) eqn:Hhead.
    + assert (is_dir head w = true) as Hdir.
      { unfold path_exists in Hhead. rewrite (Hfiles head) in Hhead; [| right; left].
        rewrite orb_false_r in Hhead. exact Hhead. }
      rewrite (mkdir_creates name (Some head) w Hname Hdir). cbn [fst snd].
      repeat split; auto.
      * rewrite is_dir_add_dir, bool_decide_eq_true_2; auto.
      * intros p [-> | Hp]%is_dir_add_dir_inv; [right; left | left; exact Hp].
    + apply NoDup_cons in Hnd as [Hnotin Hnd'].
      destruct (IH w head Hnd') as (Hok & Hf & Hd & Hdirs).
      { intros d Hd. apply Hfiles. right. exact Hd. }
      { unfold path_exists in Hhead. apply orb_false_iff in Hhead as [Hh _]. exact Hh. }
      set (w1 := snd (makedirs_chain false (head :: rest) w)) in *.
      rewrite Hok.
      assert (path_exists name w1 = false) as Hname1.
      { unfold path_exists. apply orb_false_iff. split.
        - destruct (is_dir name w1) eqn:Hx; [| reflexivity].
          destruct (Hdirs name Hx) as [Hy | Hy]; [congruence | contradiction].
        - unfold is_file. rewrite Hf. apply (Hfiles name). left. }
      rewrite (mkdir_creates name (Some head) w1 Hname1 Hd). cbn [fst snd].
      repeat split; auto.
      * rewrite is_dir_add_dir, bool_decide_eq_true_2; auto.
      * intros p [-> | Hp]%is_dir_add_dir_inv; [right; left |].
        destruct (Hdirs p Hp) as [Hy | Hy]; [left; exact Hy | right; right; exact Hy].
Qed.

Lemma keeps_disk_tick_only {A : Type} (op : M A) : tick_only op -> keeps_disk op.
Proof. intros Hop w. apply (tick_only_files op Hop). Qed.

Lemma keeps_disk_ret {A : Type} (a : A) : keeps_disk (ret a).
Proof. intros w. split; reflexivity. Qed.

Lemma keeps_disk_sleep (d : Q) : keeps_disk (sleep d).
Proof. intros w. split; reflexivity. Qed.

Lemma keeps_disk_rand (E : Env) : keeps_disk (rand E).
Proof. intros w. split; reflexivity. Qed.

Lemma keeps_disk_bind {A B : Type} (c : M A) (k : A -> M B) :
  keeps_disk c -> (forall a, keeps_disk (k a)) -> keeps_disk (bind c k).
Proof.
  intros Hc Hk w. rewrite bind_unfold.
  destruct (Hk (fst (c w)) (snd (c w))) as [-> ->]. apply Hc.
Qed.

Section Disk.

Variable E : Env.
Variable v : variant.
Variable cfg : Config.
Variable src : Source.

Lemma backed_off_disk (base step attempt : Z) (w : world) :
  fs_dirs (backed_off cfg base step attempt w) = fs_dirs w
  /\ fs_files (backed_off cfg base step attempt w) = fs_files w.
Proof. unfold backed_off. destruct (_ <? _); split; reflexivity. Qed.

Lemma links_loop_disk (fuel : nat) :
  forall attempt var, keeps_disk (links_loop E v cfg src fuel attempt var).
Proof.
  induction fuel as [|fuel IH]; intros attempt var w; [split; reflexivity |].
  rewrite links_loop_S.
  pose proof (keeps_disk_tick_only _ (tick_only_get_article_links E v cfg src) w) as [Hd Hf].
  destruct (nonempty _); [split; assumption |].
  destruct (IH (attempt + 1) (Some (fst (get_article_links_cfg E v cfg src w)))
              (backed_off cfg 3 2 attempt (snd (get_article_links_cfg E v cfg src w))))
    as [-> ->].
  destruct (backed_off_disk 3 2 attempt (snd (get_article_links_cfg E v cfg src w)))
    as [-> ->].
  split; assumption.
Qed.

Hypothesis not_us : v <> US.

Lemma on_success_disk (a : ArticleRecord) : keeps_disk (on_success E v cfg a).
Proof. destruct v; [| contradiction | |]; apply keeps_disk_ret. Qed.

Lemma article_loop_disk (link : string) (fuel : nat) :
  forall attempt acc, keeps_disk (article_loop E v cfg src link fuel attempt acc).
Proof.
  induction fuel as [|fuel IH]; intros attempt acc w; [split; reflexivity |].
  rewrite article_loop_S.
  pose proof (keeps_disk_tick_only _ (tick_only_scrape_article E v link src) w) as [Hd Hf].
  assert (fs_dirs (snd (article_loop E v cfg src link fuel (attempt + 1) acc
                          (backed_off cfg 2 1 attempt (snd (scrape_article E v link src w)))))
          = fs_dirs w
          /\ fs_files (snd (article_loop E v cfg src link fuel (attempt + 1) acc
                          (backed_off cfg 2 1 attempt (snd (scrape_article E v link src w)))))
             = fs_files w) as Hretry.
  { destruct (IH (attempt + 1) acc
                (backed_off cfg 2 1 attempt (snd (scrape_article E v link src w))))
      as [-> ->].
    destruct (backed_off_disk 2 1 attempt (snd (scrape_article E v link src w)))
      as [-> ->].
    split; assumption. }
  destruct (fst (scrape_article E v link src w)) as [a|]; [| exact Hretry].
  destruct (is_success v (Some a)); [| exact Hretry].
  cbn [snd]. destruct (on_success_disk a (snd (scrape_article E v link src w))) as [-> ->].
  split; assumption.
Qed.

Lemma links_pass_disk (links : list string) :
  forall acc, keeps_disk (links_pass E v cfg src links acc).
Proof.
  induction links as [|link rest IH]; intros acc; [apply keeps_disk_ret |].
  cbn [links_pass].
  apply keeps_disk_bind; [apply keeps_disk_rand | intros r].
  apply keeps_disk_bind; [apply keeps_disk_sleep | intros _].
  apply keeps_disk_bind; [apply article_loop_disk | intros acc'].
  apply IH.
Qed.

End Disk.

(** the accumulator only grows during the pass over the links *)
Lemma links_pass_extends (E : Env) (v : variant) (cfg : Config) (src : Source)
    (links : list string) :
  forall acc w, exists more,
    fst (links_pass E v cfg src links acc w) = (acc ++ more)%list.
Proof.
  induction links as [|link rest IH]; intros acc w.
  - exists []. cbn [links_pass ret fst]. rewrite app_nil_r. reflexivity.
  - cbn [links_pass]. rewrite !bind_unfold.
    set (w1 := snd (sleep _ _)).
    destruct (article_loop_appends E v cfg src link (Z.to_nat (retry_attempts cfg)) 0 acc w1)
      as [-> | (a & -> & _)].
    + apply IH.
    + destruct (IH (acc ++ [a])%list
                  (snd (article_loop E v cfg src link (Z.to_nat (retry_attempts cfg)) 0 acc w1)))
        as [more ->].
      exists (a :: more). rewrite <- app_assoc. reflexivity.
Qed.

Lemma writable_same_disk (v : variant) (cfg : Config) (w w' : world) :
  fs_dirs w' = fs_dirs w -> fs_files w' = fs_files w ->
  writable v cfg w -> writable v cfg w'.
Proof.
  intros Hd Hf. unfold writable, is_dir, is_file. rewrite Hd, Hf. auto.
Qed.

Lemma write_json_ok (p : string) (d : document) (w : world) :
  (Path.dirname p = EmptyString \/ is_dir (Path.dirname p) w = true) ->
  is_dir p w = false ->
  write_json p d w = (true, put_file p d w).
Proof.
  intros Hparent Hp. unfold write_json. rewrite Hp.
  destruct Hparent as [-> | ->]; [reflexivity |].
  rewrite orb_true_r. reflexivity.
Qed.

(** [save_to_json] writes the collection when the output file is writable;
    the European and Asian scripts first create the missing directory. *)
Lemma save_to_json_writes (v : variant) (cfg : Config) (l : list ArticleRecord)
    (w : world) :
  v <> US -> writable v cfg w ->
  fs_files (snd (save_to_json v cfg l w)) !! output_file cfg = Some (ArticlesDoc l)
  /\ (v <> Base -> Path.dirname (output_file cfg) <> EmptyString ->
      is_dir (Path.dirname (output_file cfg)) (snd (save_to_json v cfg l w)) = true).
Proof.
  intros Hv (Hp & Hne & Hdir).
  assert (forall w1,
             (Path.dirname (output_file cfg) = EmptyString
              \/ is_dir (Path.dirname (output_file cfg)) w1 = true) ->
             is_dir (output_file cfg) w1 = false ->
             fs_files (snd (write_json (output_file cfg) (ArticlesDoc l) w1))
               !! output_file cfg = Some (ArticlesDoc l)
             /\ fs_dirs (snd (write_json (output_file cfg) (ArticlesDoc l) w1)) = fs_dirs w1)
    as Hwrite.
  { intros w1 H1 H2. rewrite (write_json_ok _ _ _ H1 H2). cbn [snd put_file fs_files].
    rewrite lookup_insert_eq. auto. }
  assert (v = Base \/ v = Europe \/ v = Asia) as Hcases
    by (destruct v; auto; contradiction).
  destruct Hcases as [-> | Hreg].
  - unfold save_to_json, save_to_json_base. rewrite bind_unfold. cbn [ret snd].
    destruct (Hwrite w Hdir Hp) as (H1 & _).
    split; [exact H1 | congruence].
  - assert (save_to_json v cfg l = save_to_json_regional cfg l) as ->
      by (destruct Hreg as [-> | ->]; reflexivity).
    assert (forall d, In d (Path.chain (String.length (Path.dirname (output_file cfg)))
                             (Path.dirname (output_file cfg))) -> is_file d w = false)
      as Hchain by (destruct Hreg as [-> | ->]; exact Hdir).
    clear Hdir. unfold save_to_json_regional.
    set (p := output_file cfg) in *. set (dir := Path.dirname p) in *.
    destruct (chain_head (String.length dir) dir) as [rest Hrest].
    assert (is_file dir w = false) as Hdirfile.
    { apply Hchain. rewrite Hrest. left. reflexivity. }
    destruct (PyStr.truthy dir && negb (path_exists dir w)) eqn:Hguard.
    + apply andb_true_iff in Hguard as [Htruthy Hmissing].
      apply negb_true_iff in Hmissing. unfold path_exists in Hmissing.
      apply orb_false_iff in Hmissing as [Hmissing _].
      unfold makedirs. rewrite Hrest.
      destruct (makedirs_chain_creates rest w dir) as (Hok & Hf & Hd & Hdirs).
      { rewrite <- Hrest. apply chain_NoDup. }
      { intros d Hd. apply Hchain. rewrite Hrest. apply list_elem_of_In. exact Hd. }
      { exact Hmissing. }
      destruct (makedirs_chain false (dir :: rest) w) as [ok w1].
      cbn [fst snd] in *. subst ok.
      assert (is_dir p w1 = false) as Hp1.
      { destruct (is_dir p w1) eqn:Hx; [| reflexivity].
        destruct (Hdirs p Hx) as [Hy | Hy]; [congruence |].
        rewrite <- Hrest in Hy. apply chain_length in Hy.
        pose proof (dirname_shorter p Hne) as Hshort. fold dir in Hshort. lia. }
      destruct (Hwrite w1 (or_intror Hd) Hp1) as (H1 & H2).
      cbn [snd]. split; [exact H1 |].
      intros _ _. unfold is_dir. rewrite H2. exact Hd.
    + assert (dir = EmptyString \/ is_dir dir w = true) as Hparent.
      { apply andb_false_iff in Hguard as [Hempty | Hexists].
        - left. unfold PyStr.truthy in Hempty.
          apply negb_false_iff, bool_decide_eq_true in Hempty. exact Hempty.
        - right. apply negb_false_iff in Hexists. unfold path_exists in Hexists.
          rewrite Hdirfile, orb_false_r in Hexists. exact Hexists. }
      destruct (Hwrite w Hparent Hp) as (H1 & H2).
      cbn [snd]. split; [exact H1 |].
      intros _ Hnonempty. destruct Hparent as [Hempty | Hd]; [contradiction |].
      unfold is_dir. rewrite H2. exact Hd.
Qed.

(** ** Checkpoints *)

Lemma links_loop_bound (E : Env) (v : variant) (cfg : Config) (src : Source) (fuel : nat) :
  forall attempt var w,
    (0 < fuel)%nat \/ var <> None ->
    exists links, fst (links_loop E v cfg src fuel attempt var w) = Some links.
Proof.
  induction fuel as [|fuel IH]; intros attempt var w Hbound.
  - destruct Hbound as [Hlt | Hvar]; [lia |].
    destruct var as [links|]; [exists links; reflexivity | contradiction].
  - rewrite links_loop_S. destruct (nonempty _); [eexists; reflexivity |].
    apply IH. right. discriminate.
Qed.

(** C5, as amended: in the base, European and Asian scripts, when the
    output file is writable, the iteration of [run] for one source ends
    with the whole accumulator (the records of the earlier sources and the
    new ones) in the output file, whatever the file held before; the
    European and Asian scripts create the missing directory of the file
    first. The iteration does complete when at least one attempt is
    configured. *)
Theorem C5_checkpoint_after_each_source (E : Env) (v : variant) (cfg : Config)
    (src : Source) (var : option (list string)) (acc : list ArticleRecord) (w : world) :
  v <> US -> writable v cfg w -> 0 < retry_attempts cfg ->
  exists links acc',
    fst (process_source E v cfg src var acc w) = Some (links, acc')
    /\ fs_files (snd (process_source E v cfg src var acc w)) !! output_file cfg
       = Some (ArticlesDoc acc')
    /\ (exists more, acc' = (acc ++ more)%list)
    /\ (v <> Base -> Path.dirname (output_file cfg) <> EmptyString ->
        is_dir (Path.dirname (output_file cfg))
          (snd (process_source E v cfg src var acc w)) = true).
Proof.
  intros Hv Hw HN. unfold process_source. rewrite bind_unfold.
  destruct (links_loop_bound E v cfg src (Z.to_nat (retry_attempts cfg)) 0 var w)
    as [links Hlinks]; [left; lia |].
  rewrite Hlinks. rewrite !bind_unfold. cbn [ret fst snd].
  set (w1 := snd (links_loop E v cfg src (Z.to_nat (retry_attempts cfg)) 0 var w)).
  set (acc' := fst (links_pass E v cfg src links acc w1)).
  set (w2 := snd (links_pass E v cfg src links acc w1)).
  exists links, acc'. split; [reflexivity |].
  assert (writable v cfg w2) as Hw2.
  { destruct (links_loop_disk E v cfg src (Z.to_nat (retry_attempts cfg)) 0 var w)
      as [Hd1 Hf1].
    destruct (links_pass_disk E v cfg src Hv links acc w1) as [Hd2 Hf2].
    apply (writable_same_disk v cfg w w2); [| | exact Hw]; unfold w2.
    - rewrite Hd2. exact Hd1.
    - rewrite Hf2. exact Hf1. }
  destruct (save_to_json_writes v cfg acc' w2 Hv Hw2) as [Hfile Hdir].
  split; [exact Hfile |]. split; [| exact Hdir].
  destruct (links_pass_extends E v cfg src links acc w1) as [more Hmore].
  exists more. exact Hmore.
Qed.

Lemma demo_writable (srcs : list Source) :
  writable Asia (Demo.cfg srcs) Demo.w0 /\ writable Base (Demo.cfg srcs) Demo.w_out.
Proof.
  split; (split; [reflexivity |]); (split; [discriminate |]).
  - intros d _. reflexivity.
  - right. reflexivity.
Qed.

Lemma C5_checkpoint_after_each_source_witness :
  exists links acc',
    fst (process_source (Demo.env (Some Demo.front) 1) Asia (Demo.cfg [Demo.src]) Demo.src
           None [] Demo.w0) = Some (links, acc')
    /\ fs_files (snd (process_source (Demo.env (Some Demo.front) 1) Asia
                        (Demo.cfg [Demo.src]) Demo.src None [] Demo.w0))
         !! "out/articles.json" = Some (ArticlesDoc acc')
    /\ is_dir "out" (snd (process_source (Demo.env (Some Demo.front) 1) Asia
                            (Demo.cfg [Demo.src]) Demo.src None [] Demo.w0)) = true.
Proof.
  destruct (C5_checkpoint_after_each_source (Demo.env (Some Demo.front) 1) Asia
              (Demo.cfg [Demo.src]) Demo.src None [] Demo.w0)
    as (links & acc' & Hrun & Hfile & _ & Hdir).
  - discriminate.
  - apply demo_writable.
  - reflexivity.
  - exists links, acc'. split; [exact Hrun |]. split; [exact Hfile |].
    apply Hdir; discriminate.
Defined.

Lemma no_collection_file (m : gmap string document) :
  forallb (fun pd => negb (is_collection (snd pd))) (map_to_list m) = true ->
  forall p l, m !! p <> Some (ArticlesDoc l).
Proof.
  intros Hall p l Hp. rewrite forallb_forall in Hall.
  apply elem_of_map_to_list, list_elem_of_In, Hall in Hp. discriminate Hp.
Qed.

(** C5 as stated fails in the US script: a run that accepts an article
    ends with the article in a file of its own and with the report, and no
    file holds the accumulator. *)
Lemma C5_us_run_keeps_no_collection_file :
  exists a r,
    fst (main (Demo.env (Some Demo.front) 1) US (Demo.cfg [Demo.src]) Demo.w0)
    = Some ([a], Some r)
    /\ (forall p l,
          fs_files (snd (main (Demo.env (Some Demo.front) 1) US (Demo.cfg [Demo.src])
                           Demo.w0)) !! p <> Some (ArticlesDoc l))
    /\ fs_files (snd (main (Demo.env (Some Demo.front) 1) US (Demo.cfg [Demo.src])
                        Demo.w0)) !! "US_tech_news/articles/headline-20250306120000.json"
       = Some (ArticleDoc a).
Proof.
  eexists _, _. split; [vm_compute; reflexivity |]. split.
  - apply no_collection_file. vm_compute. reflexivity.
  - vm_compute. reflexivity.
Qed.

(** the base script writes nothing when the directory of the output file
    is missing *)
Example base_run_without_directory :
  fs_files (snd (run (Demo.env (Some Demo.front) 1) Base (Demo.cfg [Demo.src]) Demo.w0)) = ∅
  /\ fs_dirs (snd (run (Demo.env (Some Demo.front) 1) Base (Demo.cfg [Demo.src]) Demo.w0)) = ∅
  /\ exists a, fst (run (Demo.env (Some Demo.front) 1) Base (Demo.cfg [Demo.src]) Demo.w0)
               = Some ([a], None).
Proof.
  split; [vm_compute; reflexivity |]. split; [vm_compute; reflexivity |].
  eexists. vm_compute. reflexivity.
Qed.

(** ** The aggregate report *)


(** the division of [generate_report] never raises *)
Lemma build_report_total (v : variant) (cfg : Config) (articles : list ArticleRecord)
    (stamps : list string) :
  build_report v cfg articles stamps <> None.
Proof.
  unfold build_report.
  destruct (List.fold_left _ _ _) as [r total].
  destruct articles as [|a l]; [discriminate |].
  cbn [nonempty]. unfold true_div.
  assert ((Z.of_nat (List.length (a :: l)) =? 0) = false) as ->
    by (apply Z.eqb_neq; simpl; lia).
  discriminate.
Qed.

Lemma write_json_other (p q : string) (d : document) (w : world) :
  q <> p -> fs_files (snd (write_json p d w)) !! q = fs_files w !! q.
Proof.
  intros Hne. unfold write_json. destruct (_ && _); [| reflexivity].
  cbn [snd put_file fs_files]. apply lookup_insert_ne. congruence.
Qed.

Lemma empty_report_totals (v : variant) (stamps : list string) :
  total_articles (empty_report v 0 stamps) = 0
  /\ average_content_length (empty_report v 0 stamps) = 0%Q.
Proof. split; reflexivity. Qed.









(** ** The clustering tool *)

Section ClusteringProofs.

Import Clustering.

Variable article_metadata : list Metadata.

Let n : Z := Z.of_nat (List.length article_metadata).

Lemma index_in_range (i : Z) :
  0 <= i < n ->
  exists m, nth_error article_metadata (Z.to_nat i) = Some m
            /\ index article_metadata i = Value m.
Proof.
  intros Hi. unfold index. fold n.
  assert ((i <? 0) = false) as -> by (apply Z.ltb_ge; lia).
  assert (((0 <=? i) && (i <? n)) = true) as ->
    by (apply andb_true_iff; split; [apply Z.leb_le | apply Z.ltb_lt]; lia).
  destruct (nth_error article_metadata (Z.to_nat i)) as [m|] eqn:Hm; [eauto |].
  apply nth_error_None in Hm. unfold n in Hi. lia.
Qed.

(** an integer id is never the cause of an exception: inside the range it
    selects its article, outside it is skipped without indexing *)
Lemma pick_int (x : id_value) (i : Z) :
  id_int x = Some i ->
  pick article_metadata x
  = Value (if (0 <=? i) && (i <? n)
           then full_article <$> nth_error article_metadata (Z.to_nat i)
           else None).
Proof.
  intros Hx.
  assert (pick article_metadata x
          = if (0 <=? i) && (i <? n) then
              match index article_metadata i with
              | Value m => Value (Some (full_article m))
              | Raised => Raised
              end
            else Value None) as ->.
  { destruct x as [j | b | q |]; simpl in Hx; try discriminate;
      injection Hx as <-; reflexivity. }
  destruct ((0 <=? i) && (i <? n)) eqn:Hrange; [| reflexivity].
  apply andb_true_iff in Hrange as [H0 H1].
  apply Z.leb_le in H0. apply Z.ltb_lt in H1.
  destruct (index_in_range i (conj H0 H1)) as (m & -> & ->). reflexivity.
Qed.

Lemma pick_value (x : id_value) (o : option ArticleRecord) :
  pick article_metadata x = Value o ->
  picked article_metadata [x] = match o with Some a => [a] | None => [] end.
Proof.
  unfold picked. cbn [List.flat_map]. rewrite app_nil_r. fold n.
  destruct (id_int x) as [i|] eqn:Hx.
  - rewrite (pick_int x i Hx). intros [= <-].
    destruct ((0 <=? i) && (i <? n)); [| reflexivity].
    destruct (nth_error article_metadata (Z.to_nat i)); reflexivity.
  - destruct x as [j | b | q |]; simpl in Hx; try discriminate.
    unfold pick. destruct (_ && _)%bool; [discriminate |]. intros [= <-]. reflexivity.
Qed.

Lemma picked_cons (x : id_value) (ids : list id_value) :
  picked article_metadata (x :: ids)
  = (picked article_metadata [x] ++ picked article_metadata ids)%list.
Proof. unfold picked. cbn [List.flat_map]. rewrite app_nil_r. reflexivity. Qed.

Lemma gather_spec (ids : list id_value) :
  forall acc l,
    gather article_metadata ids acc = Value l ->
    l = (acc ++ picked article_metadata ids)%list.
Proof.
  induction ids as [|x ids IH]; intros acc l.
  - cbn [gather]. intros [= <-]. unfold picked. cbn [List.flat_map].
    rewrite app_nil_r. reflexivity.
  - cbn [gather]. rewrite picked_cons.
    destruct (pick article_metadata x) as [[a|]|] eqn:Hpick; [| | discriminate].
    + intros Hl. apply IH in Hl. rewrite (pick_value x _ Hpick), Hl, <- app_assoc.
      reflexivity.
    + intros Hl. apply IH in Hl. rewrite (pick_value x _ Hpick). exact Hl.
Qed.

Lemma gather_int_ids (ids : list id_value) :
  (forall x, In x ids -> id_int x <> None) ->
  forall acc, exists l, gather article_metadata ids acc = Value l.
Proof.
  induction ids as [|x ids IH]; intros Hints acc; [eexists; reflexivity |].
  cbn [gather].
  destruct (id_int x) as [i|] eqn:Hx; [| destruct (Hints x (or_introl eq_refl) Hx)].
  rewrite (pick_int x i Hx).
  destruct (if (0 <=? i) && (i <? n)
            then full_article <$> nth_error article_metadata (Z.to_nat i) else None);
    apply IH; intros y Hy; apply Hints; right; exact Hy.
Qed.

Lemma kept_themes_cons (theme : ThemeReply) (reply : list ThemeReply) :
  kept_themes article_metadata (theme :: reply)
  = (kept_themes article_metadata [theme] ++ kept_themes article_metadata reply)%list.
Proof. unfold kept_themes. cbn [List.flat_map]. rewrite app_nil_r. reflexivity. Qed.

Lemma map_themes_spec (reply : list ThemeReply) :
  forall done ts,
    map_themes article_metadata reply done = Value ts ->
    ts = (done ++ kept_themes article_metadata reply)%list.
Proof.
  induction reply as [|theme reply IH]; intros done ts.
  - cbn [map_themes]. intros [= <-]. unfold kept_themes. cbn [List.flat_map].
    rewrite app_nil_r. reflexivity.
  - cbn [map_themes]. rewrite kept_themes_cons.
    destruct (gather article_metadata (article_ids theme) []) as [articles|] eqn:Hg;
      [| discriminate].
    apply gather_spec in Hg. cbn [app] in Hg. subst articles.
    intros Hts. apply IH in Hts. subst ts.
    unfold kept_themes at 2. cbn [List.flat_map]. rewrite app_nil_r.
    destruct (nonempty (picked article_metadata (article_ids theme)));
      [rewrite <- app_assoc |]; reflexivity.
Qed.

Lemma map_themes_int_ids (reply : list ThemeReply) :
  int_ids reply ->
  forall done, exists ts, map_themes article_metadata reply done = Value ts.
Proof.
  induction reply as [|theme reply IH]; intros Hints done; [eexists; reflexivity |].
  cbn [map_themes].
  destruct (gather_int_ids (article_ids theme)) with (acc := @nil ArticleRecord)
    as [articles ->].
  { intros x Hx. apply (Hints theme x); [left; reflexivity | exact Hx]. }
  apply IH. intros th x Hth Hx. apply (Hints th x); [right; exact Hth | exact Hx].
Qed.

Lemma picked_loaded (ids : list id_value) (a : ArticleRecord) :
  In a (picked article_metadata ids) ->
  exists i m, 0 <= i < n /\ nth_error article_metadata (Z.to_nat i) = Some m
              /\ a = full_article m.
Proof.
  unfold picked. fold n. rewrite in_flat_map. intros (x & _ & Hin).
  destruct (id_int x) as [i|]; [| destruct Hin].
  destruct ((0 <=? i) && (i <? n)) eqn:Hrange; [| destruct Hin].
  destruct (nth_error article_metadata (Z.to_nat i)) as [m|] eqn:Hm; [| destruct Hin].
  destruct Hin as [<- | []].
  apply andb_true_iff in Hrange as [H0 H1].
  apply Z.leb_le in H0. apply Z.ltb_lt in H1.
  exists i, m. repeat split; assumption.
Qed.

Lemma kept_themes_nonempty (reply : list ThemeReply) (th : Theme) :
  In th (kept_themes article_metadata reply) ->
  theme_articles th <> []
  /\ exists theme, In theme reply
                   /\ theme_articles th = picked article_metadata (article_ids theme).
Proof.
  unfold kept_themes. rewrite in_flat_map. intros (theme & Hin & Hth).
  destruct (nonempty (picked article_metadata (article_ids theme))) eqn:Hne;
    [| destruct Hth].
  destruct Hth as [<- | []]. cbn [theme_articles]. split; [| eauto].
  destruct (picked article_metadata (article_ids theme)); [discriminate Hne | discriminate].
Qed.

End ClusteringProofs.

Lemma metadata_of_loaded (articles : list ArticleRecord) (k : nat) (m : Clustering.Metadata) :
  nth_error (Clustering.extract_article_metadata articles) k = Some m ->
  nth_error articles k = Some (Clustering.full_article m).
Proof.
  unfold Clustering.extract_article_metadata. rewrite nth_error_map.
  destruct (nth_error articles k) as [a|]; [| discriminate].
  intros [= <-]. reflexivity.
Qed.

(** C10: when [cluster_articles_by_theme] returns clustered data, each of
    its themes holds exactly the articles of the ids [i] of the reply with
    [0 <= i < number of loaded articles], in the order of the ids, and the
    themes left without an article are omitted; so every article of the
    output is a loaded article. An integer id outside the range is skipped
    without being used as an index, and a reply whose ids are integers
    always gives a result. *)
Theorem C10_themes_hold_loaded_articles (has_client : bool) (a : Clustering.answer)
    (articles : list ArticleRecord) (stamp : string) (out : Clustering.Clustered) :
  Clustering.cluster_articles_by_theme has_client a
    (Clustering.extract_article_metadata articles) stamp = Some out ->
  (exists reply,
     a = Clustering.Parsed reply
     /\ Clustering.themes out
        = Clustering.kept_themes (Clustering.extract_article_metadata articles) reply)
  /\ (forall th, In th (Clustering.themes out) ->
        Clustering.theme_articles th <> []
        /\ forall art, In art (Clustering.theme_articles th) ->
             exists i, 0 <= i < Z.of_nat (List.length articles)
                       /\ nth_error articles (Z.to_nat i) = Some art)
  /\ (forall i, ~ 0 <= i < Z.of_nat (List.length articles) ->
        Clustering.pick (Clustering.extract_article_metadata articles) (Clustering.IdInt i)
        = Clustering.Value None)
  /\ (forall reply, Clustering.int_ids reply ->
        Clustering.cluster_articles_by_theme true (Clustering.Parsed reply)
          (Clustering.extract_article_metadata articles) stamp <> None).
Proof.
  set (md := Clustering.extract_article_metadata articles).
  assert (List.length md = List.length articles) as Hlen
    by (unfold md, Clustering.extract_article_metadata; apply length_map).
  intros Hout.
  assert (exists reply,
             a = Clustering.Parsed reply
             /\ Clustering.themes out = Clustering.kept_themes md reply) as Hspec.
  { unfold Clustering.cluster_articles_by_theme in Hout.
    destruct has_client; [| discriminate].
    destruct a as [| | reply]; try discriminate.
    destruct (Clustering.map_themes md reply []) as [ts|] eqn:Hts; [| discriminate].
    injection Hout as <-. exists reply. split; [reflexivity |].
    apply map_themes_spec in Hts. exact Hts. }
  split; [exact Hspec |]. split; [| split].
  - destruct Hspec as (reply & _ & Hthemes). intros th Hth. rewrite Hthemes in Hth.
    destruct (kept_themes_nonempty md reply th Hth) as (Hne & theme & _ & Harts).
    split; [exact Hne |]. intros art Hart. rewrite Harts in Hart.
    destruct (picked_loaded md _ _ Hart) as (i & m & Hi & Hm & ->).
    exists i. rewrite <- Hlen. split; [exact Hi |].
    apply metadata_of_loaded. exact Hm.
  - intros i Hi. rewrite (pick_int md (Clustering.IdInt i) i eq_refl).
    rewrite Hlen.
    assert (((0 <=? i) && (i <? Z.of_nat (List.length articles))) = false) as ->;
      [| reflexivity].
    destruct (0 <=? i) eqn:H0; [| reflexivity].
    destruct (i <? Z.of_nat (List.length articles)) eqn:H1; [| reflexivity].
    apply Z.leb_le in H0. apply Z.ltb_lt in H1. lia.
  - intros reply Hints. unfold Clustering.cluster_articles_by_theme.
    destruct (map_themes_int_ids md reply Hints []) as [ts ->]. discriminate.
Qed.

Lemma C10_themes_hold_loaded_articles_witness :
  exists reply,
    Clustering.Parsed Demo.reply = Clustering.Parsed reply
    /\ [Clustering.mkTheme "Chips" "Hardware news" [Demo.abc_record]]
       = Clustering.kept_themes
           (Clustering.extract_article_metadata [Demo.abc_record; Demo.untitled_record])
           reply.
Proof.
  exact (proj1 (C10_themes_hold_loaded_articles true (Clustering.Parsed Demo.reply)
                  [Demo.abc_record; Demo.untitled_record] "2025-03-01T12:00:00"
                  (Clustering.mkClustered
                     [Clustering.mkTheme "Chips" "Hardware news" [Demo.abc_record]]
                     2 "2025-03-01T12:00:00")
                  eq_refl)).
Defined.

(** ** The success test of the article loop *)

(** the test of each variant *)
Lemma is_success_by_variant (a : ArticleRecord) :
  (is_success Base (Some a) = true)
  /\ (is_success US (Some a) = true
      <-> title a <> EmptyString /\ content a <> "Content not found")
  /\ (is_success Europe (Some a) = true
      <-> title a <> "Title not found" /\ content a <> "Content not found")
  /\ (is_success Asia (Some a) = true
      <-> title a <> "Title not found" /\ content a <> "Content not found")
  /\ (forall v, is_success v None = false).
Proof.
  unfold is_success.
  repeat split; try reflexivity;
    rewrite ?andb_true_iff, ?negb_true_iff, ?bool_decide_eq_false in *; tauto.
Qed.

(** C1 at an article page with a content container and no title element:
    the US script, whose test compares the title with the empty string,
    saves and appends the record with the title "Title not found" at the
    first attempt, without any retry; the base script, which tests nothing,
    appends a record with both placeholders; the European and Asian scripts
    append nothing on such a page and go through their retries. *)
Theorem C1_placeholder_title_is_accepted :
  fst (article_loop (Demo.env (Some Demo.body_only) 1) US (Demo.cfg [Demo.src]) Demo.src
         Demo.link 3 0 [] Demo.w_us) = [Demo.untitled_record]
  /\ title Demo.untitled_record = "Title not found"
  /\ is_success US (Some Demo.untitled_record) = true
  /\ sleeps (snd (article_loop (Demo.env (Some Demo.body_only) 1) US (Demo.cfg [Demo.src])
                    Demo.src Demo.link 3 0 [] Demo.w_us)) = []
  /\ fs_files (snd (article_loop (Demo.env (Some Demo.body_only) 1) US
                      (Demo.cfg [Demo.src]) Demo.src Demo.link 3 0 [] Demo.w_us))
       !! "US_tech_news/articles/title-not-found-20250304120000.json"
     = Some (ArticleDoc Demo.untitled_record)
  /\ fst (article_loop (Demo.env (Some Demo.blank) 1) Base (Demo.cfg [Demo.src]) Demo.src
            Demo.link 3 0 [] Demo.w0) = [Demo.blank_record 1]
  /\ title (Demo.blank_record 1) = "Title not found"
  /\ content (Demo.blank_record 1) = "Content not found"
  /\ (forall v, v = Europe \/ v = Asia ->
        fst (article_loop (Demo.env (Some Demo.body_only) 1) v (Demo.cfg [Demo.src])
               Demo.src Demo.link 3 0 [] Demo.w0) = []
        /\ sleeps (snd (article_loop (Demo.env (Some Demo.body_only) 1) v
                          (Demo.cfg [Demo.src]) Demo.src Demo.link 3 0 [] Demo.w0))
           = [inject_Z 2; inject_Z 3]).
Proof.
  split; [vm_compute; reflexivity |]. split; [reflexivity |].
  split; [reflexivity |].
  split; [vm_compute; reflexivity |]. split; [vm_compute; reflexivity |].
  split; [vm_compute; reflexivity |].
  split; [reflexivity |]. split; [reflexivity |].
  intros v [-> | ->]; split; vm_compute; reflexivity.
Qed.

(** * Further properties of the scrapers *)

(** ** One source, and the loop over the sources *)

Lemma process_source_unfold (E : Env) (v : variant) (cfg : Config) (src : Source)
    (var : option (list string)) (acc : list ArticleRecord) (w : world) :
  process_source E v cfg src var acc w
  = match fst (links_loop E v cfg src (Z.to_nat (retry_attempts cfg)) 0 var w) with
    | None => (None, snd (links_loop E v cfg src (Z.to_nat (retry_attempts cfg)) 0 var w))
    | Some links =>
        (Some (links,
               fst (links_pass E v cfg src links acc
                      (snd (links_loop E v cfg src (Z.to_nat (retry_attempts cfg)) 0 var w)))),
         snd (save_to_json v cfg
                (fst (links_pass E v cfg src links acc
                        (snd (links_loop E v cfg src (Z.to_nat (retry_attempts cfg)) 0 var w))))
                (snd (links_pass E v cfg src links acc
                        (snd (links_loop E v cfg src (Z.to_nat (retry_attempts cfg)) 0 var w))))))
    end.
Proof.
  unfold process_source. rewrite bind_unfold.
  destruct (fst (links_loop E v cfg src (Z.to_nat (retry_attempts cfg)) 0 var w));
    [| reflexivity].
  rewrite !bind_unfold, ret_unfold. reflexivity.
Qed.

Lemma sources_loop_cons (E : Env) (v : variant) (cfg : Config) (src : Source)
    (rest : list Source) (var : option (list string)) (acc : list ArticleRecord)
    (w : world) :
  sources_loop E v cfg (src :: rest) var acc w
  = match fst (process_source E v cfg src var acc w) with
    | Some (links, acc') =>
        sources_loop E v cfg rest (Some links) acc'
          (snd (process_source E v cfg src var acc w))
    | None => (None, snd (process_source E v cfg src var acc w))
    end.
Proof.
  cbn [sources_loop]. rewrite bind_unfold.
  destruct (fst (process_source E v cfg src var acc w)) as [[links acc']|]; reflexivity.
Qed.

Lemma links_loop_unbound (E : Env) (v : variant) (cfg : Config) (src : Source)
    (attempt : Z) (var : option (list string)) (w : world) :
  links_loop E v cfg src 0 attempt var w = (var, w).
Proof. reflexivity. Qed.

(** with at least one configured attempt one source is always processed to
    the end *)
Lemma process_source_completes (E : Env) (v : variant) (cfg : Config) (src : Source)
    (var : option (list string)) (acc : list ArticleRecord) (w : world) :
  0 < retry_attempts cfg \/ var <> None ->
  exists links acc', fst (process_source E v cfg src var acc w) = Some (links, acc').
Proof.
  intros Hbound. rewrite process_source_unfold.
  destruct (links_loop_bound E v cfg src (Z.to_nat (retry_attempts cfg)) 0 var w)
    as [links ->]; [destruct Hbound; [left; lia | right; assumption] |].
  eexists _, _. reflexivity.
Qed.

Lemma sources_loop_completes (E : Env) (v : variant) (cfg : Config) (srcs : list Source) :
  forall var acc w,
    0 < retry_attempts cfg \/ var <> None ->
    exists all, fst (sources_loop E v cfg srcs var acc w) = Some all.
Proof.
  induction srcs as [|src rest IH]; intros var acc w Hbound; [eexists; reflexivity |].
  rewrite sources_loop_cons.
  destruct (process_source_completes E v cfg src var acc w Hbound) as (links & acc' & ->).
  apply IH. right. discriminate.
Qed.

Lemma run_unfold (E : Env) (v : variant) (cfg : Config) (w : world) :
  run E v cfg w
  = match fst (sources_loop E v cfg (sources cfg) None [] w) with
    | None => (None, snd (sources_loop E v cfg (sources cfg) None [] w))
    | Some all =>
        match v with
        | Base =>
            (Some (all, None),
             snd (save_to_json Base cfg all
                    (snd (sources_loop E v cfg (sources cfg) None [] w))))
        | US =>
            (Some (all, fst (generate_report_us E cfg
                               (snd (sources_loop E v cfg (sources cfg) None [] w)))),
             snd (generate_report_us E cfg
                    (snd (sources_loop E v cfg (sources cfg) None [] w))))
        | Europe | Asia =>
            (Some (all, fst (generate_report_regional E v cfg
                               (snd (save_to_json v cfg all
                                       (snd (sources_loop E v cfg (sources cfg) None [] w)))))),
             snd (generate_report_regional E v cfg
                    (snd (save_to_json v cfg all
                            (snd (sources_loop E v cfg (sources cfg) None [] w))))))
        end
    end.
Proof.
  unfold run. rewrite bind_unfold.
  destruct (fst (sources_loop E v cfg (sources cfg) None [] w)) as [all|];
    [| reflexivity].
  rewrite bind_unfold.
  destruct v; rewrite ?bind_unfold, ?ret_unfold; reflexivity.
Qed.

(** X1: with at least one configured attempt, [run] returns its
    accumulator in every variant, whatever the network answers and whatever
    the state of the disk: a failed request, a failed save or a failed report
    never aborts the run. *)
Theorem run_completes (E : Env) (v : variant) (cfg : Config) (w : world) :
  0 < retry_attempts cfg ->
  exists all report, fst (run E v cfg w) = Some (all, report).
Proof.
  intros HN. rewrite run_unfold.
  destruct (sources_loop_completes E v cfg (sources cfg) None [] w) as [all ->];
    [left; exact HN |].
  destruct v; eexists _, _; reflexivity.
Qed.

Lemma run_completes_witness :
  exists all report,
    fst (run (Demo.env None 1) US (Demo.cfg [Demo.src]) Demo.w0) = Some (all, report).
Proof.
  apply (run_completes (Demo.env None 1) US (Demo.cfg [Demo.src]) Demo.w0). reflexivity.
Defined.

(** X2: with zero (or a negative number of) attempts and at least one
    source, [run] stops at the first source with the unbound [article_links]:
    it returns nothing, and up to there it has made no request, has not
    slept, has created no directory and has written no file other than its
    log file. *)
Theorem run_without_attempts_crashes (E : Env) (v : variant) (cfg : Config) (w : world) :
  retry_attempts cfg <= 0 -> sources cfg <> [] ->
  fst (run E v cfg w) = None
  /\ tick (snd (run E v cfg w)) = tick w
  /\ sleeps (snd (run E v cfg w)) = sleeps w
  /\ fs_dirs (snd (run E v cfg w)) = fs_dirs w
  /\ (forall p, p <> log_file v ->
        fs_files (snd (run E v cfg w)) !! p = fs_files w !! p).
Proof.
  intros HN Hsrc.
  assert (run E v cfg w = (None, w)) as ->.
  { rewrite run_unfold.
    destruct (sources cfg) as [|src rest]; [contradiction |].
    rewrite sources_loop_cons, process_source_unfold.
    replace (Z.to_nat (retry_attempts cfg)) with 0%nat by lia.
    rewrite links_loop_unbound. reflexivity. }
  cbn [fst snd]. auto.
Qed.

Lemma run_without_attempts_crashes_witness :
  fst (run (Demo.env (Some Demo.front) 1) Asia
         (mkConfig "out/articles.json" "US_tech_news" 0 None None [Demo.src]) Demo.w0)
  = None
  /\ tick (snd (run (Demo.env (Some Demo.front) 1) Asia
                  (mkConfig "out/articles.json" "US_tech_news" 0 None None [Demo.src])
                  Demo.w0)) = tick Demo.w0.
Proof.
  destruct (run_without_attempts_crashes (Demo.env (Some Demo.front) 1) Asia
              (mkConfig "out/articles.json" "US_tech_news" 0 None None [Demo.src]) Demo.w0)
    as (H1 & H2 & _).
  - reflexivity.
  - discriminate.
  - split; [exact H1 | exact H2].
Defined.

(** ** Link discovery on any page *)

Lemma get_article_links_cfg_world (E : Env) (v : variant) (cfg : Config) (src : Source)
    (w : world) :
  snd (get_article_links_cfg E v cfg src w) = bump w.
Proof. reflexivity. Qed.

Lemma get_article_links_cfg_value (E : Env) (v : variant) (cfg : Config) (src : Source)
    (w : world) :
  fst (get_article_links_cfg E v cfg src w)
  = match articles_limit cfg with
    | Some n =>
        if n =? 0 then links_of_page E v src (http_get E (tick w) (src_url src))
        else slice_to n (links_of_page E v src (http_get E (tick w) (src_url src)))
    | None => links_of_page E v src (http_get E (tick w) (src_url src))
    end.
Proof. reflexivity. Qed.

Lemma slice_to_sublist {A : Type} (n : Z) (l : list A) : sublist (slice_to n l) l.
Proof. destruct (slice_to_take n l) as [k ->]. apply sublist_take. Qed.

(** X3: the links one call of [get_article_links] returns, with or without
    the [--articles] limit: at most 15 (and at most the limit, when it is
    positive), no link twice, and outside the base script every link starts
    with the scheme and host of the source or with "http" and does not end
    with "#"; the call is one request, does not sleep, creates no directory
    and writes no file other than the log file. *)
Theorem discovered_links_few_distinct_absolute (E : Env) (v : variant) (cfg : Config)
    (src : Source) (w w' : world) (links : list string) :
  get_article_links_cfg E v cfg src w = (links, w') ->
  (List.length links <= 15)%nat
  /\ NoDup links
  /\ (forall n, articles_limit cfg = Some n -> 0 < n ->
        (List.length links <= Z.to_nat n)%nat)
  /\ (v <> Base ->
      Forall (fun l => rooted (src_url src) l /\ PyStr.endswith "#" l = false) links)
  /\ tick w' = S (tick w)
  /\ sleeps w' = sleeps w
  /\ fs_dirs w' = fs_dirs w
  /\ (forall p, p <> log_file v -> fs_files w' !! p = fs_files w !! p).
Proof.
  intros Hrun.
  assert (links = fst (get_article_links_cfg E v cfg src w)) as Hlinks
    by (rewrite Hrun; reflexivity).
  assert (w' = snd (get_article_links_cfg E v cfg src w)) as Hw'
    by (rewrite Hrun; reflexivity).
  rewrite get_article_links_cfg_world in Hw'.
  rewrite get_article_links_cfg_value in Hlinks.
  destruct (links_of_page_bounded_unique E v src (http_get E (tick w) (src_url src)))
    as (Hlen & Hnd & Hok).
  set (found := links_of_page E v src (http_get E (tick w) (src_url src))) in *.
  assert (sublist links found) as Hsub.
  { subst links. destruct (articles_limit cfg) as [n|]; [| reflexivity].
    destruct (n =? 0); [reflexivity | apply slice_to_sublist]. }
  split; [apply sublist_length in Hsub; lia |].
  split; [eapply sublist_NoDup; eassumption |].
  split; [| split; [| subst w'; cbn [bump tick sleeps fs_dirs fs_files]; auto]].
  - intros n Hn Hpos. rewrite Hn in Hlinks.
    assert ((n =? 0) = false) as Hnz by (apply Z.eqb_neq; lia).
    rewrite Hnz in Hlinks. unfold slice_to in Hlinks.
    assert ((0 <=? n) = true) as Hge by (apply Z.leb_le; lia).
    rewrite Hge in Hlinks. subst links. rewrite length_take.
    apply Nat.le_min_l.
  - intros Hv. apply Forall_forall. intros l Hl.
    apply (elem_of_sublist _ _ _ Hl) in Hsub.
    rewrite Forall_forall in Hok. apply (Hok l Hsub Hv).
Qed.

Lemma discovered_links_few_distinct_absolute_witness :
  (List.length ["https://example.com/story/1"] <= 15)%nat
  /\ NoDup ["https://example.com/story/1"]
  /\ (forall n,
        articles_limit (mkConfig "out/articles.json" "US_tech_news" 3 (Some 1) None [Demo.src])
        = Some n -> 0 < n ->
        (List.length ["https://example.com/story/1"] <= Z.to_nat n)%nat)
  /\ (Asia <> Base ->
      Forall (fun l => rooted (src_url Demo.src) l /\ PyStr.endswith "#" l = false)
        ["https://example.com/story/1"])
  /\ tick (bump Demo.w0) = S (tick Demo.w0)
  /\ sleeps (bump Demo.w0) = sleeps Demo.w0
  /\ fs_dirs (bump Demo.w0) = fs_dirs Demo.w0
  /\ (forall p, p <> log_file Asia ->
        fs_files (bump Demo.w0) !! p = fs_files Demo.w0 !! p).
Proof.
  apply (discovered_links_few_distinct_absolute (Demo.env (Some Demo.front) 1) Asia
           (mkConfig "out/articles.json" "US_tech_news" 3 (Some 1) None [Demo.src])
           Demo.src Demo.w0).
  reflexivity.
Defined.

Section LinkMembership.

Variable E : Env.
Variable v : variant.
Variable source_url : string.
Variable d : string.
Hypothesis Hdomain : domain_of source_url = Some d.

(** with a source URL that has a scheme and a host the normalisation of a
    link does not raise *)
Lemma normalize_link_defined (link : string) :
  exists l, normalize_link v source_url link = Some l.
Proof.
  unfold normalize_link. rewrite Hdomain.
  destruct (PyStr.startswith "/" link); [eexists; reflexivity |].
  destruct v; [eexists; reflexivity | | |];
    (destruct (negb (PyStr.startswith "http" link)); eexists; reflexivity).
Qed.

Lemma keep_link_false (links : list string) (l : string) :
  keep_link v links l = false ->
  l ∈ links \/ (v <> Base /\ PyStr.endswith "#" l = true).
Proof.
  assert (not_in l links = false -> l ∈ links) as Hin.
  { unfold not_in. intros H. apply negb_false_iff, bool_decide_eq_true in H. exact H. }
  unfold keep_link. destruct v; [intros H; left; auto | | |];
    (intros [H | H]%andb_false_iff;
     [left; auto | right; split; [discriminate | apply negb_false_iff, H]]).
Qed.

(** the links collected from a list of containers: those already there
    and, for every container, the link it resolves to once normalised,
    unless (outside the base script) that link ends with "#" *)
Lemma collect_links_members (articles : list Dom.node) :
  forall links, exists links',
    collect_links E v source_url links articles = Some links'
    /\ forall l, l ∈ links'
         <-> (l ∈ links
              \/ exists article raw,
                   article ∈ articles
                   /\ resolve_link E article = Some raw
                   /\ normalize_link v source_url raw = Some l
                   /\ (v <> Base -> PyStr.endswith "#" l = false)).
Proof.
  induction articles as [|article rest IH]; intros links.
  - exists links. split; [reflexivity |]. intros l. split; [auto |].
    intros [H | (a & raw & Ha & _)]; [exact H | inversion Ha].
  - cbn [collect_links]. unfold add_link.
    destruct (resolve_link E article) as [raw|] eqn:Hres.
    + destruct (normalize_link_defined raw) as [l' Hn]. rewrite Hn.
      destruct (keep_link v links l') eqn:Hk.
      * destruct (IH (links ++ [l'])%list) as (links' & -> & Hmem).
        exists links'. split; [reflexivity |]. intros l. rewrite Hmem.
        rewrite elem_of_app, list_elem_of_singleton. split.
        -- intros [[H | ->] | (a & r & Ha & Hr & Hn' & Hh)].
           ++ left. exact H.
           ++ right. exists article, raw. split; [left |].
              split; [exact Hres |]. split; [exact Hn |].
              apply (keep_link_spec v links l' Hk).
           ++ right. exists a, r. split; [right; exact Ha | auto].
        -- intros [H | (a & r & Ha & Hr & Hn' & Hh)]; [left; left; exact H |].
           apply elem_of_cons in Ha as [-> | Ha].
           ++ left. right. congruence.
           ++ right. exists a, r. auto.
      * destruct (IH links) as (links' & -> & Hmem).
        exists links'. split; [reflexivity |]. intros l. rewrite Hmem. split.
        -- intros [H | (a & r & Ha & Hrest)]; [left; exact H |].
           right. exists a, r. split; [right; exact Ha | exact Hrest].
        -- intros [H | (a & r & Ha & Hr & Hn' & Hh)]; [left; exact H |].
           apply elem_of_cons in Ha as [-> | Ha].
           ++ assert (l = l') as -> by congruence.
              destruct (keep_link_false links l' Hk) as [Hin | [Hv Hhash]];
                [left; exact Hin |].
              rewrite (Hh Hv) in Hhash. discriminate.
           ++ right. exists a, r. auto.
    + destruct (IH links) as (links' & -> & Hmem).
      exists links'. split; [reflexivity |]. intros l. rewrite Hmem. split.
      * intros [H | (a & r & Ha & Hrest)]; [left; exact H |].
        right. exists a, r. split; [right; exact Ha | exact Hrest].
      * intros [H | (a & r & Ha & Hr & Hrest)]; [left; exact H |].
        apply elem_of_cons in Ha as [-> | Ha]; [congruence |].
        right. exists a, r. auto.
Qed.

End LinkMembership.

(** X4: when the homepage is served and the source URL has a scheme and a
    host, [get_article_links] returns exactly the links that one of the
    first 15 containers resolves to (through its first [a], a headline link
    or the container itself), once normalised; outside the base script the
    links ending with "#" are left out. No other link is returned and none
    of these is lost. The normalisation puts the scheme and host of the
    source before a link that starts with "/", and keeps a link that starts
    with "http"; any other link is kept as it is by the base script (a
    relative link stays relative) and gets the scheme and host and a "/"
    before it in the other scripts. *)
Theorem discovered_links_are_the_resolved_ones (E : Env) (v : variant) (src : Source)
    (w : world) (soup : Dom.node) (d l : string) :
  http_get E (tick w) (src_url src) = Some soup ->
  domain_of (src_url src) = Some d ->
  (l ∈ fst (get_article_links E v src w)
   <-> exists article raw,
         article ∈ take 15 (select E (article_selector src) soup)
         /\ resolve_link E article = Some raw
         /\ normalize_link v (src_url src) raw = Some l
         /\ (v <> Base -> PyStr.endswith "#" l = false))
  /\ (forall raw,
        normalize_link v (src_url src) raw
        = Some (if PyStr.startswith "/" raw then d +:+ raw
                else if bool_decide (v = Base) || PyStr.startswith "http" raw then raw
                     else d +:+ "/" +:+ raw)).
Proof.
  intros Hpage Hd. split.
  - change (fst (get_article_links E v src w))
      with (links_of_page E v src (http_get E (tick w) (src_url src))).
    rewrite Hpage. unfold links_of_page.
    destruct (collect_links_members E v (src_url src) d Hd
                (take 15 (select E (article_selector src) soup)) [])
      as (links & -> & Hmem).
    rewrite Hmem. split; [| auto].
    intros [H | H]; [inversion H | exact H].
  - intros raw.
    destruct (normalize_link_rules v (src_url src) raw d Hd) as (R1 & R2 & R3).
    destruct (PyStr.startswith "/" raw); [apply R1; reflexivity |].
    destruct (PyStr.startswith "http" raw).
    + rewrite orb_true_r. apply R2; reflexivity.
    + rewrite orb_false_r. apply R3; reflexivity.
Qed.

Lemma discovered_links_are_the_resolved_ones_witness :
  ("https://example.com/story/1"
     ∈ fst (get_article_links (Demo.env (Some Demo.front) 1) Europe Demo.src Demo.w0)
   <-> exists article raw,
         article ∈ take 15 (select (Demo.env (Some Demo.front) 1)
                              (article_selector Demo.src) Demo.front)
         /\ resolve_link (Demo.env (Some Demo.front) 1) article = Some raw
         /\ normalize_link Europe (src_url Demo.src) raw = Some "https://example.com/story/1"
         /\ (Europe <> Base -> PyStr.endswith "#" "https://example.com/story/1" = false))
  /\ normalize_link Base (src_url Demo.src) "story/1" = Some "story/1".
Proof.
  split.
  - apply (discovered_links_are_the_resolved_ones (Demo.env (Some Demo.front) 1) Europe
             Demo.src Demo.w0 Demo.front "https://example.com"); reflexivity.
  - reflexivity.
Defined.

(** ** The waits of the retry loops, whatever the answers *)

Lemma backed_off_last (cfg : Config) (base step attempt : Z) (w : world) :
  attempt + 1 = retry_attempts cfg -> backed_off cfg base step attempt w = w.
Proof.
  intros H. unfold backed_off.
  assert ((attempt <? retry_attempts cfg - 1) = false) as -> by (apply Z.ltb_ge; lia).
  reflexivity.
Qed.

Lemma backed_off_before (cfg : Config) (base step attempt : Z) (w : world) :
  attempt + 1 < retry_attempts cfg ->
  backed_off cfg base step attempt w = slept (inject_Z (base + attempt * step)) w.
Proof.
  intros H. unfold backed_off.
  assert ((attempt <? retry_attempts cfg - 1) = true) as -> by (apply Z.ltb_lt; lia).
  reflexivity.
Qed.

Lemma links_loop_shape (E : Env) (v : variant) (cfg : Config) (src : Source) (fuel : nat) :
  forall attempt var w,
    attempt + Z.of_nat fuel = retry_attempts cfg ->
    exists j,
      (j <= fuel - 1)%nat
      /\ sleeps (snd (links_loop E v cfg src fuel attempt var w))
         = (sleeps w ++ backoffs (3 + attempt * 2) 2 j)%list
      /\ tick (snd (links_loop E v cfg src fuel attempt var w))
         = (tick w + Nat.min fuel (S j))%nat.
Proof.
  induction fuel as [|fuel IH]; intros attempt var w HN.
  - exists 0%nat. rewrite links_loop_unbound. cbn [snd backoffs seq List.map Nat.min].
    rewrite app_nil_r. repeat split; lia.
  - rewrite links_loop_S, get_article_links_cfg_world.
    destruct (nonempty _).
    + exists 0%nat. cbn [snd bump sleeps tick backoffs seq List.map].
      rewrite app_nil_r. repeat split; [lia |]. rewrite Nat.min_r; lia.
    + destruct fuel as [|fuel'].
      * rewrite backed_off_last by lia. rewrite links_loop_unbound.
        exists 0%nat. cbn [snd bump sleeps tick backoffs seq List.map].
        rewrite app_nil_r. repeat split; [lia |]. rewrite Nat.min_l; lia.
      * rewrite backed_off_before by lia.
        destruct (IH (attempt + 1) (Some (fst (get_article_links_cfg E v cfg src w)))
                    (slept (inject_Z (3 + attempt * 2)) (bump w)))
          as (j & Hj & Hs & Ht); [lia |].
        exists (S j). split; [lia |]. rewrite Hs, Ht. split.
        -- rewrite sleeps_slept, backoffs_S. cbn [bump sleeps].
           rewrite <- app_assoc. cbn [app].
           replace (3 + (attempt + 1) * 2) with (3 + attempt * 2 + 2) by lia.
           reflexivity.
        -- cbn [slept sleep snd tick bump].
           destruct (Nat.min_spec (S fuel') (S j)) as [[H1 ->] | [H1 ->]];
             destruct (Nat.min_spec (S (S fuel')) (S (S j))) as [[H2 ->] | [H2 ->]]; lia.
Qed.

Lemma article_loop_shape (E : Env) (v : variant) (cfg : Config) (src : Source)
    (link : string) (fuel : nat) :
  forall attempt acc w,
    attempt + Z.of_nat fuel = retry_attempts cfg ->
    exists j,
      (j <= fuel - 1)%nat
      /\ sleeps (snd (article_loop E v cfg src link fuel attempt acc w))
         = (sleeps w ++ backoffs (2 + attempt) 1 j)%list.
Proof.
  induction fuel as [|fuel IH]; intros attempt acc w HN.
  - exists 0%nat. cbn [article_loop ret snd backoffs seq List.map].
    rewrite app_nil_r. split; [lia | reflexivity].
  - assert (sleeps (snd (scrape_article E v link src w)) = sleeps w) as Hscrape
      by (apply tick_only_sleeps, tick_only_scrape_article).
    assert (exists j,
               (j <= S fuel - 1)%nat
               /\ sleeps (snd (article_loop E v cfg src link fuel (attempt + 1) acc
                                 (backed_off cfg 2 1 attempt
                                    (snd (scrape_article E v link src w)))))
                  = (sleeps w ++ backoffs (2 + attempt) 1 j)%list) as Hretry.
    { destruct fuel as [|fuel'].
      - rewrite backed_off_last by lia. exists 0%nat.
        cbn [article_loop ret snd backoffs seq List.map].
        rewrite app_nil_r. split; [lia | exact Hscrape].
      - rewrite backed_off_before by lia.
        destruct (IH (attempt + 1) acc
                    (slept (inject_Z (2 + attempt * 1)) (snd (scrape_article E v link src w))))
          as (j & Hj & Hs); [lia |].
        exists (S j). split; [lia |]. rewrite Hs, sleeps_slept, Hscrape, backoffs_S.
        rewrite <- app_assoc. cbn [app].
        replace (2 + attempt * 1) with (2 + attempt) by lia.
        replace (2 + (attempt + 1)) with (2 + attempt + 1) by lia.
        reflexivity. }
    rewrite article_loop_S.
    destruct (fst (scrape_article E v link src w)) as [a|]; [| exact Hretry].
    destruct (is_success v (Some a)); [| exact Hretry].
    exists 0%nat. cbn [snd backoffs seq List.map]. rewrite app_nil_r.
    split; [lia |]. rewrite keeps_sleeps_on_success. exact Hscrape.
Qed.

(** X5: whatever the network answers, the discovery loop of [run] waits
    3, 5, 7, ... seconds between its attempts and the article loop 2, 3, 4,
    ... seconds, never after the last attempt; the discovery loop makes one
    request per attempt and at most [retry_attempts] of them. *)
Theorem retry_loops_wait_between_attempts (E : Env) (v : variant) (cfg : Config)
    (src : Source) (link : string) (var : option (list string))
    (acc : list ArticleRecord) (w : world) :
  (exists j,
     (j <= Z.to_nat (retry_attempts cfg) - 1)%nat
     /\ sleeps (snd (links_loop E v cfg src (Z.to_nat (retry_attempts cfg)) 0 var w))
        = (sleeps w ++ backoffs 3 2 j)%list
     /\ tick (snd (links_loop E v cfg src (Z.to_nat (retry_attempts cfg)) 0 var w))
        = (tick w + Nat.min (Z.to_nat (retry_attempts cfg)) (S j))%nat)
  /\ (exists j,
        (j <= Z.to_nat (retry_attempts cfg) - 1)%nat
        /\ sleeps (snd (article_loop E v cfg src link (Z.to_nat (retry_attempts cfg)) 0
                          acc w))
           = (sleeps w ++ backoffs 2 1 j)%list).
Proof.
  destruct (Z_lt_le_dec 0 (retry_attempts cfg)) as [Hpos | Hnone].
  - split.
    + apply (links_loop_shape E v cfg src (Z.to_nat (retry_attempts cfg)) 0 var w). lia.
    + apply (article_loop_shape E v cfg src link (Z.to_nat (retry_attempts cfg)) 0 acc w).
      lia.
  - replace (Z.to_nat (retry_attempts cfg)) with 0%nat by lia.
    split; exists 0%nat; cbn [links_loop article_loop ret snd backoffs seq List.map Nat.min];
      rewrite app_nil_r; repeat split; lia.
Qed.

(** ** What [run] accumulates *)

Lemma scrape_article_record (E : Env) (v : variant) (link : string) (src : Source)
    (w : world) (r : ArticleRecord) :
  fst (scrape_article E v link src w) = Some r ->
  record_of v src r /\ url r = link /\ content_length r = len (content r).
Proof.
  unfold scrape_article, bind, fetch.
  destruct (http_get E (tick w) link) as [soup|]; [| discriminate].
  destruct (two_tier E (date_selector src) DATE_FALLBACK soup);
    simpl; intros [= <-]; repeat split.
Qed.

(** the article loop appends at most one record: an accepted record of the
    link and the source at hand *)
Lemma article_loop_adds (E : Env) (v : variant) (cfg : Config) (src : Source)
    (link : string) (fuel : nat) :
  forall attempt acc w,
    fst (article_loop E v cfg src link fuel attempt acc w) = acc
    \/ exists a,
         fst (article_loop E v cfg src link fuel attempt acc w) = (acc ++ [a])%list
         /\ kept_record v src a /\ url a = link.
Proof.
  induction fuel as [|fuel IH]; intros attempt acc w; [left; reflexivity |].
  rewrite article_loop_S.
  destruct (fst (scrape_article E v link src w)) as [a|] eqn:Hscrape; [| apply IH].
  destruct (is_success v (Some a)) eqn:Hok; [| apply IH].
  right. exists a. destruct (scrape_article_record _ _ _ _ _ _ Hscrape) as (H1 & H2 & H3).
  split; [reflexivity |].
  split; [split; [exact Hok | split; [exact H1 | exact H3]] | exact H2].
Qed.

(** the pass over the links of one source appends accepted records of that
    source, one per link at most and in the order of the links *)
Lemma links_pass_adds (E : Env) (v : variant) (cfg : Config) (src : Source)
    (links : list string) :
  forall acc w, exists more,
    fst (links_pass E v cfg src links acc w) = (acc ++ more)%list
    /\ sublist (List.map url more) links
    /\ Forall (kept_record v src) more.
Proof.
  induction links as [|link rest IH]; intros acc w.
  - exists []. cbn [links_pass ret fst List.map]. rewrite app_nil_r.
    repeat split; constructor.
  - cbn [links_pass]. rewrite !bind_unfold.
    set (w1 := snd (sleep _ _)).
    destruct (article_loop_adds E v cfg src link (Z.to_nat (retry_attempts cfg)) 0 acc w1)
      as [-> | (a & -> & Hkept & Hurl)].
    + destruct (IH acc (snd (article_loop E v cfg src link
                               (Z.to_nat (retry_attempts cfg)) 0 acc w1)))
        as (more & -> & Hsub & Hall).
      exists more. split; [reflexivity |]. split; [| exact Hall].
      apply sublist_cons. exact Hsub.
    + destruct (IH (acc ++ [a])%list
                  (snd (article_loop E v cfg src link (Z.to_nat (retry_attempts cfg)) 0 acc w1)))
        as (more & -> & Hsub & Hall).
      exists (a :: more). rewrite <- app_assoc. split; [reflexivity |].
      split; [| constructor; assumption].
      cbn [List.map]. rewrite Hurl. apply sublist_skip. exact Hsub.
Qed.

(** with fuel left, the discovery loop returns what one call of
    [get_article_links] returned *)
Lemma links_loop_result (E : Env) (v : variant) (cfg : Config) (src : Source) (fuel : nat) :
  forall attempt var w links,
    (0 < fuel)%nat ->
    fst (links_loop E v cfg src fuel attempt var w) = Some links ->
    exists w1, links = fst (get_article_links_cfg E v cfg src w1).
Proof.
  induction fuel as [|fuel IH]; intros attempt var w links Hfuel; [lia |].
  rewrite links_loop_S.
  destruct (nonempty _); [intros [= <-]; eexists; reflexivity |].
  destruct fuel as [|fuel'].
  - rewrite links_loop_unbound. intros [= <-]. eexists; reflexivity.
  - apply IH. lia.
Qed.

Lemma get_article_links_cfg_cap (E : Env) (v : variant) (cfg : Config) (src : Source)
    (w : world) :
  (List.length (fst (get_article_links_cfg E v cfg src w)) <= links_cap cfg)%nat.
Proof.
  rewrite get_article_links_cfg_value. unfold links_cap.
  destruct (links_of_page_bounded_unique E v src (http_get E (tick w) (src_url src)))
    as (Hlen & _).
  set (found := links_of_page E v src (http_get E (tick w) (src_url src))) in *.
  destruct (articles_limit cfg) as [n|]; [| exact Hlen].
  pose proof (sublist_length _ _ (slice_to_sublist n found)) as Hslice.
  destruct (Z.eqb_spec n 0) as [-> | Hn]; [exact Hlen |].
  destruct (Z.ltb_spec 0 n) as [Hpos | Hneg]; [| lia].
  apply Nat.min_glb; [lia |].
  unfold slice_to. assert ((0 <=? n) = true) as -> by (apply Z.leb_le; lia).
  rewrite length_take. apply Nat.le_min_l.
Qed.

Lemma process_source_adds (E : Env) (v : variant) (cfg : Config) (src : Source)
    (var : option (list string)) (acc : list ArticleRecord) (w : world)
    (links : list string) (acc' : list ArticleRecord) :
  0 < retry_attempts cfg ->
  fst (process_source E v cfg src var acc w) = Some (links, acc') ->
  exists more,
    acc' = (acc ++ more)%list
    /\ (List.length more <= links_cap cfg)%nat
    /\ Forall (kept_record v src) more.
Proof.
  intros HN. rewrite process_source_unfold.
  destruct (fst (links_loop E v cfg src (Z.to_nat (retry_attempts cfg)) 0 var w))
    as [found|] eqn:Hfound; [| discriminate].
  cbn [fst]. intros [= Hl Ha]. subst links acc'.
  assert (0 < Z.to_nat (retry_attempts cfg))%nat as Hfuel by lia.
  destruct (links_loop_result E v cfg src _ 0 var w found Hfuel Hfound) as [w1 Hw1].
  destruct (links_pass_adds E v cfg src found acc
              (snd (links_loop E v cfg src (Z.to_nat (retry_attempts cfg)) 0 var w)))
    as (more & -> & Hsub & Hall).
  exists more. split; [reflexivity |]. split; [| exact Hall].
  apply sublist_length in Hsub. rewrite length_map in Hsub.
  pose proof (get_article_links_cfg_cap E v cfg src w1) as Hcap.
  rewrite <- Hw1 in Hcap. lia.
Qed.

Lemma sources_loop_adds (E : Env) (v : variant) (cfg : Config) (srcs : list Source) :
  forall var acc w all,
    0 < retry_attempts cfg ->
    fst (sources_loop E v cfg srcs var acc w) = Some all ->
    exists more,
      all = (acc ++ more)%list
      /\ (List.length more <= links_cap cfg * List.length srcs)%nat
      /\ Forall (fun a => exists src, src ∈ srcs /\ kept_record v src a) more.
Proof.
  induction srcs as [|src rest IH]; intros var acc w all HN.
  - cbn [sources_loop ret fst]. intros [= <-]. exists [].
    rewrite app_nil_r. repeat split; [simpl; lia | constructor].
  - rewrite sources_loop_cons.
    destruct (fst (process_source E v cfg src var acc w)) as [[links acc']|] eqn:Hsrc;
      [| discriminate].
    intros Hrest.
    destruct (process_source_adds _ _ _ _ _ _ _ _ _ HN Hsrc) as (more1 & -> & Hlen1 & Hall1).
    destruct (IH _ _ _ _ HN Hrest) as (more2 & -> & Hlen2 & Hall2).
    exists (more1 ++ more2)%list. rewrite app_assoc. split; [reflexivity |].
    split.
    + rewrite length_app. cbn [List.length]. lia.
    + apply Forall_app. split.
      * eapply Forall_impl; [exact Hall1 |]. intros a Ha. exists src. split; [left | exact Ha].
      * eapply Forall_impl; [exact Hall2 |]. intros a (s & Hs & Ha).
        exists s. split; [right; exact Hs | exact Ha].
Qed.

(** the accumulator that [run] returns is the one its loop over the sources
    built *)
Lemma run_result (E : Env) (v : variant) (cfg : Config) (w : world)
    (all : list ArticleRecord) (report : option Report) :
  fst (run E v cfg w) = Some (all, report) ->
  fst (sources_loop E v cfg (sources cfg) None [] w) = Some all.
Proof.
  rewrite run_unfold.
  destruct (fst (sources_loop E v cfg (sources cfg) None [] w)) as [all'|];
    [| discriminate].
  destruct v; cbn [fst]; intros [= <- _]; reflexivity.
Qed.

(** without a configured attempt [run] returns only when there is no source *)
Lemma run_result_without_attempts (E : Env) (v : variant) (cfg : Config) (w : world)
    (all : list ArticleRecord) (report : option Report) :
  retry_attempts cfg <= 0 ->
  fst (run E v cfg w) = Some (all, report) -> all = [].
Proof.
  intros HN Hrun. apply run_result in Hrun.
  destruct (sources cfg) as [|src rest]; [cbn in Hrun; congruence |].
  rewrite sources_loop_cons, process_source_unfold in Hrun.
  replace (Z.to_nat (retry_attempts cfg)) with 0%nat in Hrun by lia.
  rewrite links_loop_unbound in Hrun. discriminate Hrun.
Qed.

(** X6: every record in the collection that [run] returns was extracted
    for one of the configured sources (it carries the name, category, region,
    country and language of that source), has [content_length] equal to the
    length of its content, and passed the acceptance test of the script: so
    no record of the European or Asian collection has the title or content
    placeholder, and no record of the US collection has an empty title or the
    content placeholder. *)
Theorem run_returns_accepted_records (E : Env) (v : variant) (cfg : Config) (w : world)
    (all : list ArticleRecord) (report : option Report) :
  fst (run E v cfg w) = Some (all, report) ->
  Forall (fun a =>
            (exists src, src ∈ sources cfg /\ record_of v src a)
            /\ content_length a = len (content a)
            /\ is_success v (Some a) = true
            /\ (v <> Base -> content a <> "Content not found")
            /\ (v = Europe \/ v = Asia -> title a <> "Title not found")
            /\ (v = US -> title a <> EmptyString)) all.
Proof.
  intros Hrun.
  destruct (Z_lt_le_dec 0 (retry_attempts cfg)) as [HN | HN];
    [| rewrite (run_result_without_attempts _ _ _ _ _ _ HN Hrun); constructor].
  apply run_result in Hrun.
  destruct (sources_loop_adds _ _ _ _ _ _ _ _ HN Hrun) as (more & -> & _ & Hall).
  cbn [app]. eapply Forall_impl; [exact Hall |].
  intros a (src & Hsrc & Hok & Hrec & Hlen).
  split; [exists src; split; assumption |]. split; [exact Hlen |].
  split; [exact Hok |].
  destruct (is_success_by_variant a) as (_ & Hus & Heu & Has & _).
  repeat split.
  - intros Hv. destruct v; [contradiction | | |].
    + apply Hus, Hok.
    + apply Heu, Hok.
    + apply Has, Hok.
  - intros [-> | ->]; [apply Heu, Hok | apply Has, Hok].
  - intros ->. apply Hus, Hok.
Qed.

Lemma run_returns_accepted_records_witness :
  exists all report,
    fst (run (Demo.env (Some Demo.front) 1) Asia (Demo.cfg [Demo.src]) Demo.w0)
    = Some (all, report)
    /\ all <> []
    /\ Forall (fun a =>
                 (exists src, src ∈ sources (Demo.cfg [Demo.src]) /\ record_of Asia src a)
                 /\ content_length a = len (content a)
                 /\ is_success Asia (Some a) = true
                 /\ (Asia <> Base -> content a <> "Content not found")
                 /\ (Asia = Europe \/ Asia = Asia -> title a <> "Title not found")
                 /\ (Asia = US -> title a <> EmptyString)) all.
Proof.
  eexists _, _. split; [vm_compute; reflexivity |]. split; [discriminate |].
  eapply (run_returns_accepted_records (Demo.env (Some Demo.front) 1) Asia
            (Demo.cfg [Demo.src]) Demo.w0).
  vm_compute. reflexivity.
Defined.

(** X7: a run is bounded: the collection holds at most 15 records per
    configured source, and at most [--articles] records per source when that
    limit is positive. *)
Theorem run_collection_is_bounded (E : Env) (v : variant) (cfg : Config) (w : world)
    (all : list ArticleRecord) (report : option Report) :
  fst (run E v cfg w) = Some (all, report) ->
  (List.length all <= links_cap cfg * List.length (sources cfg))%nat
  /\ (links_cap cfg <= 15)%nat
  /\ (forall n, articles_limit cfg = Some n -> 0 < n -> (links_cap cfg <= Z.to_nat n)%nat).
Proof.
  intros Hrun. split; [| split].
  - destruct (Z_lt_le_dec 0 (retry_attempts cfg)) as [HN | HN];
      [| rewrite (run_result_without_attempts _ _ _ _ _ _ HN Hrun); simpl; lia].
    apply run_result in Hrun.
    destruct (sources_loop_adds _ _ _ _ _ _ _ _ HN Hrun) as (more & -> & Hlen & _).
    exact Hlen.
  - unfold links_cap. destruct (articles_limit cfg) as [n|]; [| lia].
    destruct (0 <? n); [apply Nat.le_min_l | lia].
  - intros n Hn Hpos. unfold links_cap. rewrite Hn.
    assert ((0 <? n) = true) as -> by (apply Z.ltb_lt; lia).
    apply Nat.le_min_r.
Qed.

Lemma run_collection_is_bounded_witness :
  exists all report,
    fst (run (Demo.env (Some Demo.front) 1) Base
           (mkConfig "out/articles.json" "US_tech_news" 3%Z (Some 1%Z) None [Demo.src; Demo.src])
           Demo.w0) = Some (all, report)
    /\ (List.length all
        <= links_cap (mkConfig "out/articles.json" "US_tech_news" 3%Z (Some 1%Z) None
                        [Demo.src; Demo.src]) * 2)%nat
    /\ links_cap (mkConfig "out/articles.json" "US_tech_news" 3%Z (Some 1%Z) None
                    [Demo.src; Demo.src]) = 1%nat.
Proof.
  eexists _, _. split; [vm_compute; reflexivity |]. split; [| reflexivity].
  eapply (run_collection_is_bounded (Demo.env (Some Demo.front) 1) Base
            (mkConfig "out/articles.json" "US_tech_news" 3%Z (Some 1%Z) None [Demo.src; Demo.src])
            Demo.w0).
  vm_compute. reflexivity.
Defined.

(** ** The file names of the US script *)

Lemma all_chars_app (p : ascii -> bool) (s t : string) :
  all_chars p (s +:+ t) = all_chars p s && all_chars p t.
Proof.
  induction s as [|c s IH]; [reflexivity |].
  rewrite append_cons. cbn [all_chars]. rewrite IH, andb_assoc. reflexivity.
Qed.

Lemma all_chars_impl (p q : ascii -> bool) (s : string) :
  (forall c, p c = true -> q c = true) -> all_chars p s = true -> all_chars q s = true.
Proof.
  intros Hpq. induction s as [|c s IH]; [reflexivity |].
  cbn [all_chars]. intros [Hc Hs]%andb_true_iff.
  rewrite (Hpq c Hc), (IH Hs). reflexivity.
Qed.

Lemma all_chars_filter (p : ascii -> bool) (s : string) :
  all_chars p (PyStr.filter p s) = true.
Proof.
  induction s as [|c s IH]; [reflexivity |].
  cbn [PyStr.filter]. destruct (p c) eqn:Hc; [| exact IH].
  cbn [all_chars]. rewrite Hc, IH. reflexivity.
Qed.

Lemma all_chars_lstrip_by (p f : ascii -> bool) (s : string) :
  all_chars p s = true -> all_chars p (PyStr.lstrip_by f s) = true.
Proof.
  induction s as [|c s IH]; [reflexivity |].
  cbn [PyStr.lstrip_by]. destruct (f c); [| tauto].
  cbn [all_chars]. intros [_ Hs]%andb_true_iff. auto.
Qed.

Lemma all_chars_rstrip_by (p f : ascii -> bool) (s : string) :
  all_chars p s = true -> all_chars p (PyStr.rstrip_by f s) = true.
Proof.
  induction s as [|c s IH]; [reflexivity |].
  cbn [all_chars PyStr.rstrip_by]. intros [Hc Hs]%andb_true_iff.
  specialize (IH Hs). destruct (PyStr.rstrip_by f s) as [|c' r].
  - destruct (f c); [reflexivity |]. cbn [all_chars]. rewrite Hc. reflexivity.
  - change (all_chars p (String c (String c' r))) with (p c && all_chars p (String c' r)).
    rewrite Hc, IH. reflexivity.
Qed.

Lemma all_chars_strip (p : ascii -> bool) (s : string) :
  all_chars p s = true -> all_chars p (PyStr.strip s) = true.
Proof. intros H. apply all_chars_rstrip_by, all_chars_lstrip_by, H. Qed.

Lemma all_chars_map (p q : ascii -> bool) (f : ascii -> ascii) (s : string) :
  (forall c, p c = true -> q (f c) = true) ->
  all_chars p s = true -> all_chars q (PyStr.map f s) = true.
Proof.
  intros Hpq. induction s as [|c s IH]; [reflexivity |].
  cbn [all_chars PyStr.map]. intros [Hc Hs]%andb_true_iff.
  rewrite (Hpq c Hc), (IH Hs). reflexivity.
Qed.

Lemma all_chars_take (p : ascii -> bool) (n : nat) :
  forall s, all_chars p s = true -> all_chars p (PyStr.take n s) = true.
Proof.
  induction n as [|n IH]; intros [|c s]; try reflexivity.
  cbn [all_chars PyStr.take]. intros [Hc Hs]%andb_true_iff.
  rewrite Hc, (IH s Hs). reflexivity.
Qed.

Lemma length_take_le (n : nat) : forall s, (String.length (PyStr.take n s) <= n)%nat.
Proof.
  induction n as [|n IH]; intros [|c s]; cbn [PyStr.take String.length]; try lia.
  specialize (IH s). lia.
Qed.

Lemma all_chars_collapse (p q : ascii -> bool) (s : string) :
  (forall c, p c = true -> USFiles.is_hyphen c || PyStr.isspace c = false -> q c = true) ->
  q "-"%char = true ->
  all_chars p s = true -> forall b, all_chars q (USFiles.collapse b s) = true.
Proof.
  intros Hpq Hq. induction s as [|c s IH]; [reflexivity |].
  cbn [all_chars USFiles.collapse]. intros [Hc Hs]%andb_true_iff b.
  destruct (USFiles.is_hyphen c || PyStr.isspace c) eqn:Hsep.
  - destruct b; [apply IH, Hs |]. cbn [all_chars]. rewrite Hq, (IH Hs). reflexivity.
  - cbn [all_chars]. rewrite (Hpq c Hc Hsep), (IH Hs). reflexivity.
Qed.

(** a run of hyphens and white space leaves one hyphen *)
Lemma collapse_no_double (s : string) :
  forall b,
    no_double "-" (USFiles.collapse b s) = true
    /\ (b = true -> match USFiles.collapse b s with
                    | String c _ => c <> "-"%char
                    | EmptyString => True
                    end).
Proof.
  induction s as [|c s IH]; intros b; [split; [reflexivity | intros _; exact I] |].
  cbn [USFiles.collapse].
  destruct (USFiles.is_hyphen c || PyStr.isspace c) eqn:Hsep.
  - destruct b; [apply IH |]. split; [| discriminate].
    destruct (IH true) as [Hnd Hhead]. specialize (Hhead eq_refl).
    cbn [no_double]. destruct (USFiles.collapse true s) as [|c' r]; [reflexivity |].
    rewrite Hnd, andb_true_r. apply negb_true_iff, andb_false_iff. right.
    apply bool_decide_eq_false. exact Hhead.
  - assert (c <> "-"%char) as Hc.
    { intros ->. discriminate Hsep. }
    split; [| intros _; exact Hc].
    destruct (IH false) as [Hnd _].
    cbn [no_double]. destruct (USFiles.collapse false s) as [|c' r]; [reflexivity |].
    rewrite Hnd, andb_true_r. apply negb_true_iff, andb_false_iff. left.
    apply bool_decide_eq_false. exact Hc.
Qed.

Lemma no_double_take (c : ascii) (n : nat) :
  forall s, no_double c s = true -> no_double c (PyStr.take n s) = true.
Proof.
  induction n as [|n IH]; intros [|a s]; try reflexivity.
  destruct s as [|b s']; [destruct n; reflexivity |].
  intros H. change (no_double c (String a (String b s')))
    with (negb (bool_decide (a = c) && bool_decide (b = c)) && no_double c (String b s')) in H.
  apply andb_true_iff in H as [Hab Hrest]. specialize (IH _ Hrest).
  destruct n as [|n']; [reflexivity |].
  change (PyStr.take (S (S n')) (String a (String b s')))
    with (String a (String b (PyStr.take n' s'))).
  change (PyStr.take (S n') (String b s')) with (String b (PyStr.take n' s')) in IH.
  change (no_double c (String a (String b (PyStr.take n' s'))))
    with (negb (bool_decide (a = c) && bool_decide (b = c))
          && no_double c (String b (PyStr.take n' s'))).
  rewrite Hab, IH. reflexivity.
Qed.

(** what [str.lower] does to the characters the first substitution keeps *)
Lemma lower_kept (c : ascii) :
  USFiles.is_word c || PyStr.isspace c || USFiles.is_hyphen c = true ->
  (USFiles.is_word (USFiles.lower c) || PyStr.isspace (USFiles.lower c)
   || USFiles.is_hyphen (USFiles.lower c))
  && bool_decide (USFiles.lower (USFiles.lower c) = USFiles.lower c) = true.
Proof.
  destruct c as [[] [] [] [] [] [] [] []]; intros H; vm_compute in H |- *;
    first [discriminate H | reflexivity].
Qed.

Lemma kept_name_char (c : ascii) :
  (USFiles.is_word c || PyStr.isspace c || USFiles.is_hyphen c)
  && bool_decide (USFiles.lower c = c) = true ->
  USFiles.is_hyphen c || PyStr.isspace c = false -> name_char c = true.
Proof.
  destruct c as [[] [] [] [] [] [] [] []]; intros H1 H2; vm_compute in H1, H2 |- *;
    first [discriminate H1 | discriminate H2 | reflexivity].
Qed.

Lemma name_char_facts (c : ascii) :
  name_char c = true ->
  c <> "/"%char /\ c <> "."%char /\ c <> ascii_of_nat 92 /\ c <> ascii_of_nat 0
  /\ PyStr.isspace c = false /\ USFiles.lower c = c.
Proof.
  destruct c as [[] [] [] [] [] [] [] []]; intros H; vm_compute in H;
    first [discriminate H | repeat split; (discriminate || reflexivity)].
Qed.

(** the two facts about the title part that the file names rely on *)
Lemma safe_title_is_safe_parts (title : string) :
  (String.length (USFiles.safe_title title) <= 50)%nat
  /\ all_chars name_char (USFiles.safe_title title) = true.
Proof.
  unfold USFiles.safe_title. split; [apply length_take_le |].
  apply all_chars_take.
  apply (all_chars_collapse
           (fun c => (USFiles.is_word c || PyStr.isspace c || USFiles.is_hyphen c)
                     && bool_decide (USFiles.lower c = c))).
  - exact kept_name_char.
  - reflexivity.
  - apply (all_chars_map
             (fun c => USFiles.is_word c || PyStr.isspace c || USFiles.is_hyphen c)).
    + exact lower_kept.
    + apply all_chars_strip, all_chars_filter.
Qed.

(** X8: the title part of a US file name, for a title whose characters
    are code points below 256 (the strings of this development; [lower] maps
    some characters above to several): it has at most 50 characters, all of
    them word characters that [lower] leaves alone or hyphens, and no two
    hyphens in a row; in particular it holds no slash, no dot, no backslash
    and no white space. *)
Theorem safe_title_is_safe (title : string) :
  (String.length (USFiles.safe_title title) <= 50)%nat
  /\ all_chars name_char (USFiles.safe_title title) = true
  /\ no_double "-" (USFiles.safe_title title) = true
  /\ (forall c, name_char c = true ->
        c <> "/"%char /\ c <> "."%char /\ c <> ascii_of_nat 92 /\ c <> ascii_of_nat 0
        /\ PyStr.isspace c = false /\ USFiles.lower c = c).
Proof.
  destruct (safe_title_is_safe_parts title) as (Hlen & Hchars).
  split; [exact Hlen |]. split; [exact Hchars |]. split; [| exact name_char_facts].
  unfold USFiles.safe_title. apply no_double_take, collapse_no_double.
Qed.

Lemma append_assoc (a b c : string) : (a +:+ b) +:+ c = a +:+ (b +:+ c).
Proof.
  induction a as [|x a IH]; [reflexivity |].
  rewrite !append_cons, IH. reflexivity.
Qed.

Lemma truthy_app_r (a s : string) : PyStr.truthy s = true -> PyStr.truthy (a +:+ s) = true.
Proof.
  destruct a as [|x a]; [auto |]. intros _. rewrite append_cons. reflexivity.
Qed.

Lemma endswith_slash_cons (c : ascii) (t : string) :
  t <> EmptyString -> PyStr.endswith "/" (String c t) = PyStr.endswith "/" t.
Proof.
  destruct t as [|x t']; [contradiction |]. intros _.
  unfold PyStr.endswith. cbn [String.length Nat.leb Nat.sub PyStr.drop andb].
  rewrite Nat.sub_0_r. reflexivity.
Qed.

Lemma append_nonempty (a s : string) : s <> EmptyString -> a +:+ s <> EmptyString.
Proof.
  destruct a as [|x a]; [auto |]. intros _. rewrite append_cons. discriminate.
Qed.

Lemma endswith_slash_app (a s : string) :
  s <> EmptyString -> PyStr.endswith "/" (a +:+ s) = PyStr.endswith "/" s.
Proof.
  intros Hs. induction a as [|x a IH]; [reflexivity |].
  rewrite append_cons, endswith_slash_cons; [exact IH | apply append_nonempty, Hs].
Qed.

(** a subdirectory [out/name] as [os.path.join] builds it *)
Lemma subdir_shape (out name : string) :
  name <> EmptyString -> PyStr.startswith "/" name = false ->
  PyStr.endswith "/" name = false ->
  PyStr.truthy (Path.join out name) = true
  /\ PyStr.endswith "/" (Path.join out name) = false
  /\ is_prefix out (Path.join out name).
Proof.
  intros Hne Hstart Hend. unfold Path.join. rewrite Hstart.
  assert (PyStr.truthy name = true) as Htruthy.
  { unfold PyStr.truthy. apply negb_true_iff, bool_decide_eq_false. exact Hne. }
  destruct (negb (PyStr.truthy out) || PyStr.endswith "/" out).
  - split; [apply truthy_app_r, Htruthy |].
    split; [rewrite endswith_slash_app; assumption | exists name; reflexivity].
  - split; [apply truthy_app_r; reflexivity |].
    split; [| exists ("/" +:+ name); reflexivity].
    rewrite endswith_slash_app by discriminate.
    change ("/" +:+ name) with (String "/"%char name).
    rewrite endswith_slash_cons; assumption.
Qed.

Lemma articles_dir_shape (cfg : Config) :
  PyStr.truthy (USFiles.articles_dir cfg) = true
  /\ PyStr.endswith "/" (USFiles.articles_dir cfg) = false
  /\ is_prefix (output_dir cfg) (USFiles.articles_dir cfg).
Proof. apply subdir_shape; [discriminate | reflexivity | reflexivity]. Qed.

Lemma summaries_dir_shape (cfg : Config) :
  PyStr.truthy (USFiles.summaries_dir cfg) = true
  /\ PyStr.endswith "/" (USFiles.summaries_dir cfg) = false
  /\ is_prefix (output_dir cfg) (USFiles.summaries_dir cfg).
Proof. apply subdir_shape; [discriminate | reflexivity | reflexivity]. Qed.

(** a file name that does not start with a slash is joined below the
    directory *)
Lemma join_below (dir f : string) :
  PyStr.truthy dir = true -> PyStr.endswith "/" dir = false ->
  PyStr.startswith "/" f = false ->
  Path.join dir f = dir +:+ "/" +:+ f.
Proof.
  intros Hdir Hend Hf. unfold Path.join. rewrite Hf, Hdir, Hend. reflexivity.
Qed.

Lemma startswith_slash_name (s t : string) :
  all_chars name_char s = true -> PyStr.startswith "/" t = false ->
  PyStr.startswith "/" (s +:+ t) = false.
Proof.
  destruct s as [|c s]; [auto |]. cbn [all_chars].
  intros [Hc _]%andb_true_iff _. rewrite append_cons, startswith_slash.
  apply bool_decide_eq_false. apply (name_char_facts c Hc).
Qed.

Lemma digit_name_char (n : nat) : name_char (Clock.digit n) = true.
Proof.
  unfold Clock.digit.
  assert (n mod 10 < 10)%nat as Hlt by (apply Nat.mod_upper_bound; lia).
  destruct (n mod 10)%nat as [|[|[|[|[|[|[|[|[|[|k]]]]]]]]]]; try reflexivity. lia.
Qed.

Lemma pad_name_chars (w : nat) : forall n, all_chars name_char (Clock.pad w n) = true.
Proof.
  induction w as [|w IH]; intros n; [reflexivity |].
  cbn [Clock.pad]. rewrite all_chars_app, IH. cbn [all_chars].
  rewrite digit_name_char. reflexivity.
Qed.

Lemma length_pad (w : nat) : forall n, String.length (Clock.pad w n) = w.
Proof.
  induction w as [|w IH]; intros n; [reflexivity |].
  cbn [Clock.pad]. rewrite length_append, IH. cbn [String.length]. lia.
Qed.

(** the time stamp of a file name: 14 digits *)
Lemma strftime_compact_name (t : datetime) :
  all_chars name_char (Clock.strftime_compact t) = true
  /\ String.length (Clock.strftime_compact t) = 14%nat.
Proof.
  unfold Clock.strftime_compact. split.
  - rewrite !all_chars_app, !pad_name_chars. reflexivity.
  - rewrite !length_append, !length_pad. reflexivity.
Qed.

Lemma generate_safe_filename_name (E : Env) (title : string) (w : world) :
  all_chars name_char (fst (USFiles.generate_safe_filename E title w)) = true
  /\ (15 <= String.length (fst (USFiles.generate_safe_filename E title w)) <= 65)%nat
  /\ snd (USFiles.generate_safe_filename E title w) = bump w.
Proof.
  unfold USFiles.generate_safe_filename. rewrite bind_unfold, ret_unfold.
  cbn [now fst snd].
  destruct (safe_title_is_safe_parts title) as (Hlen & Hchars).
  destruct (strftime_compact_name (clock E (tick w))) as (Hstamp & Hlen').
  split; [| split; [| reflexivity]].
  - rewrite !all_chars_app, Hchars, Hstamp. reflexivity.
  - rewrite !length_append, Hlen'. cbn [String.length]. lia.
Qed.

Lemma write_json_cases (p : string) (d : document) (w : world) :
  write_json p d w = (true, put_file p d w) \/ write_json p d w = (false, w).
Proof. unfold write_json. destruct (_ && _); auto. Qed.

(** [save_article_to_json] either fails or writes one file, directly below
    the articles directory and named after the sanitised title *)
Lemma save_article_to_json_cases (E : Env) (cfg : Config) (a : ArticleRecord) (w : world) :
  exists name,
    all_chars name_char name = true
    /\ (15 <= String.length name <= 65)%nat
    /\ (USFiles.save_article_to_json E cfg a w
        = (Some (USFiles.articles_dir cfg +:+ "/" +:+ name +:+ ".json"),
           put_file (USFiles.articles_dir cfg +:+ "/" +:+ name +:+ ".json")
             (ArticleDoc a) (bump w))
        \/ USFiles.save_article_to_json E cfg a w = (None, bump w)).
Proof.
  destruct (generate_safe_filename_name E (title a) w) as (Hchars & Hlen & Hw).
  exists (fst (USFiles.generate_safe_filename E (title a) w)).
  split; [exact Hchars |]. split; [exact Hlen |].
  unfold USFiles.save_article_to_json. rewrite bind_unfold, Hw.
  destruct (articles_dir_shape cfg) as (Hdir & Hend & _).
  rewrite (join_below _ _ Hdir Hend (startswith_slash_name _ ".json" Hchars eq_refl)).
  rewrite bind_unfold, ret_unfold.
  destruct (write_json_cases
              (USFiles.articles_dir cfg +:+ "/"
               +:+ fst (USFiles.generate_safe_filename E (title a) w) +:+ ".json")
              (ArticleDoc a) (bump w)) as [-> | ->]; cbn [fst snd]; auto.
Qed.


(** *** The summary file of an article file *)

Lemma after_last_free (c : ascii) (t : string) :
  all_chars (fun x => negb (bool_decide (x = c))) t = true -> PyStr.after_last c t = 0%nat.
Proof.
  induction t as [|x t IH]; [reflexivity |].
  cbn [all_chars PyStr.after_last]. intros [Hx Ht]%andb_true_iff.
  rewrite (IH Ht). apply negb_true_iff in Hx. rewrite Hx. reflexivity.
Qed.

Lemma after_last_app_free (c : ascii) (s t : string) :
  all_chars (fun x => negb (bool_decide (x = c))) t = true ->
  PyStr.after_last c (s +:+ t) = PyStr.after_last c s.
Proof.
  intros Ht. induction s as [|x s IH]; [apply after_last_free, Ht |].
  rewrite append_cons. cbn [PyStr.after_last]. rewrite IH. reflexivity.
Qed.

Lemma after_last_snoc (c : ascii) (s : string) :
  PyStr.after_last c (s +:+ String c EmptyString) = S (String.length s).
Proof.
  induction s as [|x s IH].
  - change (EmptyString +:+ String c EmptyString) with (String c EmptyString).
    cbn [PyStr.after_last String.length]. rewrite bool_decide_eq_true_2; reflexivity.
  - rewrite append_cons. cbn [PyStr.after_last String.length]. rewrite IH. reflexivity.
Qed.

Lemma drop_app_length (s t : string) : PyStr.drop (String.length s) (s +:+ t) = t.
Proof.
  induction s as [|x s IH]; [destruct t; reflexivity |].
  rewrite append_cons. cbn [String.length PyStr.drop]. exact IH.
Qed.

Lemma take_app_length (s t : string) : PyStr.take (String.length s) (s +:+ t) = s.
Proof.
  induction s as [|x s IH]; [destruct t; reflexivity |].
  rewrite append_cons. cbn [String.length PyStr.take]. rewrite IH. reflexivity.
Qed.

Lemma filter_all (p : ascii -> bool) (s : string) :
  all_chars p s = true -> PyStr.filter p s = s.
Proof.
  induction s as [|x s IH]; [reflexivity |].
  cbn [all_chars PyStr.filter]. intros [Hx Hs]%andb_true_iff.
  rewrite Hx, (IH Hs). reflexivity.
Qed.

(** [os.path.basename] of a file directly below [dir] *)
Lemma basename_below (dir f : string) :
  all_chars (fun x => negb (bool_decide (x = "/"%char))) f = true ->
  Path.basename (dir +:+ "/" +:+ f) = f.
Proof.
  intros Hf. unfold Path.basename.
  rewrite <- (append_assoc dir "/" f).
  rewrite (after_last_app_free _ _ _ Hf), after_last_snoc.
  replace (S (String.length dir)) with (String.length (dir +:+ "/"))
    by (rewrite length_append; cbn [String.length]; lia).
  apply drop_app_length.
Qed.

(** [os.path.splitext] of [NAME.json] when NAME holds no dot *)
Lemma splitext_root_json (name : string) :
  all_chars (fun x => negb (bool_decide (x = "."%char))) name = true ->
  name <> EmptyString ->
  Path.splitext_root (name +:+ ".json") = name.
Proof.
  intros Hname Hne. unfold Path.splitext_root.
  change (name +:+ ".json") with (name +:+ "." +:+ "json").
  rewrite <- (append_assoc name "." "json").
  rewrite (after_last_app_free "." (name +:+ ".") "json" eq_refl), after_last_snoc.
  rewrite (append_assoc name "." "json"), take_app_length.
  rewrite (filter_all _ _ Hname).
  unfold PyStr.truthy. rewrite bool_decide_eq_false_2 by exact Hne. reflexivity.
Qed.

Lemma name_chars_no_slash (name : string) :
  all_chars name_char name = true ->
  all_chars (fun x => negb (bool_decide (x = "/"%char))) name = true.
Proof.
  apply all_chars_impl. intros c Hc. apply negb_true_iff, bool_decide_eq_false.
  apply (name_char_facts c Hc).
Qed.

Lemma name_chars_no_dot (name : string) :
  all_chars name_char name = true ->
  all_chars (fun x => negb (bool_decide (x = "."%char))) name = true.
Proof.
  apply all_chars_impl. intros c Hc. apply negb_true_iff, bool_decide_eq_false.
  apply (name_char_facts c Hc).
Qed.

(** the summary of the article file [articles/NAME.json] goes to
    [summaries/NAME_summary.json] *)
Lemma save_summary_to_json_cases (cfg : Config) (s : Summary) (name : string) (w : world) :
  all_chars name_char name = true -> name <> EmptyString ->
  USFiles.save_summary_to_json cfg s
    (USFiles.articles_dir cfg +:+ "/" +:+ name +:+ ".json") w
  = (Some (USFiles.summaries_dir cfg +:+ "/" +:+ name +:+ "_summary.json"),
     put_file (USFiles.summaries_dir cfg +:+ "/" +:+ name +:+ "_summary.json")
       (SummaryDoc s) w)
  \/ USFiles.save_summary_to_json cfg s
       (USFiles.articles_dir cfg +:+ "/" +:+ name +:+ ".json") w
     = (None, w).
Proof.
  intros Hchars Hne. unfold USFiles.save_summary_to_json.
  rewrite basename_below
    by (rewrite all_chars_app, (name_chars_no_slash _ Hchars); reflexivity).
  rewrite (splitext_root_json _ (name_chars_no_dot _ Hchars) Hne).
  destruct (summaries_dir_shape cfg) as (Hdir & Hend & _).
  rewrite (join_below _ _ Hdir Hend (startswith_slash_name _ "_summary.json" Hchars eq_refl)).
  rewrite bind_unfold, ret_unfold.
  destruct (write_json_cases
              (USFiles.summaries_dir cfg +:+ "/" +:+ name +:+ "_summary.json")
              (SummaryDoc s) w) as [-> | ->]; cbn [fst snd]; auto.
Qed.

(** ** What a run touches on disk *)

Section Touches.

Variables F D : string -> Prop.

Lemma touches_refl (w : world) : touches_only F D w w.
Proof. repeat split; auto. Qed.

Lemma touches_trans (w1 w2 w3 : world) :
  touches_only F D w1 w2 -> touches_only F D w2 w3 -> touches_only F D w1 w3.
Proof.
  intros (A1 & A2 & A3 & A4) (B1 & B2 & B3 & B4).
  split; [| split; [| split]].
  - intros p Hp. rewrite (B1 p Hp). apply A1, Hp.
  - auto.
  - auto.
  - intros q Hq. destruct (B4 q Hq) as [H | H]; auto.
Qed.

Lemma touches_same_disk (w w' : world) :
  fs_dirs w' = fs_dirs w -> fs_files w' = fs_files w -> touches_only F D w w'.
Proof. intros Hd Hf. unfold touches_only. rewrite Hd, Hf. repeat split; auto. Qed.

Lemma touches_put_file (p : string) (d : document) (w : world) :
  F p -> touches_only F D w (put_file p d w).
Proof.
  intros Hp. split; [| split; [| split]]; cbn [put_file fs_files fs_dirs]; auto.
  - intros q Hq. apply lookup_insert_ne. congruence.
  - intros q Hq. destruct (decide (p = q)) as [-> | Hne].
    + rewrite lookup_insert_eq. eauto.
    + rewrite lookup_insert_ne by exact Hne. exact Hq.
Qed.

Lemma touches_add_dir (name : string) (w : world) :
  D name -> touches_only F D w (add_dir name w).
Proof.
  intros Hname. split; [| split; [| split]]; cbn [add_dir fs_files fs_dirs]; auto.
  - intros q Hq. apply elem_of_union. right. exact Hq.
  - intros q [Hq%elem_of_singleton | Hq]%elem_of_union; [right; subst; exact Hname | auto].
Qed.

Lemma framed_ret {A : Type} (a : A) : framed F D (ret a).
Proof. intros w. apply touches_refl. Qed.

Lemma framed_bind {A B : Type} (c : M A) (k : A -> M B) :
  framed F D c -> (forall a, framed F D (k a)) -> framed F D (bind c k).
Proof.
  intros Hc Hk w. rewrite bind_unfold.
  eapply touches_trans; [apply Hc | apply Hk].
Qed.

Lemma framed_keeps_disk {A : Type} (op : M A) : keeps_disk op -> framed F D op.
Proof. intros Hop w. destruct (Hop w) as [Hd Hf]. apply touches_same_disk; assumption. Qed.

Lemma framed_write_json (p : string) (d : document) : F p -> framed F D (write_json p d).
Proof.
  intros Hp w. destruct (write_json_cases p d w) as [-> | ->]; cbn [snd].
  - apply touches_put_file, Hp.
  - apply touches_refl.
Qed.

Lemma framed_mkdir (ok : bool) (name : string) (parent : option string) :
  D name -> framed F D (mkdir ok name parent).
Proof.
  intros Hname w. unfold mkdir. destruct (_ && _); cbn [snd].
  - apply touches_add_dir, Hname.
  - apply touches_refl.
Qed.

Lemma framed_makedirs_chain (ok : bool) (names : list string) :
  (forall q, q ∈ names -> D q) -> framed F D (makedirs_chain ok names).
Proof.
  induction names as [|name heads IH]; intros HD; [apply framed_ret |].
  assert (D name) as Hname by (apply HD; left).
  assert (framed F D (makedirs_chain ok heads)) as Hheads
    by (apply IH; intros q Hq; apply HD; right; exact Hq).
  destruct heads as [|head rest]; [apply framed_mkdir, Hname |].
  intros w. rewrite makedirs_chain_step.
  destruct (path_exists head w); [apply framed_mkdir, Hname |].
  destruct (fst (makedirs_chain ok (head :: rest) w)); cbn [snd]; [| apply Hheads].
  eapply touches_trans; [apply Hheads | apply framed_mkdir, Hname].
Qed.

End Touches.

Lemma touches_weaken (F F' D D' : string -> Prop) (w w' : world) :
  (forall p, F p -> F' p) -> (forall q, D q -> D' q) ->
  touches_only F D w w' -> touches_only F' D' w w'.
Proof.
  intros HF HD (A1 & A2 & A3 & A4).
  split; [| split; [exact A2 | split; [exact A3 |]]].
  - intros p Hp. apply A1. intros Hf. apply Hp, HF, Hf.
  - intros q Hq. destruct (A4 q Hq) as [H | H]; auto.
Qed.

(** the checkpoint writes the output file and, in the European and Asian
    scripts, creates the directories on the way to it *)
Lemma framed_save_to_json (v : variant) (cfg : Config) (l : list ArticleRecord) :
  framed (fun p => p = output_file cfg) (may_create v cfg) (save_to_json v cfg l).
Proof.
  assert (forall v', v' = Europe \/ v' = Asia ->
            framed (fun p => p = output_file cfg) (may_create v' cfg)
              (save_to_json_regional cfg l)) as Hregional.
  { intros v' Hv' w. unfold save_to_json_regional.
    assert (touches_only (fun p => p = output_file cfg) (may_create v' cfg) w
              (snd (makedirs false (Path.dirname (output_file cfg)) w))) as Hdirs.
    { apply framed_makedirs_chain. intros q Hq. destruct Hv' as [-> | ->]; exact Hq. }
    destruct (PyStr.truthy _ && negb _).
    - destruct (makedirs false (Path.dirname (output_file cfg)) w) as [ok w1].
      cbn [snd] in Hdirs. destruct ok; cbn [snd]; [| exact Hdirs].
      eapply touches_trans; [exact Hdirs | apply framed_write_json; reflexivity].
    - cbn [snd]. apply framed_write_json. reflexivity. }
  destruct v; cbn [save_to_json].
  - unfold save_to_json_base. apply framed_bind; [apply framed_write_json; reflexivity |].
    intros _. apply framed_ret.
  - apply framed_ret.
  - apply Hregional. auto.
  - apply Hregional. auto.
Qed.

Lemma keeps_disk_ask (E : Env) (prompt : string) : keeps_disk (ask E prompt).
Proof. intros w. split; reflexivity. Qed.

Lemma keeps_disk_now (E : Env) : keeps_disk (now E).
Proof. intros w. split; reflexivity. Qed.

Lemma keeps_disk_summarize (E : Env) (cfg : Config) (a : ArticleRecord) :
  keeps_disk (USFiles.summarize_with_openai E cfg a).
Proof.
  unfold USFiles.summarize_with_openai.
  destruct (negb (USFiles.key_given cfg)); [apply keeps_disk_ret |].
  apply keeps_disk_bind; [apply keeps_disk_ask |].
  intros [msg|]; [| apply keeps_disk_ret].
  apply keeps_disk_bind; [apply keeps_disk_now |]. intros t. apply keeps_disk_ret.
Qed.

(** what the US script stores for an accepted record: a file of the
    articles directory and at most a file of the summaries directory *)
Lemma framed_store (E : Env) (cfg : Config) (a : ArticleRecord) :
  framed (may_write US cfg) (fun _ => False) (USFiles.store E cfg a).
Proof.
  intros w. unfold USFiles.store. rewrite bind_unfold.
  destruct (save_article_to_json_cases E cfg a w) as (name & Hchars & Hlen & [Hs | Hs]);
    rewrite Hs; cbn [fst snd].
  - assert (touches_only (may_write US cfg) (fun _ => False) w
              (put_file (USFiles.articles_dir cfg +:+ "/" +:+ name +:+ ".json")
                 (ArticleDoc a) (bump w))) as Hput.
    { eapply touches_trans; [apply (touches_same_disk _ _ w (bump w)); reflexivity |].
      apply touches_put_file. right. exists (name +:+ ".json"). left. reflexivity. }
    destruct (USFiles.key_given cfg); [| exact Hput].
    rewrite bind_unfold.
    set (w1 := put_file _ _ _) in *.
    assert (touches_only (may_write US cfg) (fun _ => False) w
              (snd (USFiles.summarize_with_openai E cfg a w1))) as Hsum.
    { eapply touches_trans; [exact Hput |].
      apply framed_keeps_disk, keeps_disk_summarize. }
    destruct (fst (USFiles.summarize_with_openai E cfg a w1)) as [s|]; [| exact Hsum].
    rewrite bind_unfold, ret_unfold. cbn [snd].
    assert (name <> EmptyString) as Hne.
    { intros ->. cbn in Hlen. lia. }
    destruct (save_summary_to_json_cases cfg s name
                (snd (USFiles.summarize_with_openai E cfg a w1)) Hchars Hne)
      as [-> | ->]; cbn [snd]; [| exact Hsum].
    eapply touches_trans; [exact Hsum |].
    apply touches_put_file. right. exists (name +:+ "_summary.json"). right. reflexivity.
  - apply touches_same_disk; reflexivity.
Qed.

Section FramedRun.

Variable E : Env.
Variable v : variant.
Variable cfg : Config.
Variables F D : string -> Prop.
Hypothesis Hsave : forall l, framed F D (save_to_json v cfg l).
Hypothesis Hstore : forall a, framed F D (on_success E v cfg a).

Lemma touches_backed_off (base step attempt : Z) (w : world) :
  touches_only F D w (backed_off cfg base step attempt w).
Proof. apply touches_same_disk; apply backed_off_disk. Qed.

Lemma framed_article_loop (src : Source) (link : string) (fuel : nat) :
  forall attempt acc, framed F D (article_loop E v cfg src link fuel attempt acc).
Proof.
  induction fuel as [|fuel IH]; intros attempt acc w; [apply touches_refl |].
  rewrite article_loop_S.
  assert (touches_only F D w (snd (scrape_article E v link src w))) as Hscrape
    by (apply framed_keeps_disk, keeps_disk_tick_only, tick_only_scrape_article).
  assert (touches_only F D w
            (snd (article_loop E v cfg src link fuel (attempt + 1) acc
                    (backed_off cfg 2 1 attempt (snd (scrape_article E v link src w))))))
    as Hretry.
  { eapply touches_trans; [exact Hscrape |].
    eapply touches_trans; [apply touches_backed_off | apply IH]. }
  destruct (fst (scrape_article E v link src w)) as [a|]; [| exact Hretry].
  destruct (is_success v (Some a)); [| exact Hretry].
  cbn [snd]. eapply touches_trans; [exact Hscrape | apply Hstore].
Qed.

Lemma framed_links_pass (src : Source) (links : list string) :
  forall acc, framed F D (links_pass E v cfg src links acc).
Proof.
  induction links as [|link rest IH]; intros acc; cbn [links_pass]; [apply framed_ret |].
  apply framed_bind; [apply framed_keeps_disk, keeps_disk_rand |]. intros r.
  apply framed_bind; [apply framed_keeps_disk, keeps_disk_sleep |]. intros _.
  apply framed_bind; [apply framed_article_loop |]. intros acc'. apply IH.
Qed.

Lemma framed_process_source (src : Source) (var : option (list string))
    (acc : list ArticleRecord) :
  framed F D (process_source E v cfg src var acc).
Proof.
  unfold process_source.
  apply framed_bind; [apply framed_keeps_disk, links_loop_disk |].
  intros [links|]; [| apply framed_ret].
  apply framed_bind; [apply framed_links_pass |]. intros acc'.
  apply framed_bind; [apply Hsave |]. intros _. apply framed_ret.
Qed.

Lemma framed_sources_loop (srcs : list Source) :
  forall var acc, framed F D (sources_loop E v cfg srcs var acc).
Proof.
  induction srcs as [|src rest IH]; intros var acc; cbn [sources_loop];
    [apply framed_ret |].
  apply framed_bind; [apply framed_process_source |].
  intros [[links acc']|]; [apply IH | apply framed_ret].
Qed.

End FramedRun.

Lemma framed_weaken {A : Type} (F F' D D' : string -> Prop) (op : M A) :
  (forall p, F p -> F' p) -> (forall q, D q -> D' q) ->
  framed F D op -> framed F' D' op.
Proof. intros HF HD Hop w. eapply touches_weaken; [exact HF | exact HD | apply Hop]. Qed.

Lemma framed_write_report (F D : string -> Prop) (v : variant) (cfg : Config) (r : Report) :
  F (report_file v cfg) -> framed F D (write_report v cfg r).
Proof.
  intros HF. unfold write_report.
  apply framed_bind; [apply framed_write_json, HF |]. intros _. apply framed_ret.
Qed.

Lemma framed_generate_report_regional (F D : string -> Prop) (E : Env) (v : variant)
    (cfg : Config) :
  F (report_file v cfg) -> framed F D (generate_report_regional E v cfg).
Proof.
  intros HF. unfold generate_report_regional.
  apply framed_bind; [intros w; apply touches_refl |].
  intros [[articles| | |]|]; try apply framed_ret.
  apply framed_bind; [apply framed_keeps_disk, keeps_disk_now |]. intros t.
  destruct (build_report v cfg articles [Clock.isoformat t]) as [r|]; [| apply framed_ret].
  apply framed_bind; [apply framed_write_report, HF |]. intros _. apply framed_ret.
Qed.

Lemma framed_generate_report_us (F D : string -> Prop) (E : Env) (cfg : Config) :
  F (report_file US cfg) -> framed F D (generate_report_us E cfg).
Proof.
  intros HF w. unfold generate_report_us.
  destruct (is_dir _ w); [| apply touches_refl].
  destruct (load_articles _) as [articles|]; [| apply touches_refl].
  revert w. change (framed F D
                      (t <- now E ;;
                       match build_report US cfg articles [Clock.isoformat t] with
                       | Some r => write_report US cfg r ;;; ret (Some r)
                       | None => ret None
                       end)).
  apply framed_bind; [apply framed_keeps_disk, keeps_disk_now |]. intros t.
  destruct (build_report US cfg articles [Clock.isoformat t]) as [r|]; [| apply framed_ret].
  apply framed_bind; [apply framed_write_report, HF |]. intros _. apply framed_ret.
Qed.

Lemma framed_generate_report_base (F D : string -> Prop) (E : Env) (cfg : Config)
    (articles : list ArticleRecord) :
  F (report_file Base cfg) -> framed F D (generate_report_base E cfg articles).
Proof.
  intros HF. unfold generate_report_base.
  apply framed_bind; [apply framed_keeps_disk, keeps_disk_now |]. intros t1.
  apply framed_bind; [apply framed_keeps_disk, keeps_disk_now |]. intros t2.
  destruct (build_report Base cfg articles _) as [r|]; [| apply framed_ret].
  apply framed_bind; [apply framed_write_report, HF |]. intros _. apply framed_ret.
Qed.

Lemma may_write_output (v : variant) (cfg : Config) :
  v <> US -> may_write v cfg (output_file cfg).
Proof. destruct v; cbn; auto. contradiction. Qed.

Lemma framed_on_success (E : Env) (v : variant) (cfg : Config) (D : string -> Prop)
    (a : ArticleRecord) :
  framed (may_write v cfg) D (on_success E v cfg a).
Proof.
  destruct (decide (v = US)) as [-> | Hv].
  - eapply framed_weaken; [| | apply framed_store]; [auto | contradiction].
  - apply framed_keeps_disk, on_success_disk, Hv.
Qed.

Lemma framed_save_to_json_run (v : variant) (cfg : Config) (l : list ArticleRecord) :
  framed (may_write v cfg) (may_create v cfg) (save_to_json v cfg l).
Proof.
  destruct (decide (v = US)) as [-> | Hv]; [apply framed_ret |].
  eapply framed_weaken; [| | apply framed_save_to_json]; [| auto].
  intros p ->. apply may_write_output, Hv.
Qed.

Lemma framed_run (E : Env) (v : variant) (cfg : Config) :
  framed (may_write v cfg) (may_create v cfg) (run E v cfg).
Proof.
  unfold run. apply framed_bind.
  - apply framed_sources_loop; [apply framed_save_to_json_run | apply framed_on_success].
  - intros [all|]; [| apply framed_ret].
    apply framed_bind; [apply framed_save_to_json_run |]. intros _.
    destruct v.
    + apply framed_ret.
    + apply framed_bind; [| intros r; apply framed_ret].
      apply framed_generate_report_us. left. reflexivity.
    + apply framed_bind; [| intros r; apply framed_ret].
      apply framed_generate_report_regional. right. reflexivity.
    + apply framed_bind; [| intros r; apply framed_ret].
      apply framed_generate_report_regional. right. reflexivity.
Qed.

(** X10: whatever the network answers, [run] leaves every file other
    than its log file alone except the ones it is meant to write (the output
    file and, in the European and Asian scripts, the report; in the US script
    the report and files of the articles and summaries directories); it
    removes no file and no directory, and creates no directory except, in
    the European and Asian scripts, the directory of the output file and its
    ancestors. [generate_report] of the base script writes, its log file
    apart, the report file only. *)
Theorem run_touches_only_its_files (E : Env) (v : variant) (cfg : Config) (w : world) :
  ((forall p, p <> log_file v -> ~ may_write v cfg p ->
      fs_files (snd (run E v cfg w)) !! p = fs_files w !! p)
   /\ (forall p, is_Some (fs_files w !! p) -> is_Some (fs_files (snd (run E v cfg w)) !! p))
   /\ (forall q, q ∈ fs_dirs w -> q ∈ fs_dirs (snd (run E v cfg w)))
   /\ (forall q, q ∈ fs_dirs (snd (run E v cfg w)) -> q ∈ fs_dirs w \/ may_create v cfg q))
  /\ (forall articles,
        (forall p, p <> log_file Base -> p <> report_file Base cfg ->
           fs_files (snd (generate_report_base E cfg articles w)) !! p = fs_files w !! p)
        /\ fs_dirs (snd (generate_report_base E cfg articles w)) = fs_dirs w).
Proof.
  split.
  - destruct (framed_run E v cfg w) as (H1 & H2 & H3 & H4).
    split; [intros p _; apply H1 | split; [exact H2 | split; [exact H3 | exact H4]]].
  - intros articles.
    destruct (framed_generate_report_base (fun p => p = report_file Base cfg)
                (fun _ => False) E cfg articles eq_refl w) as (H1 & _ & H3 & H4).
    split; [intros p _; apply H1 |].
    apply set_eq. intros q. split; [| apply H3].
    intros Hq. destruct (H4 q Hq) as [H | []]. exact H.
Qed.

(** ** The collection on disk *)

(** what [run] does to the disk before its report keeps the output file
    writable *)
Lemma writable_preserved (v : variant) (cfg : Config) (w w' : world) :
  v <> US -> writable v cfg w ->
  touches_only (fun p => p = output_file cfg) (may_create v cfg) w w' ->
  writable v cfg w'.
Proof.
  intros Hv (Hp & Hne & Hdir) (A1 & A2 & A3 & A4).
  pose proof (dirname_shorter (output_file cfg) Hne) as Hshort.
  split; [| split; [exact Hne |]].
  - destruct (is_dir (output_file cfg) w') eqn:Hx; [| reflexivity]. exfalso.
    apply bool_decide_eq_true in Hx. destruct (A4 _ Hx) as [H | H].
    + unfold is_dir in Hp. apply bool_decide_eq_false in Hp. contradiction.
    + destruct v; cbn [may_create] in H; try contradiction;
        apply chain_length in H; lia.
  - destruct v; [| contradiction | |].
    + destruct Hdir as [Hdir | Hdir]; [left; exact Hdir | right].
      apply bool_decide_eq_true. apply A3. apply bool_decide_eq_true in Hdir. exact Hdir.
    + intros d Hd. unfold is_file. rewrite A1; [apply (Hdir d Hd) |].
      intros ->. apply list_elem_of_In, chain_length in Hd. lia.
    + intros d Hd. unfold is_file. rewrite A1; [apply (Hdir d Hd) |].
      intros ->. apply list_elem_of_In, chain_length in Hd. lia.
Qed.

Lemma framed_sources_loop_output (E : Env) (v : variant) (cfg : Config)
    (srcs : list Source) (var : option (list string)) (acc : list ArticleRecord) :
  v <> US ->
  framed (fun p => p = output_file cfg) (may_create v cfg)
    (sources_loop E v cfg srcs var acc).
Proof.
  intros Hv. apply framed_sources_loop.
  - apply framed_save_to_json.
  - intros a. apply framed_keeps_disk, on_success_disk, Hv.
Qed.

Lemma tally_fold_total (v : variant) (cfg : Config) (l : list ArticleRecord) :
  forall st, total_articles (fst (List.fold_left (tally v cfg) l st)) = total_articles (fst st).
Proof.
  induction l as [|a l IH]; intros st; [reflexivity |].
  cbn [List.fold_left]. rewrite IH. destruct st as [r t]. reflexivity.
Qed.

Lemma build_report_total_articles (v : variant) (cfg : Config) (l : list ArticleRecord)
    (stamps : list string) (r : Report) :
  build_report v cfg l stamps = Some r -> total_articles r = Z.of_nat (List.length l).
Proof.
  unfold build_report.
  pose proof (tally_fold_total v cfg l
                (empty_report v (Z.of_nat (List.length l)) stamps, 0)) as Htotal.
  destruct (List.fold_left _ _ _) as [r' t]. cbn [fst empty_report total_articles] in Htotal.
  destruct (nonempty l).
  - destruct (true_div _ _); [| discriminate]. intros [= <-]. exact Htotal.
  - intros [= <-]. exact Htotal.
Qed.

(** the report of the European and Asian scripts is the report of the
    collection found in the output file *)
Lemma generate_report_regional_saved (E : Env) (v : variant) (cfg : Config) (w : world)
    (l : list ArticleRecord) :
  fs_files w !! output_file cfg = Some (ArticlesDoc l) ->
  exists r,
    build_report v cfg l [Clock.isoformat (clock E (tick w))] = Some r
    /\ generate_report_regional E v cfg w
       = (Some r, snd (write_json (report_file v cfg) (ReportDoc r) (bump w))).
Proof.
  intros Hsaved. unfold generate_report_regional, write_report, read_json.
  rewrite bind_unfold. cbn [fst snd]. rewrite Hsaved.
  repeat (rewrite ?bind_unfold, ?ret_unfold; cbn [now fst snd bump tick]).
  destruct (build_report v cfg l [Clock.isoformat (clock E (tick w))]) as [r|] eqn:Hr;
    [| exfalso; exact (build_report_total _ _ _ _ Hr)].
  exists r. split; [reflexivity |].
  repeat (rewrite ?bind_unfold, ?ret_unfold; cbn [fst snd]). reflexivity.
Qed.

Section FinalSave.

Variable E : Env.
Variable v : variant.
Variable cfg : Config.
Variable w : world.
Hypothesis Hv : v <> US.
Hypothesis Hw : writable v cfg w.
Hypothesis HN : 0 < retry_attempts cfg.

(** the state in which [run] reaches its report: the loop is over and the
    output file holds the accumulator *)
Lemma run_final_save :
  exists all,
    fst (sources_loop E v cfg (sources cfg) None [] w) = Some all
    /\ writable v cfg
         (snd (save_to_json v cfg all (snd (sources_loop E v cfg (sources cfg) None [] w))))
    /\ fs_files (snd (save_to_json v cfg all
                        (snd (sources_loop E v cfg (sources cfg) None [] w))))
         !! output_file cfg = Some (ArticlesDoc all)
    /\ (v <> Base -> Path.dirname (output_file cfg) <> EmptyString ->
        is_dir (Path.dirname (output_file cfg))
          (snd (save_to_json v cfg all
                  (snd (sources_loop E v cfg (sources cfg) None [] w)))) = true).
Proof.
  destruct (sources_loop_completes E v cfg (sources cfg) None [] w) as [all Hall];
    [left; exact HN |].
  exists all. split; [exact Hall |].
  set (w1 := snd (sources_loop E v cfg (sources cfg) None [] w)).
  assert (writable v cfg w1) as Hw1.
  { apply (writable_preserved v cfg w w1 Hv Hw).
    apply framed_sources_loop_output, Hv. }
  destruct (save_to_json_writes v cfg all w1 Hv Hw1) as [Hfile Hdir].
  split; [| split; [exact Hfile | exact Hdir]].
  apply (writable_preserved v cfg w1 _ Hv Hw1). apply framed_save_to_json.
Qed.

End FinalSave.

(** X11: in the base, European and Asian scripts, when the output file is
    writable, the report file is another file and at least one attempt is
    configured, [run] ends with exactly the returned collection in the
    output file; in the European and Asian scripts, whose report is computed
    from the file read back, the report returned is the report of that
    collection and its [total_articles] is the number of records returned. *)
Theorem collection_on_disk_matches_result (E : Env) (v : variant) (cfg : Config) (w : world) :
  v <> US -> writable v cfg w -> 0 < retry_attempts cfg ->
  report_file v cfg <> output_file cfg ->
  exists all report,
    fst (run E v cfg w) = Some (all, report)
    /\ fs_files (snd (run E v cfg w)) !! output_file cfg = Some (ArticlesDoc all)
    /\ (v <> Base ->
        exists r stamp,
          report = Some r
          /\ build_report v cfg all [stamp] = Some r
          /\ total_articles r = Z.of_nat (List.length all)).
Proof.
  intros Hv Hw HN Hreport.
  destruct (run_final_save E v cfg w Hv Hw HN) as (all & Hall & _ & Hfile & _).
  rewrite run_unfold, Hall.
  set (w2 := snd (save_to_json v cfg all
                    (snd (sources_loop E v cfg (sources cfg) None [] w)))) in *.
  assert (forall v', v' = v -> v' <> Base ->
            exists r,
              build_report v' cfg all [Clock.isoformat (clock E (tick w2))] = Some r
              /\ fst (generate_report_regional E v' cfg w2) = Some r
              /\ fs_files (snd (generate_report_regional E v' cfg w2)) !! output_file cfg
                 = Some (ArticlesDoc all)) as Hregional.
  { intros v' -> _.
    destruct (generate_report_regional_saved E v cfg w2 all Hfile) as (r & Hr & ->).
    exists r. split; [exact Hr |]. split; [reflexivity |]. cbn [snd].
    etransitivity; [apply write_json_other; congruence | exact Hfile]. }
  destruct v; [| contradiction | |].
  - exists all, None. split; [reflexivity |]. split; [exact Hfile | contradiction].
  - destruct (Hregional Europe eq_refl ltac:(discriminate)) as (r & Hr & Hfst & Hout).
    exists all, (Some r). cbn [fst snd]. rewrite Hfst.
    split; [reflexivity |]. split; [exact Hout |].
    intros _. eexists r, _. split; [reflexivity |]. split; [exact Hr |].
    apply (build_report_total_articles _ _ _ _ _ Hr).
  - destruct (Hregional Asia eq_refl ltac:(discriminate)) as (r & Hr & Hfst & Hout).
    exists all, (Some r). cbn [fst snd]. rewrite Hfst.
    split; [reflexivity |]. split; [exact Hout |].
    intros _. eexists r, _. split; [reflexivity |]. split; [exact Hr |].
    apply (build_report_total_articles _ _ _ _ _ Hr).
Qed.

Lemma collection_on_disk_matches_result_witness :
  exists all report,
    fst (run (Demo.env (Some Demo.front) 1) Asia (Demo.cfg [Demo.src]) Demo.w0)
    = Some (all, report)
    /\ fs_files (snd (run (Demo.env (Some Demo.front) 1) Asia (Demo.cfg [Demo.src])
                        Demo.w0)) !! output_file (Demo.cfg [Demo.src])
       = Some (ArticlesDoc all)
    /\ (Asia <> Base ->
        exists r stamp,
          report = Some r
          /\ build_report Asia (Demo.cfg [Demo.src]) all [stamp] = Some r
          /\ total_articles r = Z.of_nat (List.length all)).
Proof.
  apply (collection_on_disk_matches_result (Demo.env (Some Demo.front) 1) Asia
           (Demo.cfg [Demo.src]) Demo.w0).
  - discriminate.
  - apply demo_writable.
  - reflexivity.
  - vm_compute. discriminate.
Defined.

Lemma generate_report_base_value (E : Env) (cfg : Config) (articles : list ArticleRecord)
    (w : world) :
  exists r,
    build_report Base cfg articles
      [Clock.isoformat (clock E (tick w)); Clock.isoformat (clock E (S (tick w)))] = Some r
    /\ generate_report_base E cfg articles w
       = (Some r, snd (write_json (report_file Base cfg) (ReportDoc r) (bump (bump w)))).
Proof.
  unfold generate_report_base, write_report.
  repeat (rewrite ?bind_unfold, ?ret_unfold; cbn [now fst snd bump tick]).
  destruct (build_report Base cfg articles _) as [r|] eqn:Hr;
    [| exfalso; exact (build_report_total _ _ _ _ Hr)].
  exists r. split; [reflexivity |].
  repeat (rewrite ?bind_unfold, ?ret_unfold; cbn [fst snd]). reflexivity.
Qed.

(** a write into a writable output file succeeds, whatever the counter *)
Lemma write_output_file (v : variant) (cfg : Config) (d : document) (w w' : world) :
  writable v cfg w ->
  (v <> Base -> Path.dirname (output_file cfg) <> EmptyString ->
   is_dir (Path.dirname (output_file cfg)) w = true) ->
  v <> US ->
  fs_dirs w' = fs_dirs w -> fs_files w' = fs_files w ->
  fs_files (snd (write_json (output_file cfg) d w')) !! output_file cfg = Some d.
Proof.
  intros (Hp & _ & Hdir) Hmade Hv Hd Hf.
  assert (forall q, is_dir q w' = is_dir q w) as Hsame
    by (intros q; unfold is_dir; rewrite Hd; reflexivity).
  rewrite write_json_ok.
  - cbn [snd put_file fs_files]. apply lookup_insert_eq.
  - rewrite Hsame.
    destruct (decide (Path.dirname (output_file cfg) = EmptyString)) as [He | Hne];
      [left; exact He |].
    destruct v; [exact Hdir | contradiction | |]; right; apply Hmade;
      (discriminate || exact Hne).
  - rewrite Hsame. exact Hp.
Qed.

(** X12: in the base, European and Asian scripts, with at least one
    attempt configured and an output file that can be written (it is not a
    directory and, in the base script, its directory exists; in the European
    and Asian scripts no file stands where a directory of its path is
    needed): when the name of the report file is the name of the output file
    (as for an output path that does not contain ".json", the name of the
    report being obtained by a replacement of that substring), the report
    is written over the collection: after [run] of the European and Asian
    scripts, and after [generate_report] that the base script calls on the
    result of [run], the output file holds the report and the records are
    on disk no more. *)
Theorem report_overwrites_collection (E : Env) (v : variant) (cfg : Config) (w : world) :
  v <> US -> writable v cfg w -> 0 < retry_attempts cfg ->
  report_file v cfg = output_file cfg ->
  (v <> Base ->
   exists all r,
     fst (run E v cfg w) = Some (all, Some r)
     /\ total_articles r = Z.of_nat (List.length all)
     /\ fs_files (snd (run E v cfg w)) !! output_file cfg = Some (ReportDoc r))
  /\ (v = Base ->
      exists all r,
        fst (run E v cfg w) = Some (all, None)
        /\ fst (generate_report_base E cfg all (snd (run E v cfg w))) = Some r
        /\ total_articles r = Z.of_nat (List.length all)
        /\ fs_files (snd (generate_report_base E cfg all (snd (run E v cfg w))))
             !! output_file cfg = Some (ReportDoc r)).
Proof.
  intros Hv Hw HN Hreport.
  destruct (run_final_save E v cfg w Hv Hw HN) as (all & Hall & Hw2 & Hfile & Hdir).
  rewrite run_unfold, Hall.
  set (w2 := snd (save_to_json v cfg all
                    (snd (sources_loop E v cfg (sources cfg) None [] w)))) in *.
  split.
  - intros Hbase.
    assert (exists r,
               fst (generate_report_regional E v cfg w2) = Some r
               /\ total_articles r = Z.of_nat (List.length all)
               /\ fs_files (snd (generate_report_regional E v cfg w2)) !! output_file cfg
                  = Some (ReportDoc r)) as (r & Hfst & Htotal & Hout).
    { destruct (generate_report_regional_saved E v cfg w2 all Hfile) as (r & Hr & ->).
      exists r. split; [reflexivity |].
      split; [apply (build_report_total_articles _ _ _ _ _ Hr) |].
      cbn [snd]. rewrite Hreport.
      apply (write_output_file v cfg (ReportDoc r) w2 (bump w2) Hw2 Hdir Hv); reflexivity. }
    exists all, r. destruct v; try contradiction; cbn [fst snd]; rewrite Hfst; auto.
  - intros ->. exists all. cbn [fst snd]. fold w2.
    destruct (generate_report_base_value E cfg all w2) as (r & Hr & ->).
    exists r. split; [reflexivity |]. split; [reflexivity |].
    split; [apply (build_report_total_articles _ _ _ _ _ Hr) |].
    cbn [snd]. rewrite Hreport.
    apply (write_output_file Base cfg (ReportDoc r) w2 (bump (bump w2)) Hw2 Hdir Hv);
      reflexivity.
Qed.

Lemma report_overwrites_collection_witness :
  (Asia <> Base ->
   exists all r,
     fst (run (Demo.env (Some Demo.front) 1) Asia
            (mkConfig "out/articles" "US_tech_news" 3 None None [Demo.src]) Demo.w0)
     = Some (all, Some r)
     /\ total_articles r = Z.of_nat (List.length all)
     /\ fs_files (snd (run (Demo.env (Some Demo.front) 1) Asia
                         (mkConfig "out/articles" "US_tech_news" 3 None None [Demo.src])
                         Demo.w0))
          !! output_file (mkConfig "out/articles" "US_tech_news" 3 None None [Demo.src])
        = Some (ReportDoc r))
  /\ report_file Asia (mkConfig "out/articles" "US_tech_news" 3 None None [Demo.src])
     = "out/articles".
Proof.
  split; [| reflexivity].
  apply (report_overwrites_collection (Demo.env (Some Demo.front) 1) Asia
           (mkConfig "out/articles" "US_tech_news" 3 None None [Demo.src]) Demo.w0).
  - discriminate.
  - split; [reflexivity |]. split; [discriminate |]. intros d _. reflexivity.
  - reflexivity.
  - reflexivity.
Defined.

(** ** Checkpoints along the loop over the sources *)

Lemma links_loop_var (E : Env) (v : variant) (cfg : Config) (src : Source) (fuel : nat)
    (attempt : Z) (var var' : option (list string)) (w : world) :
  (0 < fuel)%nat ->
  links_loop E v cfg src fuel attempt var w = links_loop E v cfg src fuel attempt var' w.
Proof.
  destruct fuel as [|fuel]; [lia |]. intros _. rewrite !links_loop_S. reflexivity.
Qed.

Lemma process_source_var (E : Env) (v : variant) (cfg : Config) (src : Source)
    (var var' : option (list string)) (acc : list ArticleRecord) (w : world) :
  0 < retry_attempts cfg ->
  process_source E v cfg src var acc w = process_source E v cfg src var' acc w.
Proof.
  intros HN. rewrite !process_source_unfold.
  rewrite (links_loop_var E v cfg src _ 0 var var' w) by lia. reflexivity.
Qed.

Lemma sources_loop_var (E : Env) (v : variant) (cfg : Config) (srcs : list Source)
    (var var' : option (list string)) (acc : list ArticleRecord) (w : world) :
  0 < retry_attempts cfg ->
  sources_loop E v cfg srcs var acc w = sources_loop E v cfg srcs var' acc w.
Proof.
  intros HN. destruct srcs as [|src rest]; [reflexivity |].
  rewrite !sources_loop_cons, (process_source_var E v cfg src var var' acc w HN).
  reflexivity.
Qed.

(** the loop over [s1 ++ s2] is the loop over [s1] followed by the loop
    over [s2] *)
Lemma sources_loop_app (E : Env) (v : variant) (cfg : Config) (s1 s2 : list Source) :
  0 < retry_attempts cfg ->
  forall var acc w,
    sources_loop E v cfg (s1 ++ s2) var acc w
    = match fst (sources_loop E v cfg s1 var acc w) with
      | Some mid => sources_loop E v cfg s2 None mid (snd (sources_loop E v cfg s1 var acc w))
      | None => (None, snd (sources_loop E v cfg s1 var acc w))
      end.
Proof.
  intros HN. induction s1 as [|src rest IH]; intros var acc w.
  - cbn [app sources_loop ret fst snd]. apply sources_loop_var, HN.
  - cbn [app]. rewrite !sources_loop_cons.
    destruct (fst (process_source E v cfg src var acc w)) as [[links acc']|];
      [apply IH | reflexivity].
Qed.

Lemma process_source_saved (E : Env) (v : variant) (cfg : Config) (src : Source)
    (var : option (list string)) (acc : list ArticleRecord) (w : world)
    (links : list string) (acc' : list ArticleRecord) :
  v <> US -> writable v cfg w ->
  fst (process_source E v cfg src var acc w) = Some (links, acc') ->
  fs_files (snd (process_source E v cfg src var acc w)) !! output_file cfg
  = Some (ArticlesDoc acc').
Proof.
  intros Hv Hw. rewrite process_source_unfold.
  destruct (fst (links_loop E v cfg src (Z.to_nat (retry_attempts cfg)) 0 var w))
    as [found|]; [| discriminate].
  cbn [fst snd]. intros [= Hl Ha]. rewrite <- Ha.
  set (w1 := snd (links_loop E v cfg src (Z.to_nat (retry_attempts cfg)) 0 var w)).
  apply save_to_json_writes; [exact Hv |].
  destruct (links_loop_disk E v cfg src (Z.to_nat (retry_attempts cfg)) 0 var w)
    as [Hd1 Hf1].
  destruct (links_pass_disk E v cfg src Hv found acc w1) as [Hd2 Hf2].
  apply (writable_same_disk v cfg w); [| | exact Hw].
  - rewrite Hd2. exact Hd1.
  - rewrite Hf2. exact Hf1.
Qed.

Lemma sources_loop_saved (E : Env) (v : variant) (cfg : Config) (srcs : list Source) :
  v <> US ->
  forall var acc w all,
    srcs <> [] -> writable v cfg w ->
    fst (sources_loop E v cfg srcs var acc w) = Some all ->
    fs_files (snd (sources_loop E v cfg srcs var acc w)) !! output_file cfg
    = Some (ArticlesDoc all).
Proof.
  intros Hv. induction srcs as [|src rest IH]; intros var acc w all Hne Hw;
    [contradiction |].
  rewrite sources_loop_cons.
  destruct (fst (process_source E v cfg src var acc w)) as [[links acc']|] eqn:Hsrc;
    [| discriminate].
  destruct rest as [|src' rest'].
  - cbn [sources_loop ret fst snd]. intros [= <-].
    apply (process_source_saved _ _ _ _ _ _ _ _ _ Hv Hw Hsrc).
  - apply IH; [discriminate |].
    apply (writable_preserved v cfg w _ Hv Hw).
    apply framed_process_source.
    + apply framed_save_to_json.
    + intros a. apply framed_keeps_disk, on_success_disk, Hv.
Qed.

(** X13: the checkpoints of the base, European and Asian scripts, with at
    least one attempt configured and an output file that can be written (it
    is not a directory and, in the base script, its directory exists; in the
    European and Asian scripts no file stands where a directory of its path
    is needed): once the first sources [s1] of the table (at least one) are
    processed, the output file holds exactly the records gathered so far,
    and these are an initial segment of the collection the complete run
    returns; a run that is interrupted later has lost nothing of them. *)
Theorem checkpoint_is_prefix_of_result (E : Env) (v : variant) (cfg : Config) (w : world)
    (s1 s2 : list Source) :
  v <> US -> writable v cfg w -> 0 < retry_attempts cfg ->
  sources cfg = (s1 ++ s2)%list -> s1 <> [] ->
  exists mid all report,
    fst (sources_loop E v cfg s1 None [] w) = Some mid
    /\ fs_files (snd (sources_loop E v cfg s1 None [] w)) !! output_file cfg
       = Some (ArticlesDoc mid)
    /\ fst (run E v cfg w) = Some (all, report)
    /\ mid `prefix_of` all.
Proof.
  intros Hv Hw HN Hsrc Hne.
  destruct (sources_loop_completes E v cfg s1 None [] w) as [mid Hmid];
    [left; exact HN |].
  pose proof (sources_loop_saved E v cfg s1 Hv None [] w mid Hne Hw Hmid) as Hsaved.
  destruct (sources_loop_completes E v cfg s2 None mid
              (snd (sources_loop E v cfg s1 None [] w))) as [all Hall];
    [left; exact HN |].
  destruct (sources_loop_adds E v cfg s2 _ _ _ _ HN Hall) as (more & Hmore & _).
  assert (fst (sources_loop E v cfg (sources cfg) None [] w) = Some all) as Hloop.
  { rewrite Hsrc, (sources_loop_app E v cfg s1 s2 HN), Hmid. exact Hall. }
  exists mid, all.
  assert (exists report, fst (run E v cfg w) = Some (all, report)) as [report Hrun].
  { rewrite run_unfold, Hloop. destruct v; eexists; reflexivity. }
  exists report. split; [exact Hmid |]. split; [exact Hsaved |]. split; [exact Hrun |].
  exists more. exact Hmore.
Qed.

Lemma checkpoint_is_prefix_of_result_witness :
  exists mid all report,
    fst (sources_loop (Demo.env (Some Demo.front) 1) Asia (Demo.cfg [Demo.src; Demo.src])
           [Demo.src] None [] Demo.w0) = Some mid
    /\ fs_files (snd (sources_loop (Demo.env (Some Demo.front) 1) Asia
                        (Demo.cfg [Demo.src; Demo.src]) [Demo.src] None [] Demo.w0))
         !! output_file (Demo.cfg [Demo.src; Demo.src])
       = Some (ArticlesDoc mid)
    /\ fst (run (Demo.env (Some Demo.front) 1) Asia (Demo.cfg [Demo.src; Demo.src]) Demo.w0)
       = Some (all, report)
    /\ mid `prefix_of` all.
Proof.
  apply (checkpoint_is_prefix_of_result (Demo.env (Some Demo.front) 1) Asia
           (Demo.cfg [Demo.src; Demo.src]) Demo.w0 [Demo.src] [Demo.src]).
  - discriminate.
  - apply demo_writable.
  - reflexivity.
  - reflexivity.
  - discriminate.
Defined.

(** ** A run without network *)

Lemma keeps_sleeps_mkdir (ok : bool) (name : string) (parent : option string) :
  keeps_sleeps (mkdir ok name parent).
Proof. intros w. unfold mkdir. destruct (_ && _); reflexivity. Qed.

Lemma keeps_sleeps_makedirs_chain (ok : bool) (names : list string) :
  keeps_sleeps (makedirs_chain ok names).
Proof.
  induction names as [|name heads IH]; [apply keeps_sleeps_ret |].
  destruct heads as [|head rest]; [apply keeps_sleeps_mkdir |].
  intros w. rewrite makedirs_chain_step.
  destruct (path_exists head w); [apply keeps_sleeps_mkdir |].
  destruct (fst (makedirs_chain ok (head :: rest) w)); cbn [snd]; [| apply IH].
  rewrite keeps_sleeps_mkdir. apply IH.
Qed.

Lemma keeps_sleeps_save_to_json (v : variant) (cfg : Config) (l : list ArticleRecord) :
  keeps_sleeps (save_to_json v cfg l).
Proof.
  assert (keeps_sleeps (save_to_json_regional cfg l)) as Hregional.
  { intros w. unfold save_to_json_regional.
    pose proof (keeps_sleeps_makedirs_chain false
                  (Path.chain (String.length (Path.dirname (output_file cfg)))
                     (Path.dirname (output_file cfg))) w) as Hdirs.
    fold (makedirs false (Path.dirname (output_file cfg))) in Hdirs.
    destruct (PyStr.truthy _ && negb _).
    - destruct (makedirs false (Path.dirname (output_file cfg)) w) as [ok w1].
      cbn [snd] in Hdirs. destruct ok; cbn [snd]; [| exact Hdirs].
      rewrite keeps_sleeps_write_json. exact Hdirs.
    - cbn [snd]. apply keeps_sleeps_write_json. }
  destruct v; cbn [save_to_json]; try exact Hregional; [| apply keeps_sleeps_ret].
  unfold save_to_json_base.
  apply keeps_sleeps_bind; [apply keeps_sleeps_write_json | intros _; apply keeps_sleeps_ret].
Qed.

Lemma keeps_sleeps_write_report (v : variant) (cfg : Config) (r : Report) :
  keeps_sleeps (write_report v cfg r).
Proof.
  unfold write_report.
  apply keeps_sleeps_bind; [apply keeps_sleeps_write_json | intros _; apply keeps_sleeps_ret].
Qed.

Lemma keeps_sleeps_generate_report_regional (E : Env) (v : variant) (cfg : Config) :
  keeps_sleeps (generate_report_regional E v cfg).
Proof.
  unfold generate_report_regional.
  apply keeps_sleeps_bind; [intros w; reflexivity |].
  intros [[articles| | |]|]; try apply keeps_sleeps_ret.
  apply keeps_sleeps_bind; [apply keeps_sleeps_now |]. intros t.
  destruct (build_report v cfg articles [Clock.isoformat t]) as [r|];
    [| apply keeps_sleeps_ret].
  apply keeps_sleeps_bind; [apply keeps_sleeps_write_report |].
  intros _. apply keeps_sleeps_ret.
Qed.

Lemma keeps_sleeps_generate_report_us (E : Env) (cfg : Config) :
  keeps_sleeps (generate_report_us E cfg).
Proof.
  intros w. unfold generate_report_us.
  destruct (is_dir _ w); [| reflexivity].
  destruct (load_articles _) as [articles|]; [| reflexivity].
  revert w. change (keeps_sleeps
                      (t <- now E ;;
                       match build_report US cfg articles [Clock.isoformat t] with
                       | Some r => write_report US cfg r ;;; ret (Some r)
                       | None => ret None
                       end)).
  apply keeps_sleeps_bind; [apply keeps_sleeps_now |]. intros t.
  destruct (build_report US cfg articles [Clock.isoformat t]) as [r|];
    [| apply keeps_sleeps_ret].
  apply keeps_sleeps_bind; [apply keeps_sleeps_write_report |].
  intros _. apply keeps_sleeps_ret.
Qed.

Section NetworkDown.

Variable E : Env.
Variable v : variant.
Variable cfg : Config.
Hypothesis Hdown : forall n u, http_get E n u = None.
Hypothesis HN : 0 < retry_attempts cfg.

Lemma discover_down (src : Source) (w : world) :
  fst (get_article_links_cfg E v cfg src w) = [].
Proof.
  rewrite get_article_links_cfg_value, Hdown. cbn [links_of_page].
  destruct (articles_limit cfg) as [n|]; [| reflexivity].
  destruct (n =? 0); [reflexivity |].
  destruct (slice_to_take n (@nil string)) as [k ->]. apply take_nil.
Qed.

Lemma links_loop_down (src : Source) (var : option (list string)) (w : world) :
  fst (links_loop E v cfg src (Z.to_nat (retry_attempts cfg)) 0 var w) = Some []
  /\ sleeps (snd (links_loop E v cfg src (Z.to_nat (retry_attempts cfg)) 0 var w))
     = (sleeps w ++ backoffs 3 2 (Z.to_nat (retry_attempts cfg) - 1))%list.
Proof.
  destruct (links_loop_exhausted E v cfg src (Z.to_nat (retry_attempts cfg)) 0 var w)
    as [Hfst Hsleeps].
  - lia.
  - intros k _. unfold attempt_result. apply discover_down.
  - split; [| exact Hsleeps].
    rewrite Hfst. destruct (Z.to_nat (retry_attempts cfg)) eqn:Hfuel; [lia | reflexivity].
Qed.

Lemma process_source_down (src : Source) (var : option (list string))
    (acc : list ArticleRecord) (w : world) :
  fst (process_source E v cfg src var acc w) = Some ([], acc)
  /\ sleeps (snd (process_source E v cfg src var acc w))
     = (sleeps w ++ backoffs 3 2 (Z.to_nat (retry_attempts cfg) - 1))%list.
Proof.
  destruct (links_loop_down src var w) as [Hfst Hsleeps].
  rewrite process_source_unfold, Hfst. cbn [links_pass ret fst snd].
  split; [reflexivity |]. rewrite keeps_sleeps_save_to_json. exact Hsleeps.
Qed.

Lemma sources_loop_down (srcs : list Source) :
  forall var acc w,
    fst (sources_loop E v cfg srcs var acc w) = Some acc
    /\ sleeps (snd (sources_loop E v cfg srcs var acc w))
       = (sleeps w
          ++ List.concat (replicate (List.length srcs)
                       (backoffs 3 2 (Z.to_nat (retry_attempts cfg) - 1))))%list.
Proof.
  induction srcs as [|src rest IH]; intros var acc w.
  - cbn [sources_loop ret fst snd List.length replicate List.concat].
    rewrite app_nil_r. auto.
  - destruct (process_source_down src var acc w) as [Hfst Hsleeps].
    rewrite sources_loop_cons, Hfst.
    destruct (IH (Some []) acc (snd (process_source E v cfg src var acc w)))
      as [Hrest Hrest_sleeps].
    split; [exact Hrest |].
    rewrite Hrest_sleeps, Hsleeps. cbn [List.length replicate List.concat].
    rewrite <- app_assoc. reflexivity.
Qed.

End NetworkDown.

(** X14: without network (every request fails) and with at least one
    configured attempt, [run] ends normally with an empty collection in
    every variant; all it has slept is, for each source in turn, the waits
    3, 5, ... between the [retry_attempts] discovery attempts. *)
Theorem run_without_network (E : Env) (v : variant) (cfg : Config) (w : world) :
  (forall n u, http_get E n u = None) -> 0 < retry_attempts cfg ->
  (exists report, fst (run E v cfg w) = Some ([], report))
  /\ sleeps (snd (run E v cfg w))
     = (sleeps w
        ++ List.concat (replicate (List.length (sources cfg))
                     (backoffs 3 2 (Z.to_nat (retry_attempts cfg) - 1))))%list.
Proof.
  intros Hdown HN.
  destruct (sources_loop_down E v cfg Hdown HN (sources cfg) None [] w) as [Hfst Hsleeps].
  rewrite run_unfold, Hfst.
  destruct v; cbn [fst snd]; (split; [eexists; reflexivity |]).
  - rewrite (keeps_sleeps_save_to_json Base). exact Hsleeps.
  - rewrite keeps_sleeps_generate_report_us. exact Hsleeps.
  - rewrite keeps_sleeps_generate_report_regional, (keeps_sleeps_save_to_json Europe).
    exact Hsleeps.
  - rewrite keeps_sleeps_generate_report_regional, (keeps_sleeps_save_to_json Asia).
    exact Hsleeps.
Qed.

Lemma run_without_network_witness :
  (exists report,
     fst (run (Demo.env None 1) Europe (Demo.cfg [Demo.src; Demo.src]) Demo.w0)
     = Some ([], report))
  /\ sleeps (snd (run (Demo.env None 1) Europe (Demo.cfg [Demo.src; Demo.src]) Demo.w0))
     = (sleeps Demo.w0
        ++ List.concat (replicate (List.length (sources (Demo.cfg [Demo.src; Demo.src])))
                     (backoffs 3 2
                        (Z.to_nat (retry_attempts (Demo.cfg [Demo.src; Demo.src])) - 1))))%list.
Proof.
  apply (run_without_network (Demo.env None 1) Europe (Demo.cfg [Demo.src; Demo.src]) Demo.w0).
  - intros n u. reflexivity.
  - reflexivity.
Defined.

(** ** The counts of a report *)

Lemma occurrences_cons (f : ArticleRecord -> string) (x : string) (a : ArticleRecord)
    (l : list ArticleRecord) :
  occurrences f x (a :: l)
  = (if bool_decide (f a = x) then 1 else 0) + occurrences f x l.
Proof.
  unfold occurrences. cbn [List.filter].
  destruct (bool_decide (f a = x)); cbn [List.length]; lia.
Qed.

Lemma occurrences_nonneg (f : ArticleRecord -> string) (x : string)
    (l : list ArticleRecord) :
  0 <= occurrences f x l.
Proof. unfold occurrences. lia. Qed.

Lemma occurrences_zero (f : ArticleRecord -> string) (x : string) (l : list ArticleRecord) :
  occurrences f x l = 0 <-> forall a, a ∈ l -> f a <> x.
Proof.
  induction l as [|a l IH].
  - split; [intros _ a Ha; inversion Ha | reflexivity].
  - rewrite occurrences_cons. pose proof (occurrences_nonneg f x l) as Hpos.
    destruct (bool_decide (f a = x)) eqn:Ha.
    + apply bool_decide_eq_true in Ha. split; [lia |].
      intros H. exfalso. apply (H a); [left | exact Ha].
    + apply bool_decide_eq_false in Ha. rewrite Z.add_0_l, IH. split.
      * intros H b [-> | Hb]%elem_of_cons; auto.
      * intros H b Hb. apply H. right. exact Hb.
Qed.

Lemma count_lookup (k : string) (d : gmap string Z) (s : string) :
  count k d !! s = if bool_decide (s = k) then Some (default 0 (d !! k) + 1) else d !! s.
Proof.
  unfold count. destruct (bool_decide (s = k)) eqn:Hs.
  - apply bool_decide_eq_true in Hs. subst. apply lookup_insert_eq.
  - apply bool_decide_eq_false in Hs. apply lookup_insert_ne. congruence.
Qed.

Lemma count_known_lookup (k : string) (d : gmap string Z) (s : string) :
  count_known k d !! s
  = if bool_decide (s = k) then (fun x => x + 1) <$> d !! k else d !! s.
Proof.
  unfold count_known. destruct (bool_decide (is_Some (d !! k))) eqn:Hk.
  - apply bool_decide_eq_true in Hk. destruct Hk as [x Hx].
    rewrite count_lookup, Hx. reflexivity.
  - apply bool_decide_eq_false in Hk.
    destruct (bool_decide (s = k)) eqn:Hs; [| reflexivity].
    apply bool_decide_eq_true in Hs. subst.
    destruct (d !! k) as [x|] eqn:Hx; [exfalso; apply Hk; eauto | reflexivity].
Qed.

Lemma zeros_lookup (keys : list string) (c : string) :
  zeros keys !! c = if bool_decide (c ∈ keys) then Some 0 else None.
Proof.
  induction keys as [|k ks IH].
  - reflexivity.
  - change (zeros (k :: ks)) with (<[k := 0]> (zeros ks)).
    destruct (decide (c = k)) as [-> | Hne].
    + rewrite lookup_insert_eq, bool_decide_eq_true_2; [reflexivity | left].
    + rewrite lookup_insert_ne by congruence. rewrite IH.
      destruct (bool_decide (c ∈ ks)) eqn:Hc.
      * apply bool_decide_eq_true in Hc. rewrite bool_decide_eq_true_2; [reflexivity |].
        right. exact Hc.
      * apply bool_decide_eq_false in Hc. rewrite bool_decide_eq_false_2; [reflexivity |].
        intros [-> | H]%elem_of_cons; contradiction.
Qed.

(** the loop of [generate_report], from any state of the counters *)
Lemma tally_fold (v : variant) (cfg : Config) (l : list ArticleRecord) :
  forall r0 t0,
    (forall s,
       by_source (fst (List.fold_left (tally v cfg) l (r0, t0))) !! s
       = if occurrences source s l =? 0 then by_source r0 !! s
         else Some (default 0 (by_source r0 !! s) + occurrences source s l))
    /\ (forall c,
          by_category (fst (List.fold_left (tally v cfg) l (r0, t0))) !! c
          = (fun x => x + occurrences category c l) <$> by_category r0 !! c)
    /\ snd (List.fold_left (tally v cfg) l (r0, t0)) = t0 + content_total l.
Proof.
  induction l as [|a l IH]; intros r0 t0.
  - cbn [List.fold_left fst snd content_total List.fold_right]. split; [| split].
    + intros s. reflexivity.
    + intros c. unfold occurrences. cbn [List.filter List.length Z.of_nat].
      destruct (by_category r0 !! c) as [x|]; cbn [fmap option_fmap option_map];
        [f_equal; lia | reflexivity].
    + lia.
  - cbn [List.fold_left]. unfold tally at 2 4 6.
    match goal with
    | |- context [List.fold_left (tally v cfg) l (?r1, ?t1)] =>
        destruct (IH r1 t1) as (Hsrc & Hcat & Htotal)
    end.
    split; [| split].
    + intros s. rewrite Hsrc. cbn [by_source]. rewrite occurrences_cons, count_lookup.
      pose proof (occurrences_nonneg source s l) as Hpos.
      destruct (bool_decide (s = source a)) eqn:Hs.
      * apply bool_decide_eq_true in Hs. subst s.
        rewrite (bool_decide_eq_true_2 (source a = source a)) by reflexivity.
        set (n := occurrences source (source a) l) in *. clearbody n.
        destruct (Z.eqb_spec n 0) as [Hz | Hnz];
          destruct (Z.eqb_spec (1 + n) 0) as [H1 | H1]; try lia;
          cbn [default]; apply (f_equal Some); unfold id; lia.
      * apply bool_decide_eq_false in Hs.
        rewrite (bool_decide_eq_false_2 (source a = s)) by congruence.
        rewrite Z.add_0_l. reflexivity.
    + intros c. rewrite Hcat. cbn [by_category]. rewrite occurrences_cons, count_known_lookup.
      destruct (bool_decide (c = category a)) eqn:Hc.
      * apply bool_decide_eq_true in Hc. subst c.
        rewrite (bool_decide_eq_true_2 (category a = category a)) by reflexivity.
        destruct (by_category r0 !! category a) as [x|];
          cbn [fmap option_fmap option_map]; [f_equal; lia | reflexivity].
      * apply bool_decide_eq_false in Hc.
        rewrite (bool_decide_eq_false_2 (category a = c)) by congruence.
        rewrite Z.add_0_l. reflexivity.
    + rewrite Htotal. cbn [content_total List.fold_right]. fold (content_total l). lia.
Qed.

Lemma tally_fold_avg (v : variant) (cfg : Config) (l : list ArticleRecord) :
  forall st,
    average_content_length (fst (List.fold_left (tally v cfg) l st))
    = average_content_length (fst st).
Proof.
  induction l as [|a l IH]; intros st; [reflexivity |].
  cbn [List.fold_left]. rewrite IH. destruct st as [r t]. reflexivity.
Qed.

Lemma build_report_counts (v : variant) (cfg : Config) (l : list ArticleRecord)
    (stamps : list string) (r : Report) :
  build_report v cfg l stamps = Some r ->
  (forall s, by_source r !! s
             = if occurrences source s l =? 0 then None else Some (occurrences source s l))
  /\ (forall c, by_category r !! c
                = if bool_decide (c ∈ known_categories v)
                  then Some (occurrences category c l) else None)
  /\ average_content_length r
     = match l with
       | [] => 0%Q
       | _ => (inject_Z (content_total l) / inject_Z (Z.of_nat (List.length l)))%Q
       end.
Proof.
  unfold build_report.
  destruct (tally_fold v cfg l (empty_report v (Z.of_nat (List.length l)) stamps) 0)
    as (Hsrc & Hcat & Htotal).
  pose proof (tally_fold_avg v cfg l
                (empty_report v (Z.of_nat (List.length l)) stamps, 0)) as Havg.
  destruct (List.fold_left _ _ _) as [r' t]. cbn [fst snd] in *.
  assert (forall s, by_source r' !! s
                    = if occurrences source s l =? 0 then None
                      else Some (occurrences source s l)) as Hsrc'.
  { intros s. rewrite Hsrc. cbn [empty_report by_source]. rewrite lookup_empty.
    destruct (_ =? 0); reflexivity. }
  assert (forall c, by_category r' !! c
                    = if bool_decide (c ∈ known_categories v)
                      then Some (occurrences category c l) else None) as Hcat'.
  { intros c. rewrite Hcat.
    assert (by_category (empty_report v (Z.of_nat (List.length l)) stamps)
            = zeros (known_categories v)) as -> by (destruct v; reflexivity).
    rewrite zeros_lookup. destruct (bool_decide _); reflexivity. }
  destruct l as [|a l]; cbn [nonempty].
  - intros [= <-]. split; [exact Hsrc' |]. split; [exact Hcat' |]. exact Havg.
  - unfold true_div. destruct (_ =? 0); [discriminate |].
    intros [= <-]. cbn [with_average by_source by_category average_content_length].
    split; [exact Hsrc' |]. split; [exact Hcat' |]. rewrite Htotal. reflexivity.
Qed.

(** X15: the report computed from a collection, in every variant:
    [total_articles] is the number of records; [by_source] has exactly the
    sources that occur, each with its number of records; [by_category] has
    exactly the categories the script knows (the Asian script does not know
    "investing"), each with its number of records, the records of any other
    category being counted nowhere; [average_content_length] is 0 for the
    empty collection and the sum of the [content_length] fields divided by
    the number of records otherwise. *)
Theorem report_counts_the_collection (v : variant) (cfg : Config) (l : list ArticleRecord)
    (stamps : list string) (r : Report) :
  build_report v cfg l stamps = Some r ->
  total_articles r = Z.of_nat (List.length l)
  /\ (forall s, by_source r !! s
                = if occurrences source s l =? 0 then None
                  else Some (occurrences source s l))
  /\ (forall c, by_category r !! c
                = if bool_decide (c ∈ known_categories v)
                  then Some (occurrences category c l) else None)
  /\ average_content_length r
     = match l with
       | [] => 0%Q
       | _ => (inject_Z (content_total l) / inject_Z (Z.of_nat (List.length l)))%Q
       end.
Proof.
  intros Hr. split; [apply (build_report_total_articles _ _ _ _ _ Hr) |].
  apply (build_report_counts _ _ _ _ _ Hr).
Qed.

Lemma report_counts_the_collection_witness :
  exists r,
    build_report Asia (Demo.cfg [Demo.src]) [Demo.abc_record; Demo.untitled_record] []
    = Some r
    /\ total_articles r = 2
    /\ by_source r !! "Example" = Some 2
    /\ by_source r !! "Other" = None
    /\ by_category r !! "technology" = Some 2
    /\ by_category r !! "investing" = None
    /\ average_content_length r = (inject_Z 13 / inject_Z 2)%Q.
Proof.
  destruct (build_report Asia (Demo.cfg [Demo.src]) [Demo.abc_record; Demo.untitled_record] [])
    as [r|] eqn:Hr; [| exfalso; exact (build_report_total _ _ _ _ Hr)].
  exists r. split; [reflexivity |].
  destruct (report_counts_the_collection _ _ _ _ _ Hr) as (Htotal & Hsrc & Hcat & Havg).
  split; [exact Htotal |].
  split; [rewrite Hsrc; reflexivity |]. split; [rewrite Hsrc; reflexivity |].
  split; [rewrite Hcat; reflexivity |]. split; [rewrite Hcat; reflexivity |].
  exact Havg.
Defined.

(** X16: the "Sources with no articles" that the base script prints after
    its report: a name is listed exactly when it is the name of a configured
    source and no record of the collection comes from a source of that
    name. *)
Theorem failed_sources_are_the_silent_ones (cfg : Config) (l : list ArticleRecord)
    (stamps : list string) (r : Report) (s : string) :
  build_report Base cfg l stamps = Some r ->
  s ∈ failed_sources cfg r
  <-> (exists src, src ∈ sources cfg /\ src_name src = s)
      /\ forall a, a ∈ l -> source a <> s.
Proof.
  intros Hr. destruct (build_report_counts _ _ _ _ _ Hr) as (Hsrc & _).
  unfold failed_sources.
  rewrite elem_of_difference, elem_of_list_to_set, elem_of_dom, Hsrc.
  rewrite <- (occurrences_zero source s l).
  assert (s ∈ List.map src_name (sources cfg)
          <-> exists src, src ∈ sources cfg /\ src_name src = s) as ->.
  { rewrite list_elem_of_In, in_map_iff. split.
    - intros (src & Hname & Hin). exists src. split; [apply list_elem_of_In, Hin | exact Hname].
    - intros (src & Hin & Hname). exists src. split; [exact Hname | apply list_elem_of_In, Hin]. }
  destruct (Z.eqb_spec (occurrences source s l) 0) as [Hz | Hnz].
  - split; intros [H _]; (split; [exact H |]); [exact Hz |].
    exact is_Some_None.
  - split; intros [H Hno]; (split; [exact H |]).
    + exfalso. apply Hno. exists (occurrences source s l). reflexivity.
    + contradiction.
Qed.

Lemma failed_sources_are_the_silent_ones_witness :
  "Example" ∈ failed_sources (Demo.cfg [Demo.src]) (empty_report Base 0 [])
  <-> (exists src, src ∈ sources (Demo.cfg [Demo.src]) /\ src_name src = "Example")
      /\ forall a, a ∈ @nil ArticleRecord -> source a <> "Example".
Proof.
  apply (failed_sources_are_the_silent_ones (Demo.cfg [Demo.src]) [] []). reflexivity.
Defined.

(** ** When the clustering gives up *)

Section ClusteringFailure.

Import Clustering.

Variable article_metadata : list Metadata.

Lemma pick_raised (x : id_value) :
  pick article_metadata x = Raised
  <-> x = IdOther
      \/ exists q, x = IdFloat q
                   /\ Qle_bool 0 q = true
                   /\ Qle_bool (inject_Z (Z.of_nat (List.length article_metadata))) q = false.
Proof.
  split.
  - destruct x as [i | b | q |].
    + rewrite (pick_int article_metadata (IdInt i) i eq_refl). discriminate.
    + rewrite (pick_int article_metadata (IdBool b) _ eq_refl). discriminate.
    + cbn [pick]. intros Hp. right. exists q. split; [reflexivity |].
      destruct (Qle_bool 0 q); [| discriminate Hp].
      destruct (Qle_bool _ q); [discriminate Hp | auto].
    + intros _. left. reflexivity.
  - intros [-> | (q & -> & H0 & H1)]; [reflexivity |].
    cbn [pick]. rewrite H0, H1. reflexivity.
Qed.

Lemma gather_raised (ids : list id_value) (x : id_value) :
  In x ids -> pick article_metadata x = Raised ->
  forall acc, gather article_metadata ids acc = Raised.
Proof.
  induction ids as [|y ids IH]; intros Hin Hx acc; [contradiction |].
  cbn [gather]. destruct Hin as [-> | Hin]; [rewrite Hx; reflexivity |].
  destruct (pick article_metadata y) as [[a|]|]; [apply IH | apply IH | reflexivity]; auto.
Qed.

Lemma map_themes_raised (reply : list ThemeReply) (theme : ThemeReply) :
  In theme reply -> gather article_metadata (article_ids theme) [] = Raised ->
  forall done, map_themes article_metadata reply done = Raised.
Proof.
  induction reply as [|th reply IH]; intros Hin Hraised done; [contradiction |].
  cbn [map_themes]. destruct Hin as [-> | Hin]; [rewrite Hraised; reflexivity |].
  destruct (gather article_metadata (article_ids th) []); [apply IH | reflexivity]; auto.
Qed.

End ClusteringFailure.

(** X17: one id that is not an integer fails the whole clustering: when
    any theme of the reply holds an id that is no number (null, a string, a
    list, an object) or a float from 0 up to, but excluding, the number of
    articles, [cluster_articles_by_theme] returns nothing at all, the themes
    with valid ids included. These are the only ids that raise. *)
Theorem one_bad_id_fails_the_clustering (has_client : bool)
    (article_metadata : list Clustering.Metadata) (reply : list Clustering.ThemeReply)
    (stamp : string) (theme : Clustering.ThemeReply) (x : Clustering.id_value) :
  In theme reply -> In x (Clustering.article_ids theme) ->
  (x = Clustering.IdOther
   \/ exists q, x = Clustering.IdFloat q
                /\ Qle_bool 0 q = true
                /\ Qle_bool (inject_Z (Z.of_nat (List.length article_metadata))) q = false) ->
  Clustering.cluster_articles_by_theme has_client (Clustering.Parsed reply)
    article_metadata stamp = None
  /\ (forall y, Clustering.pick article_metadata y = Clustering.Raised
                <-> y = Clustering.IdOther
                    \/ exists q, y = Clustering.IdFloat q
                                 /\ Qle_bool 0 q = true
                                 /\ Qle_bool (inject_Z (Z.of_nat (List.length
                                                                    article_metadata))) q
                                    = false).
Proof.
  intros Htheme Hx Hbad. split; [| apply pick_raised].
  apply pick_raised in Hbad.
  unfold Clustering.cluster_articles_by_theme. destruct has_client; [| reflexivity].
  rewrite (map_themes_raised article_metadata reply theme Htheme); [reflexivity |].
  apply (gather_raised article_metadata _ x Hx Hbad).
Qed.

Lemma one_bad_id_fails_the_clustering_witness :
  Clustering.cluster_articles_by_theme true
    (Clustering.Parsed
       [Clustering.mkThemeReply (Some "Chips") None [Clustering.IdInt 0];
        Clustering.mkThemeReply (Some "Cars") None
          [Clustering.IdInt 0; Clustering.IdFloat (1 # 2)]])
    (Clustering.extract_article_metadata [Demo.abc_record]) "now" = None.
Proof.
  apply (one_bad_id_fails_the_clustering true
           (Clustering.extract_article_metadata [Demo.abc_record])
           [Clustering.mkThemeReply (Some "Chips") None [Clustering.IdInt 0];
            Clustering.mkThemeReply (Some "Cars") None
              [Clustering.IdInt 0; Clustering.IdFloat (1 # 2)]]
           "now"
           (Clustering.mkThemeReply (Some "Cars") None
              [Clustering.IdInt 0; Clustering.IdFloat (1 # 2)])
           (Clustering.IdFloat (1 # 2))).
  - right. left. reflexivity.
  - right. left. reflexivity.
  - right. exists (1 # 2)%Q. repeat split.
Defined.

(** ** Trimmed fields *)

Lemma lstrip_by_head (p : ascii -> bool) (s : string) :
  match PyStr.lstrip_by p s with
  | String c _ => p c = false
  | EmptyString => True
  end.
Proof.
  induction s as [|c s IH]; [exact I |].
  cbn [PyStr.lstrip_by]. destruct (p c) eqn:Hc; [exact IH | exact Hc].
Qed.

Lemma lstrip_by_fixed (p : ascii -> bool) (s : string) :
  match s with String c _ => p c = false | EmptyString => True end ->
  PyStr.lstrip_by p s = s.
Proof. destruct s as [|c s]; [reflexivity |]. cbn [PyStr.lstrip_by]. intros ->. reflexivity. Qed.

Lemma rstrip_by_cons (p : ascii -> bool) (c : ascii) (s : string) :
  p c = false ->
  exists r, PyStr.rstrip_by p (String c s) = String c r.
Proof.
  intros Hc. cbn [PyStr.rstrip_by]. rewrite Hc.
  destruct (PyStr.rstrip_by p s); eexists; reflexivity.
Qed.

Lemma rstrip_by_idem (p : ascii -> bool) (s : string) :
  PyStr.rstrip_by p (PyStr.rstrip_by p s) = PyStr.rstrip_by p s.
Proof.
  induction s as [|c s IH]; [reflexivity |].
  cbn [PyStr.rstrip_by]. destruct (PyStr.rstrip_by p s) as [|c' r] eqn:Hr.
  - destruct (p c) eqn:Hc; [reflexivity |]. cbn [PyStr.rstrip_by]. rewrite Hc. reflexivity.
  - change (PyStr.rstrip_by p (String c (String c' r)))
      with (match PyStr.rstrip_by p (String c' r) with
            | EmptyString => if p c then EmptyString else String c EmptyString
            | r0 => String c r0
            end).
    rewrite IH. reflexivity.
Qed.

(** [strip] applied twice is [strip] *)
Lemma strip_idem (s : string) : PyStr.strip (PyStr.strip s) = PyStr.strip s.
Proof.
  unfold PyStr.strip.
  rewrite (lstrip_by_fixed PyStr.isspace
             (PyStr.rstrip_by PyStr.isspace (PyStr.lstrip_by PyStr.isspace s))).
  - apply rstrip_by_idem.
  - pose proof (lstrip_by_head PyStr.isspace s) as Hhead.
    destruct (PyStr.lstrip_by PyStr.isspace s) as [|c t]; [exact I |].
    destruct (rstrip_by_cons PyStr.isspace c t Hhead) as [r ->]. exact Hhead.
Qed.

Lemma rstrip_by_none (p : ascii -> bool) (s : string) :
  all_chars (fun c => negb (p c)) s = true -> PyStr.rstrip_by p s = s.
Proof.
  induction s as [|c s IH]; [reflexivity |].
  cbn [all_chars PyStr.rstrip_by]. intros [Hc Hs]%andb_true_iff.
  rewrite (IH Hs). apply negb_true_iff in Hc. rewrite Hc. destruct s; reflexivity.
Qed.

Lemma lstrip_by_none (p : ascii -> bool) (s : string) :
  all_chars (fun c => negb (p c)) s = true -> PyStr.lstrip_by p s = s.
Proof.
  destruct s as [|c s]; [reflexivity |].
  cbn [all_chars PyStr.lstrip_by]. intros [Hc _]%andb_true_iff.
  apply negb_true_iff in Hc. rewrite Hc. reflexivity.
Qed.

(** a date printed by [strftime] holds no white space *)
Lemma strip_strftime_ymd (t : datetime) :
  PyStr.strip (Clock.strftime_ymd t) = Clock.strftime_ymd t.
Proof.
  assert (all_chars (fun c => negb (PyStr.isspace c)) (Clock.strftime_ymd t) = true) as Hall.
  { apply (all_chars_impl name_char).
    - intros c Hc. apply negb_true_iff. apply (name_char_facts c Hc).
    - unfold Clock.strftime_ymd. rewrite !all_chars_app, !pad_name_chars. reflexivity. }
  unfold PyStr.strip. rewrite (lstrip_by_none _ _ Hall). apply rstrip_by_none, Hall.
Qed.

Lemma scrape_article_date (E : Env) (v : variant) (link : string) (src : Source)
    (w : world) (r : ArticleRecord) :
  fst (scrape_article E v link src w) = Some r ->
  (exists d, date r = stripped_text d) \/ (exists t, date r = Clock.strftime_ymd t).
Proof.
  unfold scrape_article, bind, fetch.
  destruct (http_get E (tick w) link) as [soup|]; [| discriminate].
  destruct (two_tier E (date_selector src) DATE_FALLBACK soup) as [d|];
    simpl; intros [= <-]; [left | right]; eexists; reflexivity.
Qed.

(** X18: the title, the author and the date of every record that
    [scrape_article] returns are trimmed: stripping them again changes
    nothing, be they the text of an element, a placeholder or the date of the
    day. *)
Theorem scraped_fields_are_trimmed (E : Env) (v : variant) (link : string)
    (src : Source) (w : world) (r : ArticleRecord) :
  fst (scrape_article E v link src w) = Some r ->
  PyStr.strip (title r) = title r
  /\ PyStr.strip (author r) = author r
  /\ PyStr.strip (date r) = date r.
Proof.
  intros Hr. destruct (scrape_article_some E v link src w r Hr) as [soup Hsoup].
  destruct (scrape_article_fields E v link src w soup r Hsoup Hr) as (Ht & _ & Ha & _).
  split; [| split].
  - rewrite Ht. unfold title_text_of, stripped_text.
    destruct (two_tier _ _ _ _); [apply strip_idem | reflexivity].
  - rewrite Ha. unfold author_text_of, stripped_text.
    destruct (select_one _ _ _); [apply strip_idem | reflexivity].
  - destruct (scrape_article_date E v link src w r Hr) as [[d ->] | [t ->]].
    + apply strip_idem.
    + apply strip_strftime_ymd.
Qed.

Lemma scraped_fields_are_trimmed_witness :
  PyStr.strip (title (Demo.blank_record 1)) = title (Demo.blank_record 1)
  /\ PyStr.strip (author (Demo.blank_record 1)) = author (Demo.blank_record 1)
  /\ PyStr.strip (date (Demo.blank_record 1)) = date (Demo.blank_record 1).
Proof.
  apply (scraped_fields_are_trimmed (Demo.env (Some Demo.blank) 1) Base Demo.link
           Demo.src Demo.w0).
  reflexivity.
Defined.

(** ** The article and summary files of the US script *)

Lemma summaries_dir_length (cfg : Config) :
  String.length (USFiles.summaries_dir cfg) = S (String.length (USFiles.articles_dir cfg)).
Proof.
  unfold USFiles.summaries_dir, USFiles.articles_dir, Path.join.
  change (PyStr.startswith "/" "summaries") with false.
  change (PyStr.startswith "/" "articles") with false.
  destruct (negb (PyStr.truthy (output_dir cfg)) || PyStr.endswith "/" (output_dir cfg));
    rewrite !length_append; cbn [String.length]; lia.
Qed.

(** an article file and a summary file never have the same path *)
Lemma article_path_is_no_summary_path (cfg : Config) (name name' : string) :
  String.length name = String.length name' ->
  USFiles.articles_dir cfg +:+ "/" +:+ name +:+ ".json"
  <> USFiles.summaries_dir cfg +:+ "/" +:+ name' +:+ "_summary.json".
Proof.
  intros Hlen Heq. apply (f_equal String.length) in Heq.
  rewrite !length_append, summaries_dir_length in Heq. cbn [String.length] in Heq. lia.
Qed.

Lemma summarize_with_openai_fields (E : Env) (cfg : Config) (a : ArticleRecord)
    (w : world) (s : Summary) :
  fst (USFiles.summarize_with_openai E cfg a w) = Some s ->
  USFiles.key_given cfg = true
  /\ article_title s = title a /\ article_source s = source a
  /\ article_url s = url a /\ article_date s = date a
  /\ PyStr.strip (summary s) = summary s.
Proof.
  unfold USFiles.summarize_with_openai.
  destruct (USFiles.key_given cfg); cbn [negb]; [| discriminate].
  rewrite bind_unfold. destruct (fst (ask E _ w)) as [msg|]; [| discriminate].
  rewrite bind_unfold, ret_unfold. cbn [fst]. intros [= <-].
  cbn [article_title article_source article_url article_date summary].
  repeat split. apply strip_idem.
Qed.

(** X20: what the US script stores for one accepted record. Besides the
    article file [articles/NAME.json] it writes at most one file,
    [summaries/NAME_summary.json] of the same NAME; it does so only when an
    API key is configured, the summary then naming the title, source, URL and
    date of that record with a trimmed text, and the article file holding the
    record. No other file changes, the log file apart. *)
Theorem stored_summary_pairs_with_article (E : Env) (cfg : Config) (a : ArticleRecord)
    (w : world) :
  exists name,
    (forall p,
       p <> USFiles.articles_dir cfg +:+ "/" +:+ name +:+ ".json" ->
       p <> USFiles.summaries_dir cfg +:+ "/" +:+ name +:+ "_summary.json" ->
       p <> log_file US ->
       fs_files (snd (USFiles.store E cfg a w)) !! p = fs_files w !! p)
    /\ (fs_files (snd (USFiles.store E cfg a w))
          !! (USFiles.summaries_dir cfg +:+ "/" +:+ name +:+ "_summary.json")
        = fs_files w !! (USFiles.summaries_dir cfg +:+ "/" +:+ name +:+ "_summary.json")
        \/ exists s,
             fs_files (snd (USFiles.store E cfg a w))
               !! (USFiles.summaries_dir cfg +:+ "/" +:+ name +:+ "_summary.json")
             = Some (SummaryDoc s)
             /\ fs_files (snd (USFiles.store E cfg a w))
                  !! (USFiles.articles_dir cfg +:+ "/" +:+ name +:+ ".json")
                = Some (ArticleDoc a)
             /\ USFiles.key_given cfg = true
             /\ article_title s = title a /\ article_source s = source a
             /\ article_url s = url a /\ article_date s = date a
             /\ PyStr.strip (summary s) = summary s).
Proof.
  unfold USFiles.store. rewrite bind_unfold.
  destruct (save_article_to_json_cases E cfg a w) as (name & Hchars & Hlen & [Hs | Hs]);
    exists name; rewrite Hs; cbn [fst snd].
  - set (art := USFiles.articles_dir cfg +:+ "/" +:+ name +:+ ".json").
    set (sum := USFiles.summaries_dir cfg +:+ "/" +:+ name +:+ "_summary.json").
    assert (art <> sum) as Hne
      by (apply article_path_is_no_summary_path; reflexivity).
    set (w1 := put_file art (ArticleDoc a) (bump w)).
    assert (forall p, p <> art -> fs_files w1 !! p = fs_files w !! p) as Hw1.
    { intros p Hp. unfold w1. cbn [put_file fs_files bump].
      apply lookup_insert_ne. congruence. }
    assert (fs_files w1 !! art = Some (ArticleDoc a)) as Hart
      by (unfold w1; cbn [put_file fs_files]; apply lookup_insert_eq).
    destruct (USFiles.key_given cfg) eqn:Hkey;
      [| rewrite ret_unfold; cbn [snd]; split;
         [intros p Hp _ _; apply Hw1, Hp | left; apply Hw1; congruence]].
    rewrite bind_unfold.
    destruct (keeps_disk_summarize E cfg a w1) as [_ Hfiles].
    destruct (fst (USFiles.summarize_with_openai E cfg a w1)) as [s|] eqn:Hsum;
      [| rewrite ret_unfold; cbn [snd]; rewrite Hfiles; split;
         [intros p Hp _ _; apply Hw1, Hp | left; apply Hw1; congruence]].
    rewrite bind_unfold, ret_unfold. cbn [snd].
    assert (name <> EmptyString) as Hname.
    { intros ->. cbn in Hlen. lia. }
    pose proof (save_summary_to_json_cases cfg s name
                  (snd (USFiles.summarize_with_openai E cfg a w1)) Hchars Hname) as Hcase.
    fold art sum in Hcase. destruct Hcase as [-> | ->]; cbn [snd].
    + cbn [put_file fs_files]. rewrite Hfiles. split.
      * intros p Hp Hp' _. rewrite lookup_insert_ne by congruence. apply Hw1, Hp.
      * right. exists s. rewrite lookup_insert_eq. split; [reflexivity |].
        rewrite lookup_insert_ne by congruence. split; [exact Hart |].
        destruct (summarize_with_openai_fields E cfg a w1 s Hsum) as (_ & Hfields).
        split; [reflexivity | exact Hfields].
    + rewrite Hfiles. split; [intros p Hp _ _; apply Hw1, Hp | left; apply Hw1; congruence].
  - rewrite ret_unfold. cbn [snd bump fs_files]. split; [reflexivity | left; reflexivity].
Qed.

(** ** The delay before each article *)

Lemma article_loop_sleeps (E : Env) (v : variant) (cfg : Config) (src : Source)
    (link : string) (acc : list ArticleRecord) (w : world) :
  exists j,
    (j <= Z.to_nat (retry_attempts cfg) - 1)%nat
    /\ sleeps (snd (article_loop E v cfg src link (Z.to_nat (retry_attempts cfg)) 0 acc w))
       = (sleeps w ++ backoffs 2 1 j)%list.
Proof.
  destruct (Z_lt_le_dec 0 (retry_attempts cfg)) as [Hpos | Hnone].
  - apply (article_loop_shape E v cfg src link (Z.to_nat (retry_attempts cfg)) 0 acc w). lia.
  - replace (Z.to_nat (retry_attempts cfg)) with 0%nat by lia.
    exists 0%nat. cbn [article_loop ret snd backoffs seq List.map].
    rewrite app_nil_r. split; [lia | reflexivity].
Qed.

Lemma random_delay_bounds (r : Q) :
  (0 <= r)%Q /\ (r < 1)%Q ->
  ((3 # 2) <= (3 # 2) + r * 2)%Q /\ ((3 # 2) + r * 2 < (7 # 2))%Q.
Proof.
  destruct r as [n d]. unfold Qle, Qlt, Qplus, Qmult. cbn [Qnum Qden].
  intros [H0 H1]. split; nia.
Qed.

(** X21: the politeness of the pass over the links of a source: when
    [random.random()] answers in [0, 1), every link is preceded by one sleep
    of at least 1.5 and at most 3.5 seconds, followed only by the waits 2,
    3, ... between the attempts on that link; the pass sleeps nothing
    else. *)
Theorem every_article_request_is_delayed (E : Env) (v : variant) (cfg : Config)
    (src : Source) (links : list string) (acc : list ArticleRecord) (w : world) :
  (forall n, (0 <= random E n)%Q /\ (random E n < 1)%Q) ->
  exists waits : list (Q * nat),
    List.length waits = List.length links
    /\ sleeps (snd (links_pass E v cfg src links acc w))
       = (sleeps w ++ List.flat_map (fun dj => fst dj :: backoffs 2 1 (snd dj)) waits)%list
    /\ Forall (fun dj => ((3 # 2) <= fst dj)%Q /\ (fst dj <= (7 # 2))%Q
                         /\ (snd dj <= Z.to_nat (retry_attempts cfg) - 1)%nat) waits.
Proof.
  intros Hrandom. revert acc w.
  induction links as [|link rest IH]; intros acc w.
  - exists []. cbn [links_pass ret snd List.length List.flat_map].
    rewrite app_nil_r. repeat split. constructor.
  - cbn [links_pass]. rewrite !bind_unfold. cbn [rand fst snd].
    set (d := ((3 # 2) + random E (tick w) * 2)%Q).
    set (w1 := snd (sleep d (bump w))).
    destruct (article_loop_sleeps E v cfg src link acc w1) as (j & Hj & Hloop).
    destruct (IH (fst (article_loop E v cfg src link (Z.to_nat (retry_attempts cfg)) 0 acc w1))
                (snd (article_loop E v cfg src link (Z.to_nat (retry_attempts cfg)) 0 acc w1)))
      as (waits & Hlen & Hsleeps & Hall).
    exists ((d, j) :: waits). split; [cbn [List.length]; lia |]. split.
    + rewrite Hsleeps, Hloop. unfold w1. cbn [sleep snd sleeps bump List.flat_map fst].
      rewrite <- !app_assoc. reflexivity.
    + constructor; [| exact Hall]. cbn [fst snd].
      destruct (random_delay_bounds (random E (tick w)) (Hrandom (tick w))) as [Hlo Hhi].
      split; [exact Hlo |]. split; [apply Qlt_le_weak, Hhi | exact Hj].
Qed.

Lemma every_article_request_is_delayed_witness :
  exists waits : list (Q * nat),
    List.length waits = List.length ["https://example.com/a"; "https://example.com/b"]
    /\ sleeps (snd (links_pass (Demo.env (Some Demo.front) 1) Asia (Demo.cfg [Demo.src])
                      Demo.src ["https://example.com/a"; "https://example.com/b"] []
                      Demo.w0))
       = (sleeps Demo.w0
          ++ List.flat_map (fun dj => fst dj :: backoffs 2 1 (snd dj)) waits)%list
    /\ Forall (fun dj => ((3 # 2) <= fst dj)%Q /\ (fst dj <= (7 # 2))%Q
                         /\ (snd dj <= Z.to_nat (retry_attempts (Demo.cfg [Demo.src])) - 1)%nat)
         waits.
Proof.
  apply (every_article_request_is_delayed (Demo.env (Some Demo.front) 1) Asia
           (Demo.cfg [Demo.src]) Demo.src).
  intros n. split; [discriminate | reflexivity].
Defined.

(** ** The sources kept by the command line *)

Lemma filter_sublist {A : Type} (f : A -> bool) (l : list A) : sublist (List.filter f l) l.
Proof.
  induction l as [|x l IH]; [constructor |].
  cbn [List.filter]. destruct (f x); [apply sublist_skip | apply sublist_cons]; exact IH.
Qed.

Lemma keep_where_sublist (field : Source -> option string) (value : option string)
    (l : list Source) :
  sublist (keep_where field value l) l.
Proof. unfold keep_where. destruct (given value); [apply filter_sublist | reflexivity]. Qed.

Lemma keep_where_holds (field : Source -> option string) (value : option string)
    (l : list Source) (x : string) :
  given value = Some x -> Forall (fun s => field s = Some x) (keep_where field value l).
Proof.
  intros Hx. unfold keep_where. rewrite Hx. apply Forall_forall. intros s Hs.
  apply list_elem_of_In, filter_In in Hs as [_ Hs]. apply bool_decide_eq_true in Hs. exact Hs.
Qed.

Lemma sublist_Forall_keeps {A : Type} (P : A -> Prop) (l1 l2 : list A) :
  sublist l1 l2 -> Forall P l2 -> Forall P l1.
Proof.
  intros Hsub Hall. apply Forall_forall. intros x Hx.
  rewrite Forall_forall in Hall. apply Hall. apply (elem_of_sublist _ _ _ Hx Hsub).
Qed.

Lemma select_sources_sublist (v : variant) (args : Args) (table : list Source) :
  sublist (select_sources v args table) (filter_sources v args table).
Proof.
  unfold select_sources. destruct (arg_sources args) as [n|]; [| reflexivity].
  destruct (n =? 0); [reflexivity | apply slice_to_sublist].
Qed.

(** X22: the sources [__main__] hands to [run]: they are sources of the
    table, in the order of the table; when [--category] is given all of
    them have that category, when [--region] is given (base script) that
    region, when [--country] is given (European and Asian scripts) that
    country; a positive [--sources] bounds their number. *)
Theorem selected_sources_match_the_options (v : variant) (args : Args)
    (table : list Source) :
  sublist (select_sources v args table) table
  /\ (forall c, given (arg_category args) = Some c ->
        Forall (fun s => src_category s = c) (select_sources v args table))
  /\ (forall r, v = Base -> given (arg_region args) = Some r ->
        Forall (fun s => src_region s = r) (select_sources v args table))
  /\ (forall k, v = Europe \/ v = Asia -> given (arg_country args) = Some k ->
        Forall (fun s => src_country s = Some k) (select_sources v args table))
  /\ (forall n, arg_sources args = Some n -> 0 < n ->
        (List.length (select_sources v args table) <= Z.to_nat n)%nat).
Proof.
  pose proof (select_sources_sublist v args table) as Hsel.
  split; [| split; [| split; [| split]]].
  - etransitivity; [exact Hsel |].
    unfold filter_sources. destruct v;
      repeat (etransitivity; [apply keep_where_sublist |]); reflexivity.
  - intros c Hc. apply (sublist_Forall_keeps _ _ _ Hsel).
    assert (forall l, Forall (fun s => src_category s = c)
                        (keep_where (fun s => Some (src_category s)) (arg_category args) l))
      as Hcat.
    { intros l. eapply Forall_impl; [apply (keep_where_holds _ _ l c Hc) |].
      intros s [= Hs]. exact Hs. }
    unfold filter_sources. destruct v; try apply Hcat;
      (eapply sublist_Forall_keeps; [apply keep_where_sublist | apply Hcat]).
  - intros r -> Hr. apply (sublist_Forall_keeps _ _ _ Hsel).
    cbn [filter_sources].
    eapply sublist_Forall_keeps; [apply keep_where_sublist |].
    eapply Forall_impl; [apply (keep_where_holds _ _ table r Hr) |].
    intros s [= Hs]. exact Hs.
  - intros k Hv Hk. apply (sublist_Forall_keeps _ _ _ Hsel).
    destruct Hv as [-> | ->]; cbn [filter_sources]; apply (keep_where_holds _ _ _ k Hk).
  - intros n Hn Hpos. unfold select_sources. rewrite Hn.
    assert ((n =? 0) = false) as -> by (apply Z.eqb_neq; lia).
    unfold slice_to. assert ((0 <=? n) = true) as -> by (apply Z.leb_le; lia).
    rewrite length_take. apply Nat.le_min_l.
Qed.

(** ** The base script without the directory of its output file *)

Section MissingDirectory.

Variable E : Env.
Variable cfg : Config.
Hypothesis Hdir : Path.dirname (output_file cfg) <> EmptyString.

Lemma write_json_without_parent (d : document) (w : world) :
  is_dir (Path.dirname (output_file cfg)) w = false ->
  write_json (output_file cfg) d w = (false, w).
Proof.
  intros Hmissing. unfold write_json. rewrite Hmissing.
  unfold PyStr.truthy. rewrite bool_decide_eq_false_2 by exact Hdir. reflexivity.
Qed.

Lemma same_disk_missing (w w' : world) :
  fs_dirs w' = fs_dirs w ->
  is_dir (Path.dirname (output_file cfg)) w = false ->
  is_dir (Path.dirname (output_file cfg)) w' = false.
Proof. intros Hd. unfold is_dir. rewrite Hd. auto. Qed.

Lemma process_source_without_parent (src : Source) (var : option (list string))
    (acc : list ArticleRecord) (w : world) :
  is_dir (Path.dirname (output_file cfg)) w = false ->
  fs_dirs (snd (process_source E Base cfg src var acc w)) = fs_dirs w
  /\ fs_files (snd (process_source E Base cfg src var acc w)) = fs_files w.
Proof.
  intros Hmissing. rewrite process_source_unfold.
  destruct (links_loop_disk E Base cfg src (Z.to_nat (retry_attempts cfg)) 0 var w)
    as [Hd1 Hf1].
  destruct (fst (links_loop E Base cfg src (Z.to_nat (retry_attempts cfg)) 0 var w))
    as [links|]; cbn [snd]; [| auto].
  set (w1 := snd (links_loop E Base cfg src (Z.to_nat (retry_attempts cfg)) 0 var w)) in *.
  destruct (links_pass_disk E Base cfg src ltac:(discriminate) links acc w1) as [Hd2 Hf2].
  set (w2 := snd (links_pass E Base cfg src links acc w1)) in *.
  cbn [save_to_json]. unfold save_to_json_base. rewrite bind_unfold, ret_unfold. cbn [snd].
  rewrite write_json_without_parent.
  - cbn [snd]. split; congruence.
  - apply (same_disk_missing w w2); [congruence | exact Hmissing].
Qed.

Lemma sources_loop_without_parent (srcs : list Source) :
  forall var acc w,
    is_dir (Path.dirname (output_file cfg)) w = false ->
    fs_dirs (snd (sources_loop E Base cfg srcs var acc w)) = fs_dirs w
    /\ fs_files (snd (sources_loop E Base cfg srcs var acc w)) = fs_files w.
Proof.
  induction srcs as [|src rest IH]; intros var acc w Hmissing; [auto |].
  rewrite sources_loop_cons.
  destruct (process_source_without_parent src var acc w Hmissing) as [Hd Hf].
  destruct (fst (process_source E Base cfg src var acc w)) as [[links acc']|];
    cbn [snd]; [| auto].
  destruct (IH (Some links) acc' (snd (process_source E Base cfg src var acc w)))
    as [Hd' Hf']; [apply (same_disk_missing w); assumption |].
  split; congruence.
Qed.

End MissingDirectory.

(** X23: the base script does not create the directory of its output file:
    when the output path names a directory and that directory is missing,
    [run] writes no file other than its log file, neither at the checkpoints
    nor at the end, creates no directory, and still returns its collection
    when at least one attempt is configured; the records exist in memory
    only. *)
Theorem base_run_persists_nothing_without_directory (E : Env) (cfg : Config) (w : world) :
  Path.dirname (output_file cfg) <> EmptyString ->
  is_dir (Path.dirname (output_file cfg)) w = false ->
  (forall p, p <> log_file Base ->
     fs_files (snd (run E Base cfg w)) !! p = fs_files w !! p)
  /\ fs_dirs (snd (run E Base cfg w)) = fs_dirs w
  /\ (0 < retry_attempts cfg -> exists all, fst (run E Base cfg w) = Some (all, None)).
Proof.
  intros Hdir Hmissing.
  destruct (sources_loop_without_parent E cfg Hdir (sources cfg) None [] w Hmissing)
    as [Hd Hf].
  rewrite run_unfold.
  assert (forall all,
            snd (save_to_json Base cfg all (snd (sources_loop E Base cfg (sources cfg) None [] w)))
            = snd (sources_loop E Base cfg (sources cfg) None [] w)) as Hsave.
  { intros all. cbn [save_to_json]. unfold save_to_json_base.
    rewrite bind_unfold, ret_unfold. cbn [snd].
    rewrite (write_json_without_parent cfg Hdir); [reflexivity |].
    apply (same_disk_missing cfg w); assumption. }
  destruct (fst (sources_loop E Base cfg (sources cfg) None [] w)) as [all|] eqn:Hall;
    cbn [fst snd]; rewrite ?Hsave.
  - split; [intros p _; rewrite Hf; reflexivity |]. split; [exact Hd |].
    intros _. exists all. reflexivity.
  - split; [intros p _; rewrite Hf; reflexivity |]. split; [exact Hd |]. intros HN.
    destruct (sources_loop_completes E Base cfg (sources cfg) None [] w) as [all Hall'];
      [left; exact HN |].
    congruence.
Qed.

Lemma base_run_persists_nothing_without_directory_witness :
  (forall p, p <> log_file Base ->
     fs_files (snd (run (Demo.env (Some Demo.front) 1) Base (Demo.cfg [Demo.src]) Demo.w0))
       !! p = fs_files Demo.w0 !! p)
  /\ fs_dirs (snd (run (Demo.env (Some Demo.front) 1) Base (Demo.cfg [Demo.src]) Demo.w0))
     = fs_dirs Demo.w0
  /\ (0 < retry_attempts (Demo.cfg [Demo.src]) ->
      exists all,
        fst (run (Demo.env (Some Demo.front) 1) Base (Demo.cfg [Demo.src]) Demo.w0)
        = Some (all, None)).
Proof.
  apply (base_run_persists_nothing_without_directory (Demo.env (Some Demo.front) 1)
           (Demo.cfg [Demo.src]) Demo.w0).
  - discriminate.
  - reflexivity.
Defined.
